(** * The ocean query pipeline: provider failover, classification, retrieval
      and empty-data handling

    A shallow embedding of [src/lib/providers/llm-controller.ts] and of the
    orchestration code of [src/lib/mcp/orchestrator.ts], with the properties
    the specification states about them.

    Modelling conventions.
    - JavaScript strings are [string]s of 8-bit characters; case folding is
      the ASCII one (the phrases the code looks for are ASCII), and [.] in a
      pattern stops at LF and CR.  On ASCII text this is the language's
      behaviour; a property that would rest on the folding of other
      characters is stated for ASCII text.
    - JavaScript numbers are rationals extended with NaN and the infinities;
      the arithmetic of the synthetic-data generators is the exact one,
      without the rounding and the overflow of doubles.  A property of
      computed numbers is stated where these cannot change it.
    - Code that throws, awaits or touches the outside world is written in a
      state-and-exception monad [M S]; the state survives a throw, as it
      does in JavaScript.
    - The runtime's [Date] arithmetic and number printing are taken from a
      [Platform] record.
    - A numeric field of the API's JSON is a number, [null] or absent. *)

From Stdlib Require Import ZArith QArith Qround Qminmax Bool List String Ascii Lia Lqa.
From Stdlib Require Import DecimalString.
Import ListNotations.

Set Implicit Arguments.
Local Open Scope string_scope.
Local Open Scope list_scope.

(* ================================================================== *)
(** * JavaScript values *)
(* ================================================================== *)

(** ** Strings *)

Definition lowerChar (c : ascii) : ascii :=
  let n := nat_of_ascii c in
  if (Nat.leb 65 n && Nat.leb n 90)%bool then ascii_of_nat (n + 32) else c.

(** [s.toLowerCase()] *)
Fixpoint toLowerCase (s : string) : string :=
  match s with
  | EmptyString => EmptyString
  | String c s' => String (lowerChar c) (toLowerCase s')
  end.

(** [s.startsWith(p)] *)
Fixpoint startsWith (p s : string) : bool :=
  match p, s with
  | EmptyString, _ => true
  | String a p', String b s' => (Ascii.eqb a b && startsWith p' s')%bool
  | String _ _, EmptyString => false
  end.

(** [s.includes(p)] *)
Fixpoint includes (p s : string) : bool :=
  (startsWith p s ||
   match s with
   | EmptyString => false
   | String _ s' => includes p s'
   end)%bool.

(** [s.split(c)[0]]: the part of [s] before the first [c]. *)
Fixpoint splitHead (c : ascii) (s : string) : string :=
  match s with
  | EmptyString => EmptyString
  | String a s' => if Ascii.eqb a c then EmptyString else String a (splitHead c s')
  end.

(** A string is truthy when it is not empty. *)
Definition truthyString (s : string) : bool :=
  match s with EmptyString => false | _ => true end.

(** [`${n}`] for a loop counter. *)
Definition natToString (n : nat) : string :=
  NilEmpty.string_of_uint (Nat.to_uint n).

(** ** Numbers *)

Inductive JSNumber : Type :=
| NaN
| PosInfinity
| NegInfinity
| Fin (q : Q).

(** [a <= b] on numbers: false as soon as a NaN is involved. *)
Definition numLe (a b : JSNumber) : bool :=
  match a, b with
  | NaN, _ | _, NaN => false
  | NegInfinity, _ => true
  | _, PosInfinity => true
  | Fin x, Fin y => Qle_bool x y
  | _, _ => false
  end.

Definition numGe (a b : JSNumber) : bool := numLe b a.

(** ToBoolean on a number: [0] and [NaN] are falsy. *)
Definition truthyNumber (n : JSNumber) : bool :=
  match n with
  | NaN => false
  | Fin q => negb (Qeq_bool q 0)
  | _ => true
  end.

(** The value of a numeric JSON field: absent, [null], or a number. *)
Inductive JSValue : Type :=
| JUndefined
| JNull
| JNumber (n : JSNumber).

Definition truthy (v : JSValue) : bool :=
  match v with
  | JNumber n => truthyNumber n
  | _ => false
  end.

(** ToNumber: [undefined] is NaN, [null] is 0. *)
Definition toNumber (v : JSValue) : JSNumber :=
  match v with
  | JUndefined => NaN
  | JNull => Fin 0
  | JNumber n => n
  end.

(** The global [isNaN(v)]. *)
Definition isNaN (v : JSValue) : bool :=
  match toNumber v with NaN => true | _ => false end.

Definition isUndefined (v : JSValue) : bool :=
  match v with JUndefined => true | _ => false end.

(** [a || b] *)
Definition jsOr (a b : JSValue) : JSValue := if truthy a then a else b.

(** [v >= k], [v <= k] for a numeric constant [k]. *)
Definition geConst (v : JSValue) (k : Q) : bool := numGe (toNumber v) (Fin k).
Definition leConst (v : JSValue) (k : Q) : bool := numLe (toNumber v) (Fin k).

(** ** Exceptions *)

Record JSError : Type := mkError { err_name : string; err_message : string }.

(** What a [throw] carries: an [Error] object or some other value. *)
Inductive Thrown : Type :=
| ThrownError (e : JSError)
| ThrownValue.

Definition newError (msg : string) : Thrown := ThrownError (mkError "Error" msg).
Definition typeError (msg : string) : Thrown := ThrownError (mkError "TypeError" msg).
Definition rangeError (msg : string) : Thrown := ThrownError (mkError "RangeError" msg).

Inductive Completion (A : Type) : Type :=
| Normal (a : A)
| Throw (e : Thrown).
Arguments Throw {A} e.

(** ** The state-and-exception monad *)

Definition M (S A : Type) : Type := S -> Completion A * S.

Definition ret {S A} (a : A) : M S A := fun s => (Normal a, s).

Definition throw {S A} (e : Thrown) : M S A := fun s => (Throw e, s).

Definition bind {S A B} (m : M S A) (k : A -> M S B) : M S B :=
  fun s =>
    match m s with
    | (Normal a, s') => k a s'
    | (Throw e, s') => (Throw e, s')
    end.

(** [try { body } catch (error) { handler }] *)
Definition tryCatch {S A} (body : M S A) (handler : Thrown -> M S A) : M S A :=
  fun s =>
    match body s with
    | (Normal a, s') => (Normal a, s')
    | (Throw e, s') => handler e s'
    end.

Definition get {S} : M S S := fun s => (Normal s, s).
Definition modify {S} (f : S -> S) : M S unit := fun s => (Normal tt, f s).

(** A computation that only throws or returns, run inside [M]. *)
Definition liftC {S A} (c : Completion A) : M S A := fun s => (c, s).

Declare Scope js_scope.
Delimit Scope js_scope with js.
Notation "x <- m ;; k" := (bind m (fun x => k))
  (at level 61, m at next level, right associativity) : js_scope.
Notation "m ;;; k" := (bind m (fun _ => k))
  (at level 61, right associativity) : js_scope.

(** A [for (let i = 0; i < n; i++)] loop collecting one value per round. *)
Fixpoint forCollect {S A} (n : nat) (i : nat) (body : nat -> M S A) : M S (list A) :=
  match n with
  | O => ret []
  | Datatypes.S n' =>
      (x <- body i ;;
       xs <- forCollect n' (Datatypes.S i) body ;;
       ret (x :: xs))%js
  end.

(* ================================================================== *)
(** * Regular expressions *)
(* ================================================================== *)

(** The fragment the source uses: literals, [.], [\d], sequence,
    alternation and star.  No pattern of the source carries the [g] or [y]
    flag, so [test] neither reads nor writes [lastIndex]; the objects and
    their [lastIndex] are modelled in [Objects] below. *)
Inductive regex : Type :=
| RNone
| REps
| RLit (c : ascii)
| RDot
| RDigit
| RSeq (r1 r2 : regex)
| RAlt (r1 r2 : regex)
| RStar (r : regex).

Record RegExp : Type := mkRegExp {
  anchored : bool;      (* the pattern starts with [^] *)
  ignoreCase : bool;    (* the [i] flag *)
  body : regex
}.

Fixpoint nullable (r : regex) : bool :=
  match r with
  | RNone | RLit _ | RDot | RDigit => false
  | REps | RStar _ => true
  | RSeq a b => nullable a && nullable b
  | RAlt a b => nullable a || nullable b
  end.

Definition isLineTerminator (c : ascii) : bool :=
  let n := nat_of_ascii c in (Nat.eqb n 10 || Nat.eqb n 13)%bool.

Definition isDigit (c : ascii) : bool :=
  let n := nat_of_ascii c in (Nat.leb 48 n && Nat.leb n 57)%bool.

Definition litMatches (ic : bool) (p c : ascii) : bool :=
  if ic then Ascii.eqb (lowerChar p) (lowerChar c) else Ascii.eqb p c.

Definition mkSeq (a b : regex) : regex :=
  match a, b with
  | RNone, _ | _, RNone => RNone
  | REps, _ => b
  | _, _ => RSeq a b
  end.

Definition mkAlt (a b : regex) : regex :=
  match a, b with
  | RNone, _ => b
  | _, RNone => a
  | _, _ => RAlt a b
  end.

(** The derivative of [r] by the character [c]. *)
Fixpoint deriv (ic : bool) (c : ascii) (r : regex) : regex :=
  match r with
  | RNone | REps => RNone
  | RLit p => if litMatches ic p c then REps else RNone
  | RDot => if isLineTerminator c then RNone else REps
  | RDigit => if isDigit c then REps else RNone
  | RSeq a b =>
      if nullable a
      then mkAlt (mkSeq (deriv ic c a) b) (deriv ic c b)
      else mkSeq (deriv ic c a) b
  | RAlt a b => mkAlt (deriv ic c a) (deriv ic c b)
  | RStar a => mkSeq (deriv ic c a) (RStar a)
  end.

(** Some prefix of [s] matches [r]. *)
Fixpoint matchesPrefix (ic : bool) (r : regex) (s : string) : bool :=
  (nullable r ||
   match s with
   | EmptyString => false
   | String c s' => matchesPrefix ic (deriv ic c r) s'
   end)%bool.

(** Some substring of [s] matches [r]. *)
Fixpoint matchesSomewhere (ic : bool) (r : regex) (s : string) : bool :=
  (matchesPrefix ic r s ||
   match s with
   | EmptyString => false
   | String _ s' => matchesSomewhere ic r s'
   end)%bool.

(** [pattern.test(s)] *)
Definition test (p : RegExp) (s : string) : bool :=
  if anchored p then matchesPrefix (ignoreCase p) (body p) s
  else matchesSomewhere (ignoreCase p) (body p) s.

Fixpoint lit (s : string) : regex :=
  match s with
  | EmptyString => REps
  | String c EmptyString => RLit c
  | String c s' => RSeq (RLit c) (lit s')
  end.

Definition anyStar : regex := RStar RDot.                        (* .* *)
Definition digits4 : regex :=                                    (* \d{4} *)
  RSeq RDigit (RSeq RDigit (RSeq RDigit RDigit)).

Fixpoint seqs (rs : list regex) : regex :=
  match rs with
  | [] => REps
  | [r] => r
  | r :: rs' => RSeq r (seqs rs')
  end.

Fixpoint alts (rs : list regex) : regex :=
  match rs with
  | [] => RNone
  | [r] => r
  | r :: rs' => RAlt r (alts rs')
  end.

(** [/.../i] and [/^.../i] *)
Definition reI (r : regex) : RegExp := mkRegExp false true r.
Definition reAnchoredI (r : regex) : RegExp := mkRegExp true true r.
Definition re (r : regex) : RegExp := mkRegExp false false r.

(* ================================================================== *)
(** * Query classification ([MCPOrchestrator.classifyQuery]) *)
(* ================================================================== *)

Inductive QueryType : Type :=
| KNOWLEDGE_DRIVEN      (* 'knowledge' *)
| DATA_DRIVEN           (* 'data' *)
| HYBRID.               (* 'hybrid' *)

Inductive UserMode : Type :=
| EXPLORER
| POWER.

Record Classification : Type := mkClassification {
  type : QueryType;
  cl_requiresData : bool;
  cl_conceptualTopic : option string
}.

Definition knowledgePatterns : list RegExp :=
  [ reI (seqs [lit "how do"; anyStar; lit "affect"]);
    reI (lit "what causes");
    reI (seqs [lit "why do"; anyStar; lit "occur"]);
    reI (seqs [lit "explain"; anyStar; lit "process"]);
    reI (seqs [lit "what is"; anyStar; lit "effect"]);
    reI (seqs [lit "what is"; anyStar]);
    reI (lit "relationship between");
    reI (seqs [lit "impact"; anyStar; lit "on"]);
    reI (seqs [lit "role"; anyStar; lit "in"]);
    reI (seqs [lit "mechanism"; anyStar; lit "behind"]);
    reI (seqs [lit "factors"; anyStar; lit "influence"]) ].

Definition dataPatterns : list RegExp :=
  [ reI (seqs [lit "temperature"; anyStar; lit "in"; anyStar; digits4]);
    reI (seqs [lit "salinity"; anyStar; lit "near"; anyStar; digits4]);
    reI (seqs [lit "sst"; anyStar; lit "data"]);
    reI (seqs [lit "measurements"; anyStar; lit "from"]);
    reI (seqs [lit "profiles"; anyStar; lit "in"]);
    reI (seqs [lit "show"; anyStar; lit "data"]);
    reI (seqs [lit "values"; anyStar; lit "for"]);
    reI (seqs [lit "readings"; anyStar; lit "between"]) ].

Definition yearPattern : RegExp := re digits4.
Definition placePattern : RegExp :=
  reI (alts [lit "pacific"; lit "atlantic"; lit "indian"; lit "equator";
             lit "latitude"; lit "longitude"]).
Definition hybridPattern : RegExp :=
  reI (alts [lit "patterns"; lit "trends"; lit "changes"; lit "variations"]).

(** The topic of a knowledge query: the last keyword found wins. *)
Definition knowledgeTopic (lowerQuery : string) : string :=
  let topic := "ocean science" in
  let topic := if includes "weather" lowerQuery then "ocean-atmosphere interactions" else topic in
  let topic := if includes "climate" lowerQuery then "ocean-climate interactions" else topic in
  let topic := if includes "current" lowerQuery then "ocean circulation" else topic in
  let topic := if includes "temperature" lowerQuery then "ocean temperature processes" else topic in
  let topic := if includes "salinity" lowerQuery then "ocean salinity processes" else topic in
  topic.

Definition classifyQuery (query : string) : Classification :=
  let lowerQuery := toLowerCase query in
  if existsb (fun pattern => test pattern query) knowledgePatterns then
    mkClassification KNOWLEDGE_DRIVEN false (Some (knowledgeTopic lowerQuery))
  else if existsb (fun pattern => test pattern query) dataPatterns then
    mkClassification DATA_DRIVEN true None
  else if (test yearPattern query && test placePattern query)%bool then
    mkClassification DATA_DRIVEN true None
  else if test hybridPattern query then
    mkClassification HYBRID true (Some "ocean patterns and trends")
  else
    mkClassification KNOWLEDGE_DRIVEN false (Some "ocean science").

(* ================================================================== *)
(** * Response validation ([ResponseValidator]) *)
(* ================================================================== *)

Module ResponseValidator.

Definition obviousTemplates : list RegExp :=
  [ reAnchoredI (lit "here's a fun fact about");
    reAnchoredI (lit "did you know that the ocean");
    reI (lit "this is a placeholder");
    reI (lit "lorem ipsum");
    reI (lit "sample data shows") ].

Definition obviousHardcoded : list string :=
  [ "this is sample data"; "placeholder response"; "mock analysis" ].

Definition validateResponse (response : string) (hasRealData : bool) : bool :=
  if negb hasRealData then false
  else if existsb (fun pattern => test pattern response) obviousTemplates then false
  else
    let lowerResponse := toLowerCase response in
    if existsb (fun hardcoded => includes (toLowerCase hardcoded) lowerResponse)
               obviousHardcoded
    then false
    else true.

End ResponseValidator.

(* ================================================================== *)
(** * The provider controller ([LLMProviderController]) *)
(* ================================================================== *)

Inductive ProviderType : Type :=
| GROQ
| HUGGINGFACE.

Definition providerTypeString (t : ProviderType) : string :=
  match t with
  | GROQ => "groq"
  | HUGGINGFACE => "huggingface"
  end.

Record Usage : Type := mkUsage {
  promptTokens : Z;
  completionTokens : Z;
  totalTokens : Z
}.

Record ProviderResponse : Type := mkProviderResponse {
  content : string;
  usage : option Usage;
  model : string;
  provider : string
}.

Record ProviderHealthStatus : Type := mkHealth {
  isHealthy : bool;
  lastError : option string;
  lastChecked : Z;
  responseTime : option Z
}.

(** One entry of the controller's failure log. *)
Record FailureEntry : Type := mkFailure {
  f_provider : string;
  f_error : string;
  f_timestamp : Z
}.

(** What the controller writes on the console. *)
Inductive ConsoleLine : Type :=
| LogAttempting (p : ProviderType)            (* Attempting to use p provider... *)
| LogSuccess (p : ProviderType)               (* Successfully generated response using p *)
| LogFailover (p : ProviderType) (lastError : string)
| ErrProviderFailed (p : ProviderType) (errorMessage : string)
| ErrAllFailed.

(** The message returned when no provider answers. *)
Definition FAILURE_MESSAGE : string :=
  "System currently unable to generate result. Please retry.".

Module LLMProvider.
Section WithEnv.

(** [Env] is everything a provider talks to or keeps: the network, the
    clock, its own health record. *)
Variable Env : Type.

(** The [LLMProvider] interface. *)
Record t : Type := mk {
  name : ProviderType;
  isAvailable : M Env bool;
  generateResponse : string -> M Env ProviderResponse;
  getHealthStatus : Env -> ProviderHealthStatus
}.

End WithEnv.
End LLMProvider.

Module LLMProviderController.
Section WithEnv.

Variable Env : Type.

(** [new Date()] as milliseconds since the epoch. *)
Variable clock : Env -> Z.

(** The controller's mutable part, the console and the outside world.
    The provider list is fixed at construction and passed separately. *)
Record State : Type := mkState {
  failureLog : list FailureEntry;
  console : list ConsoleLine;
  env : Env
}.

Definition log (l : ConsoleLine) : M State unit :=
  modify (fun s => mkState (failureLog s) (console s ++ [l]) (env s)).

Definition pushFailure (p : ProviderType) (errorMessage : string) : M State unit :=
  modify (fun s =>
    mkState (failureLog s ++ [mkFailure (providerTypeString p) errorMessage (clock (env s))])
            (console s) (env s)).

(** Run a provider call on the outside world. *)
Definition call {A} (m : M Env A) : M State A :=
  fun s =>
    let '(r, e') := m (env s) in
    (r, mkState (failureLog s) (console s) e').

(** [error instanceof Error ? error.message : 'Unknown error'] *)
Definition errorMessageOf (error : Thrown) : string :=
  match error with
  | ThrownError e => err_message e
  | ThrownValue => "Unknown error"
  end.

(** The body of the [try] block for one provider. *)
Definition attempt (provider : LLMProvider.t Env) (prompt lastError : string)
  : M State string :=
  (log (LogAttempting (LLMProvider.name provider)) ;;;
   response <- call (LLMProvider.generateResponse provider prompt) ;;
   log (LogSuccess (LLMProvider.name provider)) ;;;
   (if truthyString lastError
    then log (LogFailover (LLMProvider.name provider) lastError)
    else ret tt) ;;;
   ret (content response))%js.

(** The [catch] block: the new value of [lastError]. *)
Definition recordFailure (provider : LLMProvider.t Env) (error : Thrown)
  : M State string :=
  (let errorMessage := errorMessageOf error in
   pushFailure (LLMProvider.name provider) errorMessage ;;;
   log (ErrProviderFailed (LLMProvider.name provider) errorMessage) ;;;
   ret errorMessage)%js.

(** The [for (const provider of this.providers)] loop and what follows
    it.  [inl] is the [return] from inside the [try], [inr] the
    [continue]. *)
Fixpoint tryProviders (providers : list (LLMProvider.t Env))
         (prompt lastError : string) : M State string :=
  match providers with
  | [] => (log ErrAllFailed ;;; ret FAILURE_MESSAGE)%js
  | provider :: rest =>
      (step <- tryCatch
                 (c <- attempt provider prompt lastError ;; ret (inl c))
                 (fun error => e <- recordFailure provider error ;; ret (inr e)) ;;
       match step with
       | inl c => ret c
       | inr lastError' => tryProviders rest prompt lastError'
       end)%js
  end.

Definition generateResponse (providers : list (LLMProvider.t Env))
           (prompt : string) : M State string :=
  match providers with
  | [] => ret FAILURE_MESSAGE
  | _ => tryProviders providers prompt ""
  end.

(** [array.slice(-n)] *)
Definition sliceLast {A} (n : nat) (l : list A) : list A :=
  skipn (List.length l - n) l.

Record SystemHealth : Type := mkSystemHealth {
  sh_providers : list (ProviderType * ProviderHealthStatus);
  recentFailures : list FailureEntry;
  sh_timestamp : Z
}.

Definition getSystemHealth (providers : list (LLMProvider.t Env)) (s : State)
  : SystemHealth :=
  mkSystemHealth
    (map (fun provider =>
            (LLMProvider.name provider, LLMProvider.getHealthStatus provider (env s)))
         providers)
    (sliceLast 10 (failureLog s))
    (clock (env s)).

(** A sequence of [generateResponse] calls, one per prompt; the results
    are collected in order. *)
Fixpoint generateResponses (providers : list (LLMProvider.t Env))
         (prompts : list string) : M State (list string) :=
  match prompts with
  | [] => ret []
  | prompt :: more =>
      (r <- generateResponse providers prompt ;;
       rs <- generateResponses providers more ;;
       ret (r :: rs))%js
  end.

(** Every provider of the list throws when called in turn, starting
    from the world [e]. *)
Fixpoint allFail (providers : list (LLMProvider.t Env)) (prompt : string)
         (e : Env) : bool :=
  match providers with
  | [] => true
  | provider :: rest =>
      match LLMProvider.generateResponse provider prompt e with
      | (Throw _, e') => allFail rest prompt e'
      | (Normal _, _) => false
      end
  end.

End WithEnv.
End LLMProviderController.

(* ================================================================== *)
(** * The orchestrator's data model *)
(* ================================================================== *)

Record Bounds : Type := mkBounds {
  north : Q;
  south : Q;
  east : Q;
  west : Q
}.

Record Region : Type := mkRegion {
  bounds : Bounds;
  name : option string
}.

Record TimeRange : Type := mkTimeRange {
  start : string;
  end_ : string;
  explicit : bool;
  defaulted : bool
}.

Record IntentResult : Type := mkIntent {
  queryType : QueryType;
  mode : UserMode;
  requiresData : bool;
  conceptualTopic : option string;
  region : option Region;
  timeRange : option TimeRange;
  parameters : list string;
  confidence : Q
}.

(** A profile record.  The numeric fields hold whatever the API sent. *)
Record Profile : Type := mkProfile {
  id : option string;
  lat : JSValue;
  lon : JSValue;
  depth : JSValue;
  temperature : JSValue;
  salinity : JSValue;
  pressure : JSValue;
  date : option string
}.

(** [metadata.dateRange]: the [start] and [end] of the range in use (the
    [explicit] and [defaulted] flags an intent's range carries along are
    not kept here). *)
Record DateRange : Type := mkDateRange {
  dr_start : string;
  dr_end : string
}.

Record Metadata : Type := mkMetadata {
  totalProfiles : nat;
  dateRange : DateRange;
  md_region : string;
  source : string
}.

Record DataResult : Type := mkDataResult {
  profiles : list Profile;
  metadata : Metadata;
  isEmpty : bool
}.

Inductive VizType : Type :=
| MAP
| CHART
| PLOT3D
| HEATMAP.

Definition isPower (m : UserMode) : bool :=
  match m with POWER => true | EXPLORER => false end.

(** [MCPOrchestrator.determineVisualizationType] *)
Definition determineVisualizationType (data : DataResult) (intent : IntentResult)
  : VizType :=
  if (isPower (mode intent) && Nat.ltb 10 (List.length (profiles data)))%bool then PLOT3D
  else if existsb (fun p => (negb (isUndefined (lat p)) && negb (isUndefined (lon p)))%bool)
                  (profiles data)
  then MAP
  else CHART.

(** Power mode with more than ten profiles. *)
Definition powerAndMany (data : DataResult) (intent : IntentResult) : Prop :=
  mode intent = POWER /\ (10 < List.length (profiles data))%nat.

(** Some profile has both a latitude and a longitude. *)
Definition someLocated (data : DataResult) : Prop :=
  exists p, In p (profiles data) /\ lat p <> JUndefined /\ lon p <> JUndefined.

(* ================================================================== *)
(** * The runtime and the outside world *)
(* ================================================================== *)

(** What the JavaScript runtime provides. *)
Record Platform : Type := mkPlatform {
  (** the time value of [new Date(s)], [None] for an invalid date *)
  Date_parse : string -> option Z;
  (** the time value [d.setMonth(d.getMonth() + k)] computes from the time
      value of a valid [d], before it is clipped *)
  Date_addMonths : Z -> Z -> Z;
  (** [d.toISOString()] of a valid date *)
  Date_toISOString : Z -> string;
  (** [`${x}`] of a finite number *)
  Number_toString : Q -> string;
  (** whether [new URL(s)] accepts [s] *)
  URL_canParse : string -> bool
}.

(** A [Date] object: its time value, or [None] when it is invalid. *)
Definition DateObj : Type := option Z.

Definition maxTime : Z := 8640000000000000.

(** TimeClip *)
Definition timeClipZ (t : Z) : DateObj :=
  if (Z.leb (- maxTime) t && Z.leb t maxTime)%bool then Some t else None.

(** Truncation toward zero. *)
Definition Qtruncate (q : Q) : Z :=
  if Qle_bool 0 q then Qfloor q else Qceiling q.

(** [new Date(x)] for a number [x] *)
Definition newDateNumber (x : JSNumber) : DateObj :=
  match x with
  | Fin q => timeClipZ (Qtruncate q)
  | _ => None
  end.

(** [new Date(s)] for a string [s] *)
Definition newDateString (P : Platform) (s : string) : DateObj :=
  match Date_parse P s with
  | Some t => timeClipZ t
  | None => None
  end.

(** [d.getTime()] *)
Definition getTime (d : DateObj) : JSNumber :=
  match d with
  | Some t => Fin (inject_Z t)
  | None => NaN
  end.

(** [d.setMonth(d.getMonth() + k)] *)
Definition shiftMonths (P : Platform) (d : DateObj) (k : Z) : DateObj :=
  match d with
  | Some t => timeClipZ (Date_addMonths P t k)
  | None => None
  end.

(** [d.toISOString()]: a RangeError on an invalid date. *)
Definition toISOString (P : Platform) (d : DateObj) : Completion string :=
  match d with
  | Some t => Normal (Date_toISOString P t)
  | None => Throw (rangeError "Invalid time value")
  end.

(** Arithmetic on numbers, as far as the date computations need it. *)
Definition numAdd (a b : JSNumber) : JSNumber :=
  match a, b with
  | NaN, _ | _, NaN => NaN
  | Fin x, Fin y => Fin (x + y)
  | PosInfinity, NegInfinity | NegInfinity, PosInfinity => NaN
  | PosInfinity, _ | _, PosInfinity => PosInfinity
  | NegInfinity, _ | _, NegInfinity => NegInfinity
  end.

Definition numNeg (a : JSNumber) : JSNumber :=
  match a with
  | NaN => NaN
  | PosInfinity => NegInfinity
  | NegInfinity => PosInfinity
  | Fin x => Fin (- x)
  end.

Definition numSub (a b : JSNumber) : JSNumber := numAdd a (numNeg b).

(** [r * a] for a finite [r]. *)
Definition numScale (r : Q) (a : JSNumber) : JSNumber :=
  match a with
  | NaN => NaN
  | Fin x => Fin (r * x)
  | PosInfinity =>
      if Qeq_bool r 0 then NaN else if Qle_bool 0 r then PosInfinity else NegInfinity
  | NegInfinity =>
      if Qeq_bool r 0 then NaN else if Qle_bool 0 r then NegInfinity else PosInfinity
  end.

(** [Number(x.toFixed(f))]: [x] rounded to [f] decimals, halves away from
    zero. *)
Definition toFixedNumber (f : nat) (x : Q) : Q :=
  let scale := inject_Z (10 ^ Z.of_nat f) in
  if Qle_bool 0 x
  then inject_Z (Qfloor (x * scale + (1 # 2))) / scale
  else - (inject_Z (Qfloor (- x * scale + (1 # 2))) / scale).

(** The profile-data API. *)
Record Measurement : Type := mkMeasurement {
  pres : JSValue;
  temp : JSValue;
  psal : JSValue
}.

Record RawProfile : Type := mkRawProfile {
  raw_id : option string;                       (* _id *)
  raw_lat : JSValue;                            (* lat *)
  raw_lon : JSValue;                            (* lon *)
  measurements : option (list Measurement);
  raw_date : option string                      (* date *)
}.

(** A parsed response body: an array whose items are objects ([Some]) or
    [null] ([None]), or something that is not an array. *)
Inductive JsonBody : Type :=
| JsonArray (items : list (option RawProfile))
| JsonOther.

Record Response : Type := mkResponse {
  ok : bool;
  status : Z;
  statusText : string;
  text : Completion string;          (* await response.text() *)
  json : Completion JsonBody         (* await response.json() *)
}.

(** The request [retrieveData] builds; [polygon] lists [lon, lat] pairs. *)
Record Request : Type := mkRequest {
  url : string;
  startDate : string;
  endDate : string;
  polygon : list (Q * Q);
  x_argokey : string
}.

Record World : Type := mkWorld {
  now : Z;                                              (* Date.now() *)
  random : nat -> Q;                                    (* the results of Math.random(), in order *)
  drawn : nat;                                          (* how many were drawn *)
  network : nat -> Request -> Completion Response;      (* what the k-th fetch resolves to *)
  requests : list Request                               (* the fetches made so far *)
}.

(** [Math.random()] *)
Definition Math_random : M World Q :=
  fun w => (Normal (random w (drawn w)),
            mkWorld (now w) (random w) (Datatypes.S (drawn w)) (network w) (requests w)).

(** [await fetch(url, {headers, signal})]; a timeout shows as a rejection
    with an error named AbortError. *)
Definition fetch (r : Request) : M World Response :=
  fun w => (network w (List.length (requests w)) r,
            mkWorld (now w) (random w) (drawn w) (network w) (requests w ++ [r])).

Definition Date_now : M World Z := fun w => (Normal (now w), w).

Definition abortError : Thrown :=
  ThrownError (mkError "AbortError" "This operation was aborted").

(** [error instanceof Error && error.name === 'AbortError'] *)
Definition isAbortError (error : Thrown) : bool :=
  match error with
  | ThrownError e => String.eqb (err_name e) "AbortError"
  | ThrownValue => false
  end.

Record PipelineConfig : Type := mkConfig {
  argovisApiKey : string;
  argovisBaseUrl : string;
  enableFailureExpansion : bool;
  timeoutMs : Z
}.

(* ================================================================== *)
(** * The failure handler ([FailureHandler]) *)
(* ================================================================== *)

Module FailureHandler.

(** [{...intent, timeRange: tr}] and [{...intent, region: r}] *)
Definition withTimeRange (intent : IntentResult) (tr : TimeRange) : IntentResult :=
  mkIntent (queryType intent) (mode intent) (requiresData intent)
    (conceptualTopic intent) (region intent) (Some tr)
    (parameters intent) (confidence intent).

Definition withRegion (intent : IntentResult) (r : Region) : IntentResult :=
  mkIntent (queryType intent) (mode intent) (requiresData intent)
    (conceptualTopic intent) (Some r) (timeRange intent)
    (parameters intent) (confidence intent).

Definition expandTemporal (P : Platform) (intent : IntentResult) (monthsToExpand : Z)
  : Completion IntentResult :=
  match timeRange intent with
  | None => Normal intent
  | Some tr =>
      let startDate := shiftMonths P (newDateString P (start tr)) (- monthsToExpand) in
      let endDate := shiftMonths P (newDateString P (end_ tr)) monthsToExpand in
      match toISOString P startDate with
      | Throw e => Throw e
      | Normal s =>
          match toISOString P endDate with
          | Throw e => Throw e
          | Normal e =>
              Normal (withTimeRange intent
                        (mkTimeRange (splitHead "T" s) (splitHead "T" e)
                                     (explicit tr) (defaulted tr)))
          end
      end
  end.

Definition expandSpatial (intent : IntentResult) (degreesToExpand : Q) : IntentResult :=
  match region intent with
  | None => intent
  | Some r =>
      let b := bounds r in
      withRegion intent
        (mkRegion
           (mkBounds (Qmin 90 (north b + degreesToExpand))
                     (Qmax (-90) (south b - degreesToExpand))
                     (Qmin 180 (east b + degreesToExpand))
                     (Qmax (-180) (west b - degreesToExpand)))
           (name r))
  end.

(** One round of the generators' loops.  [range] is the time range the
    caller holds, [None] when it holds [undefined]; reading [.start] of
    it then throws, after the five draws that precede it. *)
Definition syntheticProfile (P : Platform) (idPrefix : string) (maxDepth : Q)
           (b : Bounds) (range : option (string * string)) (i : nat)
  : M World Profile :=
  (r1 <- Math_random ;;
   let lat := south b + r1 * (north b - south b) in
   r2 <- Math_random ;;
   let lon := west b + r2 * (east b - west b) in
   r3 <- Math_random ;;
   let depth := r3 * maxDepth in
   let baseTemp := 25 - (lat - 20) * (1 # 2) in
   r4 <- Math_random ;;
   let temp := baseTemp - (depth / 100) + (r4 - (1 # 2)) * 2 in
   r5 <- Math_random ;;
   let baseSalinity := 35 + (r5 - (1 # 2)) * 2 in
   let salinity := baseSalinity + (depth / 1000) * (1 # 2) in
   let pressure := depth * (1 # 10) in
   match range with
   | None => throw (typeError "Cannot read properties of undefined (reading 'start')")
   | Some (rangeStart, rangeEnd) =>
       let startDate := newDateString P rangeStart in
       let endDate := newDateString P rangeEnd in
       r6 <- Math_random ;;
       let randomDate :=
         newDateNumber
           (numAdd (getTime startDate)
                   (numScale r6 (numSub (getTime endDate) (getTime startDate)))) in
       iso <- liftC (toISOString P randomDate) ;;
       ret (mkProfile (Some (idPrefix ++ natToString i)%string)
              (JNumber (Fin (toFixedNumber 4 lat)))
              (JNumber (Fin (toFixedNumber 4 lon)))
              (JNumber (Fin (toFixedNumber 1 depth)))
              (JNumber (Fin (toFixedNumber 2 temp)))
              (JNumber (Fin (toFixedNumber 2 salinity)))
              (JNumber (Fin (toFixedNumber 1 pressure)))
              (Some iso))
   end)%js.

(** [x || d] for an optional string *)
Definition orString (x : option string) (d : string) : string :=
  match x with
  | Some s => if truthyString s then s else d
  | None => d
  end.

Definition defaultFallbackRegion : Region :=
  mkRegion (mkBounds 45 35 (-60) (-80)) (Some "North Atlantic").

Definition defaultFallbackTimeRange : TimeRange :=
  mkTimeRange "2023-01-01" "2023-12-31" false true.

Definition generateFallbackData (P : Platform) (intent : IntentResult)
  : M World DataResult :=
  (let numPoints := 50%nat in
   let region := match region intent with
                 | Some r => r
                 | None => defaultFallbackRegion
                 end in
   let timeRange := match timeRange intent with
                    | Some tr => tr
                    | None => defaultFallbackTimeRange
                    end in
   profiles <- forCollect numPoints 0
                 (syntheticProfile P "fallback_" 2000 (bounds region)
                    (Some (start timeRange, end_ timeRange))) ;;
   ret (mkDataResult profiles
          (mkMetadata (List.length profiles)
             (mkDateRange (start timeRange) (end_ timeRange))
             (orString (name region) "North Atlantic")
             "Fallback (MCP unavailable)")
          false))%js.

(** The caller passes what it holds, which may be [undefined] ([None]):
    the first statement reads [region.name]. *)
Definition generateFallbackDataForRegion (P : Platform) (region : option Region)
           (timeRange : option TimeRange) : M World DataResult :=
  match region with
  | None => throw (typeError "Cannot read properties of undefined (reading 'name')")
  | Some region =>
      (let numPoints := 30%nat in
       profiles <- forCollect numPoints 0
                     (syntheticProfile P "timeout_fallback_" 1500 (bounds region)
                        (match timeRange with
                         | Some tr => Some (start tr, end_ tr)
                         | None => None
                         end)) ;;
       match timeRange with
       | None =>
           (* not reached: the first round of the loop has thrown *)
           throw (typeError "Cannot read properties of undefined (reading 'start')")
       | Some tr =>
           ret (mkDataResult profiles
                  (mkMetadata (List.length profiles)
                     (mkDateRange (start tr) (end_ tr))
                     (orString (name region) "Unknown")
                     "Fallback (API timeout)")
                  false)
       end)%js
  end.

Definition handleEmptyData (P : Platform) (originalIntent : IntentResult)
           (retrieveDataFn : IntentResult -> M World DataResult)
  : M World DataResult :=
  ((* Attempt 1: temporal expansion *)
   expandedIntent <- liftC (expandTemporal P originalIntent 6) ;;
   result <- retrieveDataFn expandedIntent ;;
   if negb (isEmpty result) then ret result
   else
     (* Attempt 2: spatial expansion *)
     let expandedIntent := expandSpatial originalIntent 10 in
     result <- retrieveDataFn expandedIntent ;;
     if negb (isEmpty result) then ret result
     else generateFallbackData P originalIntent)%js.

(** ** What the properties below speak of *)

(** [wide] is [intent] with each end of its time range moved out by
    [months] months; an intent without a time range is left alone. *)
Definition widenedInTime (P : Platform) (months : Z) (intent wide : IntentResult)
  : Prop :=
  match timeRange intent with
  | None => wide = intent
  | Some tr =>
      exists s e : Z,
        shiftMonths P (newDateString P (start tr)) (- months) = Some s /\
        shiftMonths P (newDateString P (end_ tr)) months = Some e /\
        wide = withTimeRange intent
                 (mkTimeRange (splitHead "T" (Date_toISOString P s))
                              (splitHead "T" (Date_toISOString P e))
                              (explicit tr) (defaulted tr))
  end.

(** [wide] is [intent] with each side of its box moved out by [degrees],
    but not past the poles or the date line; an intent without a region is
    left alone. *)
Definition widenedInSpace (degrees : Q) (intent wide : IntentResult) : Prop :=
  match region intent with
  | None => wide = intent
  | Some r =>
      exists r' : Region,
        wide = withRegion intent r' /\
        name r' = name r /\
        north (bounds r') == Qmin 90 (north (bounds r) + degrees) /\
        south (bounds r') == Qmax (-90) (south (bounds r) - degrees) /\
        east (bounds r') == Qmin 180 (east (bounds r) + degrees) /\
        west (bounds r') == Qmax (-180) (west (bounds r) - degrees)
  end.

(** The runtime reads the two dates the generator falls back on. *)
Definition parsesDefaultRange (P : Platform) : Prop :=
  newDateString P "2023-01-01" <> None /\ newDateString P "2023-12-31" <> None.

(** Every draw of [Math.random()] lies in [0, 1). *)
Definition randomOK (w : World) : Prop :=
  forall k, 0 <= random w k /\ random w k < 1.

(** The world after [n] more draws. *)
Definition advance (n : nat) (w : World) : World :=
  mkWorld (now w) (random w) (n + drawn w) (network w) (requests w).

(** The world after so many rounds of a generator's loop, six draws
    each. *)
Fixpoint advances (rounds : nat) (w : World) : World :=
  match rounds with
  | O => w
  | Datatypes.S n => advances n (advance 6 w)
  end.

End FailureHandler.

(* ================================================================== *)
(** * Data retrieval ([MCPOrchestrator.retrieveData]) *)
(* ================================================================== *)

Module MCPOrchestrator.

(** [profile.measurements?.[0]] *)
Definition firstMeasurement (profile : RawProfile) : option Measurement :=
  match measurements profile with
  | Some (m :: _) => Some m
  | _ => None
  end.

(** [profile.measurements?.[0]?.field] *)
Definition measured (field : Measurement -> JSValue) (profile : RawProfile) : JSValue :=
  match firstMeasurement profile with
  | Some m => field m
  | None => JUndefined
  end.

(** The callback of [profiles.map]. *)
Definition transformProfile (profile : RawProfile) : Profile :=
  mkProfile (raw_id profile)
            (raw_lat profile)
            (raw_lon profile)
            (jsOr (measured pres profile) (JNumber (Fin 0)))
            (measured temp profile)
            (measured psal profile)
            (measured pres profile)
            (raw_date profile).

(** The callback of [.filter]. *)
Definition validProfile (profile : Profile) : bool :=
  (truthy (lat profile) && truthy (lon profile) && negb (isUndefined (depth profile)) &&
   negb (isNaN (lat profile)) && negb (isNaN (lon profile)) && negb (isNaN (depth profile)) &&
   geConst (lat profile) (-90) && leConst (lat profile) 90 &&
   geConst (lon profile) (-180) && leConst (lon profile) 180 &&
   geConst (depth profile) 0)%bool.

(** [profiles.map(...)] on the parsed body: a TypeError when the body is
    not an array or an item is [null]. *)
Fixpoint mapItems (items : list (option RawProfile)) : Completion (list Profile) :=
  match items with
  | [] => Normal []
  | None :: _ => Throw (typeError "Cannot read properties of null (reading '_id')")
  | Some profile :: rest =>
      match mapItems rest with
      | Normal ps => Normal (transformProfile profile :: ps)
      | Throw e => Throw e
      end
  end.

Definition mapProfiles (body : JsonBody) : Completion (list Profile) :=
  match body with
  | JsonArray items => mapItems items
  | JsonOther => Throw (typeError "profiles.map is not a function")
  end.

Definition skippedResult : DataResult :=
  mkDataResult [] (mkMetadata 0 (mkDateRange "" "") "none" "skipped") true.

Definition defaultRegion : Region :=
  mkRegion (mkBounds 90 (-90) 180 (-180)) (Some "Global Ocean").

Definition toDateRange (tr : TimeRange) : DateRange :=
  mkDateRange (start tr) (end_ tr).

Definition zToString (z : Z) : string := NilZero.string_of_int (Z.to_int z).

Definition yearMs : Z := 365 * 24 * 60 * 60 * 1000.

(** The label of a region without a name. *)
Definition cornerLabel (P : Platform) (b : Bounds) : string :=
  (Number_toString P (north b) ++ "°N, " ++ Number_toString P (west b) ++ "°W")%string.

(** The [try] block of [retrieveData]: the fetch and what is made of the
    response. *)
Definition fetchProfiles (P : Platform) (request : Request)
           (effectiveTimeRange : DateRange) (effectiveRegion : Region)
  : M World DataResult :=
  (response <- fetch request ;;
   if negb (ok response) then
     (errorText <- liftC (text response) ;;
      throw (newError ("Argovis API error: " ++ zToString (status response)
                       ++ " " ++ statusText response)%string))
   else
     (body <- liftC (json response) ;;
      mapped <- liftC (mapProfiles body) ;;
      let transformedProfiles := filter validProfile mapped in
      ret (mkDataResult transformedProfiles
             (mkMetadata (List.length transformedProfiles)
                effectiveTimeRange
                (FailureHandler.orString (name effectiveRegion)
                   (cornerLabel P (bounds effectiveRegion)))
                "Argovis")
             (Nat.eqb (List.length transformedProfiles) 0))))%js.

(** The [catch] block of [retrieveData].  On a timeout it hands the
    intent's own [region] and [timeRange] to the failure handler, not the
    effective ones. *)
Definition recover (P : Platform) (region : option Region)
           (timeRange : option TimeRange)
           (effectiveTimeRange : DateRange) (effectiveRegion : Region)
           (error : Thrown) : M World DataResult :=
  if isAbortError error
  then FailureHandler.generateFallbackDataForRegion P region timeRange
  else
    ret (mkDataResult []
           (mkMetadata 0 effectiveTimeRange
              (FailureHandler.orString (name effectiveRegion) "Unknown")
              "Argovis (failed)")
           true).

Definition retrieveData (P : Platform) (config : PipelineConfig) (intent : IntentResult)
  : M World DataResult :=
  match region intent, timeRange intent with
  | None, None => ret skippedResult
  | region, timeRange =>
      (t <- Date_now ;;
       yearAgo <- liftC (toISOString P (newDateNumber (Fin (inject_Z (t - yearMs))))) ;;
       today <- liftC (toISOString P (newDateNumber (Fin (inject_Z t)))) ;;
       let defaultTimeRange :=
         mkDateRange (splitHead "T" yearAgo) (splitHead "T" today) in
       let effectiveTimeRange :=
         match timeRange with
         | Some tr => toDateRange tr
         | None => defaultTimeRange
         end in
       let startDate :=
         if includes "T" (dr_start effectiveTimeRange) then dr_start effectiveTimeRange
         else (dr_start effectiveTimeRange ++ "T00:00:00.000Z")%string in
       let endDate :=
         if includes "T" (dr_end effectiveTimeRange) then dr_end effectiveTimeRange
         else (dr_end effectiveTimeRange ++ "T23:59:59.999Z")%string in
       let address := (argovisBaseUrl config ++ "/argo")%string in
       (if URL_canParse P address then ret tt else throw (typeError "Invalid URL")) ;;;
       let effectiveRegion :=
         match region with
         | Some r => r
         | None => defaultRegion
         end in
       let b := bounds effectiveRegion in
       let polygon :=
         [ (west b, south b); (east b, south b); (east b, north b);
           (west b, north b); (west b, south b) ] in
       tryCatch
         (fetchProfiles P
            (mkRequest address startDate endDate polygon (argovisApiKey config))
            effectiveTimeRange effectiveRegion)
         (recover P region timeRange effectiveTimeRange effectiveRegion))%js
  end.

(** [v] is a number between [lo] and [hi]. *)
Definition within (lo hi : Q) (v : JSValue) : Prop :=
  exists q, v = JNumber (Fin q) /\ lo <= q /\ q <= hi.

(** [v] is a number other than zero. *)
Definition nonZero (v : JSValue) : Prop :=
  exists q, v = JNumber (Fin q) /\ ~ q == 0.

(** [v] is a number and [v >= 0]. *)
Definition nonNegative (v : JSValue) : Prop :=
  v = JNumber PosInfinity \/ exists q, v = JNumber (Fin q) /\ 0 <= q.

(** [v] is absent or [null]. *)
Definition missing (v : JSValue) : Prop := v = JUndefined \/ v = JNull.

End MCPOrchestrator.

(* ================================================================== *)
(** * A concrete runtime, to run the model on examples *)
(* ================================================================== *)

(** A UTC calendar for ISO dates of years 0000 to 9999, which is what the
    pipeline itself writes and what its tests use. *)
Module Runtime.

Local Open Scope Z_scope.

Definition dayMs : Z := 86400000.

(** Days since 1970-01-01 of the civil date [y]-[m]-[d]. *)
Definition daysFromCivil (y m d : Z) : Z :=
  let y' := if m <=? 2 then y - 1 else y in
  let era := y' / 400 in
  let yoe := y' - era * 400 in
  let doy := (153 * (if 2 <? m then m - 3 else m + 9) + 2) / 5 + d - 1 in
  let doe := yoe * 365 + yoe / 4 - yoe / 100 + doy in
  era * 146097 + doe - 719468.

(** The civil date of a day number. *)
Definition civilFromDays (z : Z) : Z * Z * Z :=
  let z := z + 719468 in
  let era := z / 146097 in
  let doe := z - era * 146097 in
  let yoe := (doe - doe / 1460 + doe / 36524 - doe / 146096) / 365 in
  let doy := doe - (365 * yoe + yoe / 4 - yoe / 100) in
  let mp := (5 * doy + 2) / 153 in
  let d := doy - (153 * mp + 2) / 5 + 1 in
  let m := if mp <? 10 then mp + 3 else mp - 9 in
  ((if m <=? 2 then yoe + era * 400 + 1 else yoe + era * 400), m, d).

Definition digitValue (c : ascii) : option Z :=
  if isDigit c then Some (Z.of_nat (nat_of_ascii c) - 48) else None.

(** The number written by a string of digits. *)
Fixpoint digitsValue (acc : Z) (s : string) : option Z :=
  match s with
  | EmptyString => Some acc
  | String c s' =>
      match digitValue c with
      | Some v => digitsValue (acc * 10 + v) s'
      | None => None
      end
  end.

Definition field (from len : nat) (s : string) : option Z :=
  let part := substring from len s in
  if Nat.eqb (String.length part) len then digitsValue 0 part else None.

Definition charAt (n : nat) (s : string) : option ascii := String.get n s.

Definition isChar (c : ascii) (o : option ascii) : bool :=
  match o with Some a => Ascii.eqb a c | None => false end.

(** [YYYY-MM-DD], read as midnight UTC. *)
Definition parseDate (s : string) : option Z :=
  match field 0 4 s, field 5 2 s, field 8 2 s with
  | Some y, Some m, Some d =>
      if (isChar "-" (charAt 4 s) && isChar "-" (charAt 7 s) &&
          (1 <=? m) && (m <=? 12) && (1 <=? d) && (d <=? 31))%bool
      then Some (daysFromCivil y m d * dayMs)
      else None
  | _, _, _ => None
  end.

(** [THH:MM:SS.mmmZ], the rest of a full ISO timestamp. *)
Definition parseClock (s : string) : option Z :=
  match field 11 2 s, field 14 2 s, field 17 2 s, field 20 3 s with
  | Some h, Some mi, Some sec, Some ms =>
      if (isChar "T" (charAt 10 s) && isChar ":" (charAt 13 s) &&
          isChar ":" (charAt 16 s) && isChar "." (charAt 19 s) &&
          isChar "Z" (charAt 23 s) &&
          (h <? 24) && (mi <? 60) && (sec <? 60))%bool
      then Some (((h * 60 + mi) * 60 + sec) * 1000 + ms)
      else None
  | _, _, _, _ => None
  end.

Definition Date_parse (s : string) : option Z :=
  match String.length s with
  | 10%nat => parseDate s
  | 24%nat =>
      match parseDate (substring 0 10 s), parseClock s with
      | Some day, Some clock => Some (day + clock)
      | _, _ => None
      end
  | _ => None
  end.

(** [setMonth]: the month moves by [k], a day past the end of the new
    month runs over into the next one. *)
Definition Date_addMonths (t k : Z) : Z :=
  let day := t / dayMs in
  let clock := t mod dayMs in
  let '(y, m, d) := civilFromDays day in
  let months := m - 1 + k in
  (daysFromCivil (y + months / 12) (months mod 12 + 1) 1 + d - 1) * dayMs + clock.

Definition natString (z : Z) : string :=
  NilEmpty.string_of_uint (Nat.to_uint (Z.to_nat z)).

Fixpoint zeros (n : nat) : string :=
  match n with
  | O => EmptyString
  | Datatypes.S n' => String "0" (zeros n')
  end.

(** [z] in decimal, padded with zeros to [width] digits. *)
Definition padded (width : nat) (z : Z) : string :=
  let s := natString z in
  (zeros (width - String.length s) ++ s)%string.

Definition Date_toISOString (t : Z) : string :=
  let day := t / dayMs in
  let clock := t mod dayMs in
  let '(y, m, d) := civilFromDays day in
  (padded 4 y ++ "-" ++ padded 2 m ++ "-" ++ padded 2 d ++ "T"
   ++ padded 2 (clock / 3600000) ++ ":" ++ padded 2 (clock / 60000 mod 60) ++ ":"
   ++ padded 2 (clock / 1000 mod 60) ++ "." ++ padded 3 (clock mod 1000) ++ "Z")%string.

(** Whole numbers print as such; the fraction of others is cut. *)
Definition Number_toString (q : Q) : string :=
  let z := Qtruncate q in
  if z <? 0 then ("-" ++ natString (- z))%string else natString z.

Definition URL_canParse (s : string) : bool :=
  (startsWith "http://" s || startsWith "https://" s)%bool.

Definition platform : Platform :=
  mkPlatform Date_parse Date_addMonths Date_toISOString Number_toString URL_canParse.

End Runtime.

(* ================================================================== *)
(** * Fixtures *)
(* ================================================================== *)

Module Fixtures.

(** Providers over a world that only counts the calls made; the count
    also serves as the clock. *)
Definition failing (n : ProviderType) (msg : string) : LLMProvider.t nat :=
  LLMProvider.mk n
    (fun e => (Normal false, Datatypes.S e))
    (fun _ e => (Throw (newError msg), Datatypes.S e))
    (fun e => mkHealth false (Some msg) (Z.of_nat e) None).

Definition answering (n : ProviderType) (answer : string) : LLMProvider.t nat :=
  LLMProvider.mk n
    (fun e => (Normal true, Datatypes.S e))
    (fun _ e => (Normal (mkProviderResponse answer None "llama-3.1-8b-instant"
                           (providerTypeString n)),
                 Datatypes.S e))
    (fun e => mkHealth true None (Z.of_nat e) None).

Definition tick (e : nat) : Z := Z.of_nat e.

Definition fresh : LLMProviderController.State nat :=
  LLMProviderController.mkState [] [] 0%nat.

Definition groqDown : LLMProvider.t nat :=
  failing GROQ "Groq API error: 503 Service Unavailable".
Definition hfDown : LLMProvider.t nat :=
  failing HUGGINGFACE "HuggingFace provider is not available: timeout".
Definition hfUp : LLMProvider.t nat :=
  answering HUGGINGFACE "The thermocline deepens in winter.".

(** The orchestrator's side. *)
Definition config : PipelineConfig :=
  mkConfig "argo-key" "https://argovis-api.colorado.edu" true 15000.

(** A fixed sequence of draws in [0, 1). *)
Definition draws (k : nat) : Q := Z.of_nat ((7 * k + 3) mod 10) # 10.

(** The world on 2023-11-14, before any draw or fetch. *)
Definition world (net : nat -> Request -> Completion Response) : World :=
  mkWorld 1700000000000 draws 0 net [].

(** Every fetch times out. *)
Definition timingOut : nat -> Request -> Completion Response :=
  fun _ _ => Throw abortError.

(** Every fetch is answered with the given profiles. *)
Definition answeringWith (items : list RawProfile)
  : nat -> Request -> Completion Response :=
  fun _ _ => Normal (mkResponse true 200 "OK" (Normal "[...]")
                       (Normal (JsonArray (map Some items)))).

Definition year2020 : TimeRange :=
  mkTimeRange "2020-01-01" "2020-12-31" true false.

Definition equatorialRegion : Region :=
  mkRegion (mkBounds 10 (-10) 180 (-180)) (Some "Equatorial Region").

Definition northAtlantic : Region :=
  mkRegion (mkBounds 45 35 (-60) (-80)) (Some "North Atlantic").

Definition intentWith (r : option Region) (t : option TimeRange) : IntentResult :=
  mkIntent DATA_DRIVEN EXPLORER true None r t ["temperature"] (4 # 5).

(** What the language model may return for a conceptual question: no
    region, no time range. *)
Definition knowledgeIntent : IntentResult :=
  mkIntent KNOWLEDGE_DRIVEN EXPLORER false (Some "ocean circulation") None None [] (4 # 5).

(** A float at 40N 70W that reported no measurement. *)
Definition unmeasured : RawProfile :=
  mkRawProfile (Some "4902911_001") (JNumber (Fin 40)) (JNumber (Fin (-70))) None
               (Some "2020-06-01T00:00:00.000Z").

(** A float at 41.5N 65.25W with a measurement at 5 dbar. *)
Definition measuredAt5 : RawProfile :=
  mkRawProfile (Some "4902911_002") (JNumber (Fin (83 # 2))) (JNumber (Fin (-261 # 4)))
               (Some [mkMeasurement (JNumber (Fin 5)) (JNumber (Fin (123 # 10)))
                                    (JNumber (Fin (351 # 10)))])
               (Some "2020-06-02T00:00:00.000Z").

(** A record whose latitude is off the globe. *)
Definition offGlobe : RawProfile :=
  mkRawProfile (Some "4902911_003") (JNumber (Fin 95)) (JNumber (Fin (-70)))
               (Some [mkMeasurement (JNumber (Fin 5)) JUndefined JUndefined])
               (Some "2020-06-03T00:00:00.000Z").

Definition atlantic2020 : IntentResult :=
  intentWith (Some northAtlantic) (Some year2020).

(** The API answers with the three records above. *)
Definition answeredWorld : World :=
  world (answeringWith [unmeasured; measuredAt5; offGlobe]).

(** The equatorial belt in 2020, and an API that has nothing for it. *)
Definition equatorial2020 : IntentResult :=
  intentWith (Some equatorialRegion) (Some year2020).

Definition emptyOcean : World := world (answeringWith []).

(** [equatorial2020] with six months more at each end. *)
Definition equatorialWide : IntentResult :=
  intentWith (Some equatorialRegion)
    (Some (mkTimeRange "2019-07-01" "2021-07-01" true false)).

Definition belt (southEdge northEdge : Q) : list (Q * Q) :=
  [ (-180, southEdge); (180, southEdge); (180, northEdge);
    (-180, northEdge); (-180, southEdge) ].

(** The two fetches the failure handler causes for [equatorial2020]. *)
Definition firstRetry : Request :=
  mkRequest "https://argovis-api.colorado.edu/argo"
    "2019-07-01T00:00:00.000Z" "2021-07-01T23:59:59.999Z" (belt (-10) 10) "argo-key".

Definition secondRetry : Request :=
  mkRequest "https://argovis-api.colorado.edu/argo"
    "2020-01-01T00:00:00.000Z" "2020-12-31T23:59:59.999Z" (belt (-20) 20) "argo-key".

Definition afterFetches (made : list Request) : World :=
  mkWorld 1700000000000 draws 0 (answeringWith []) made.

(** Fifteen located profiles, and an expert asking for them. *)
Definition fifteenProfiles : DataResult :=
  mkDataResult (repeat (MCPOrchestrator.transformProfile measuredAt5) 15)
    (mkMetadata 15 (mkDateRange "2020-01-01" "2020-12-31") "North Atlantic" "Argovis")
    false.

Definition powerIntent : IntentResult :=
  mkIntent DATA_DRIVEN POWER true None (Some northAtlantic) (Some year2020)
    ["temperature"] 1.

(** Eleven prompts put to a controller whose only provider is down. *)
Definition elevenFailures : LLMProviderController.State nat :=
  snd (LLMProviderController.generateResponses tick [groqDown] (repeat "why?" 11) fresh).

Definition nothingFound (from to : string) : DataResult :=
  mkDataResult [] (mkMetadata 0 (mkDateRange from to) "Equatorial Region" "Argovis") true.

End Fixtures.

(* ================================================================== *)
(** * RegExp objects, and the classifier run on them *)
(* ================================================================== *)

(** [classifyQuery] once more, this time with what a call could read
    from an earlier one made explicit: every regular-expression literal
    makes an object with flags and a [lastIndex] property, [test] reads
    and writes that property as the language prescribes, and the objects
    sit in a store next to the clock, [Math.random()] and the network. *)
Module Objects.

Record RegExpObject : Type := mkObject {
  pattern : RegExp;
  global : bool;          (* the [g] flag *)
  sticky : bool;          (* the [y] flag *)
  lastIndex : nat
}.

Record Realm : Type := mkRealm {
  objects : list RegExpObject;      (* the RegExp objects made so far *)
  outside : World
}.

(** [s] from index [n] on *)
Fixpoint drop (n : nat) (s : string) : string :=
  match n, s with
  | O, _ => s
  | Datatypes.S n', String _ rest => drop n' rest
  | Datatypes.S _, EmptyString => EmptyString
  end.

(** [l] with the element at [n] replaced *)
Fixpoint update {A} (n : nat) (a : A) (l : list A) : list A :=
  match n, l with
  | O, _ :: rest => a :: rest
  | Datatypes.S n', x :: rest => x :: update n' a rest
  | _, [] => []
  end.

(** The pattern matches at index [i] exactly; [^] holds at index 0
    only (no pattern has the [m] flag). *)
Definition matchesAt (p : RegExp) (s : string) (i : nat) : bool :=
  if anchored p
  then (Nat.eqb i 0 && matchesPrefix (ignoreCase p) (body p) s)%bool
  else matchesPrefix (ignoreCase p) (body p) (drop i s).

(** The pattern matches at some index from [i] on. *)
Definition matchesFrom (p : RegExp) (s : string) (i : nat) : bool :=
  if anchored p
  then (Nat.eqb i 0 && matchesPrefix (ignoreCase p) (body p) s)%bool
  else matchesSomewhere (ignoreCase p) (body p) (drop i s).

Section WithEngine.

(** The index at which the match that the engine finds ends, given the
    pattern, the text and the index the search starts from. *)
Variable matchEnd : RegExp -> string -> nat -> nat.

(** [RegExpBuiltinExec] as far as [test] shows it: whether there is a
    match, and the object afterwards.  Without [g] and [y] the search
    starts at 0 and [lastIndex] is not written; with one of them it starts
    at [lastIndex], which becomes the end of the match, or 0 when there is
    none. *)
Definition exec (o : RegExpObject) (s : string) : bool * RegExpObject :=
  if (global o || sticky o)%bool then
    if Nat.ltb (String.length s) (lastIndex o) then
      (false, mkObject (pattern o) (global o) (sticky o) 0)
    else
      let found := if sticky o then matchesAt (pattern o) s (lastIndex o)
                   else matchesFrom (pattern o) s (lastIndex o) in
      if found
      then (true, mkObject (pattern o) (global o) (sticky o)
                           (matchEnd (pattern o) s (lastIndex o)))
      else (false, mkObject (pattern o) (global o) (sticky o) 0)
  else
    (matchesFrom (pattern o) s 0, o).

(** Evaluating a regular-expression literal makes a new object, with
    [lastIndex] 0; the result is its place in the store. *)
Definition newRegExp (p : RegExp) (g y : bool) : M Realm nat :=
  fun r => (Normal (List.length (objects r)),
            mkRealm (objects r ++ [mkObject p g y 0]) (outside r)).

(** [object.test(s)].  A reference handed out by [newRegExp] always
    points into the store; the other case is there to make the function
    total and is not reached by the code below. *)
Definition test (object : nat) (s : string) : M Realm bool :=
  fun r =>
    match nth_error (objects r) object with
    | None => (Throw (typeError "test is not a function"), r)
    | Some o =>
        let (found, o') := exec o s in
        (Normal found, mkRealm (update object o' (objects r)) (outside r))
    end.

(** An array literal of regular-expression literals, none of which
    carries [g] or [y]. *)
Fixpoint newRegExps (literals : list RegExp) : M Realm (list nat) :=
  match literals with
  | [] => ret []
  | p :: rest =>
      (object <- newRegExp p false false ;;
       others <- newRegExps rest ;;
       ret (object :: others))%js
  end.

(** [for (const pattern of patterns) if (pattern.test(query)) ...]: whether
    the body was entered. *)
Fixpoint firstMatch (patterns : list nat) (query : string) : M Realm bool :=
  match patterns with
  | [] => ret false
  | object :: rest =>
      (found <- test object query ;;
       if found then ret true else firstMatch rest query)%js
  end.

(** [MCPOrchestrator.classifyQuery] *)
Definition classifyQuery (query : string) : M Realm Classification :=
  (let lowerQuery := toLowerCase query in
   knowledge <- newRegExps knowledgePatterns ;;
   data <- newRegExps dataPatterns ;;
   isKnowledge <- firstMatch knowledge query ;;
   if isKnowledge then
     ret (mkClassification KNOWLEDGE_DRIVEN false (Some (knowledgeTopic lowerQuery)))
   else
     (isData <- firstMatch data query ;;
      if isData then ret (mkClassification DATA_DRIVEN true None)
      else
        (year <- newRegExp yearPattern false false ;;
         hasYear <- test year query ;;
         hasPlace <- (if hasYear
                      then (place <- newRegExp placePattern false false ;;
                            test place query)
                      else ret false) ;;
         if hasPlace then ret (mkClassification DATA_DRIVEN true None)
         else
           (hybrid <- newRegExp hybridPattern false false ;;
            isHybrid <- test hybrid query ;;
            if isHybrid
            then ret (mkClassification HYBRID true (Some "ocean patterns and trends"))
            else ret (mkClassification KNOWLEDGE_DRIVEN false (Some "ocean science"))))))%js.

End WithEngine.

(** What a regular-expression literal without [g] and [y] makes. *)
Definition fresh (p : RegExp) : RegExpObject := mkObject p false false 0.

(** An engine for the examples: the match found ends where the text
    ends. *)
Definition toTheEnd : RegExp -> string -> nat -> nat :=
  fun _ s _ => String.length s.

(** [/\d{4}/g], made once and kept. *)
Definition keptYearPattern : Realm -> Realm :=
  fun r => mkRealm (objects r ++ [mkObject yearPattern true false 0]) (outside r).

End Objects.

(* ================================================================== *)
(** * Intent detection and routing ([MCPOrchestrator], continued) *)
(* ================================================================== *)

Module Routing.

Inductive AnalysisType : Type :=
| KnowledgeAnalysis      (* 'knowledge' *)
| DataAnalysis           (* 'data' *)
| HybridAnalysis.        (* 'hybrid' *)

Record RoutingDecision : Type := mkRouting {
  shouldFetchData : bool;
  analysisType : AnalysisType
}.

(** [userMode || intent.mode] and the decision table that follows. *)
Definition routeQuery (intent : IntentResult) (userMode : option UserMode)
  : RoutingDecision :=
  let effectiveMode := match userMode with
                       | Some m => m
                       | None => mode intent
                       end in
  if isPower effectiveMode then
    mkRouting (requiresData intent)
              (match queryType intent with
               | KNOWLEDGE_DRIVEN => HybridAnalysis
               | _ => DataAnalysis
               end)
  else
    match queryType intent with
    | KNOWLEDGE_DRIVEN => mkRouting false KnowledgeAnalysis
    | HYBRID => mkRouting true HybridAnalysis
    | DATA_DRIVEN => mkRouting true DataAnalysis
    end.

(** The table of named regions, in the order the object literal lists
    them, which is the order [Object.entries] walks. *)
Definition regions : list (string * Region) :=
  [ ("atlantic canada", mkRegion (mkBounds 60 43 (-50) (-70)) (Some "Atlantic Canada"));
    ("north atlantic", mkRegion (mkBounds 45 35 (-60) (-80)) (Some "North Atlantic"));
    ("south atlantic", mkRegion (mkBounds 0 (-40) (-20) (-60)) (Some "South Atlantic"));
    ("pacific", mkRegion (mkBounds 60 (-60) (-120) 120) (Some "Pacific Ocean"));
    ("north pacific", mkRegion (mkBounds 60 0 (-120) 120) (Some "North Pacific"));
    ("south pacific", mkRegion (mkBounds 0 (-60) (-120) 120) (Some "South Pacific"));
    ("indian ocean", mkRegion (mkBounds 30 (-60) 20 120) (Some "Indian Ocean"));
    ("equator", mkRegion (mkBounds 10 (-10) 180 (-180)) (Some "Equatorial Region"));
    ("gulf stream", mkRegion (mkBounds 45 25 (-60) (-80)) (Some "Gulf Stream"));
    ("mediterranean", mkRegion (mkBounds 45 30 40 (-10)) (Some "Mediterranean Sea")) ].

(** [regions['north atlantic']], the region of a query that names none. *)
Definition fallbackRegion : Region :=
  mkRegion (mkBounds 45 35 (-60) (-80)) (Some "North Atlantic").

(** The loop over the table: the first key the query contains wins. *)
Fixpoint firstMentioned (table : list (string * Region)) (queryLower : string)
  : option Region :=
  match table with
  | [] => None
  | (key, region) :: rest =>
      if includes key queryLower then Some region else firstMentioned rest queryLower
  end.

Definition selectRegion (queryLower : string) : Region :=
  match firstMentioned regions queryLower with
  | Some region => region
  | None => fallbackRegion
  end.

(** The parameters the query names, in the order the code tests them;
    temperature and salinity when it names none. *)
Definition queryParameters (queryLower : string) : list string :=
  let parameters :=
    (if (includes "temperature" queryLower || includes "temp" queryLower)%bool
     then ["temperature"] else [])
    ++ (if (includes "salinity" queryLower || includes "salt" queryLower)%bool
        then ["salinity"] else [])
    ++ (if includes "pressure" queryLower then ["pressure"] else [])
    ++ (if (includes "current" queryLower || includes "velocity" queryLower)%bool
        then ["current"] else [])
    ++ (if includes "oxygen" queryLower then ["oxygen"] else [])
    ++ (if includes "chlorophyll" queryLower then ["chlorophyll"] else []) in
  match parameters with
  | [] => ["temperature"; "salinity"]
  | _ => parameters
  end.

Record Extracted : Type := mkExtracted {
  x_region : Region;
  x_timeRange : TimeRange;
  x_parameters : list string
}.

Definition extractQueryParameters (P : Platform) (query : string) : M World Extracted :=
  (let queryLower := toLowerCase query in
   let selectedRegion := selectRegion queryLower in
   let parameters := queryParameters queryLower in
   t <- Date_now ;;
   yearAgo <- liftC (toISOString P
                       (newDateNumber (Fin (inject_Z (t - MCPOrchestrator.yearMs))))) ;;
   today <- liftC (toISOString P (newDateNumber (Fin (inject_Z t)))) ;;
   ret (mkExtracted selectedRegion
          (mkTimeRange (splitHead "T" yearAgo) (splitHead "T" today) false true)
          parameters))%js.

(** [detectIntent(query, explicitMode)] for a call that gives the mode, as
    [processQuery] does for the API route: the language model is not
    consulted. *)
Definition detectIntent (P : Platform) (query : string) (explicitMode : UserMode)
  : M World IntentResult :=
  (let queryClassification := classifyQuery query in
   extracted <- extractQueryParameters P query ;;
   ret (mkIntent (type queryClassification) explicitMode
          (cl_requiresData queryClassification)
          (cl_conceptualTopic queryClassification)
          (Some (x_region extracted)) (Some (x_timeRange extracted))
          (x_parameters extracted) 1))%js.

(** ** What the properties below speak of *)

(** [p] occurs in [s], letter case aside. *)
Definition mentions (p s : string) : bool := includes (toLowerCase p) (toLowerCase s).

(** [s] begins with [p], letter case aside. *)
Definition beginsWith (p s : string) : bool := startsWith (toLowerCase p) (toLowerCase s).

(** [s] holds ASCII characters only.  On such a string [toLowerCase]
    above is the language's: a character outside ASCII may lower-case to
    an ASCII letter (the Kelvin sign to [k]), and the folding above, which
    works on the bytes of UTF-8, leaves it alone. *)
Fixpoint isAscii (s : string) : bool :=
  match s with
  | EmptyString => true
  | String c s' => (Nat.ltb (nat_of_ascii c) 128 && isAscii s')%bool
  end.

(** The clock shows a time a [Date] can hold, also a year earlier. *)
Definition clockInRange (w : World) : Prop :=
  (- maxTime + MCPOrchestrator.yearMs <= now w /\ now w <= maxTime)%Z.

End Routing.

(* ================================================================== *)
(** * Ways for the profile-data API to fail *)
(* ================================================================== *)

Module Outcomes.

Definition notAbort (e : Thrown) : Prop := isAbortError e = false.

(** The fetch ends without a usable answer and without a timeout: it is
    rejected for another reason, or answered with a status that is not 2xx,
    or with a body that cannot be read as an array of objects. *)
Definition failsPlainly (outcome : Completion Response) : Prop :=
  match outcome with
  | Throw e => notAbort e
  | Normal response =>
      if ok response then
        match json response with
        | Throw e => notAbort e
        | Normal JsonOther => True
        | Normal (JsonArray items) => In None items
        end
      else
        match text response with
        | Throw e => notAbort e
        | Normal _ => True
        end
  end.

(** The box lies on the globe. *)
Definition onGlobe (b : Bounds) : Prop :=
  -90 <= south b /\ north b <= 90 /\ -180 <= west b /\ east b <= 180.

(** The ring [retrieveData] asks for: the four corners of the box, west and
    south first, and the first corner again. *)
Definition ring (b : Bounds) : list (Q * Q) :=
  [ (west b, south b); (east b, south b); (east b, north b);
    (west b, north b); (west b, south b) ].

(** A server that is down. *)
Definition unavailable : Response :=
  mkResponse false 503 "Service Unavailable" (Normal "upstream down")
             (Throw (ThrownError (mkError "SyntaxError" "Unexpected token u"))).

End Outcomes.

(** Notions used to state where the synthetic profiles lie. *)
Module Synthetic.

(** [x] has at most [f] decimals. *)
Definition decimals (f : nat) (x : Q) : Prop :=
  exists n : Z, x * inject_Z (10 ^ Z.of_nat f) == inject_Z n.

(** The four bounds are given to at most four decimals. *)
Definition gridded (b : Bounds) : Prop :=
  decimals 4 (north b) /\ decimals 4 (south b) /\
  decimals 4 (east b) /\ decimals 4 (west b).

(** The four bounds are latitudes and longitudes.  The generators
    compute in doubles and the model in rationals; between bounds of this
    size the doubles stay finite and are off by less than 1e-12, far
    below the half unit of the fourth decimal at which [toFixed(4)]
    rounds, so that a gridded box is left by neither. *)
Definition geographic (b : Bounds) : Prop :=
  (-90 <= south b /\ south b <= 90) /\ (-90 <= north b /\ north b <= 90) /\
  (-180 <= west b /\ west b <= 180) /\ (-180 <= east b /\ east b <= 180).

(** The profile lies in the latitude band of [b], between its two
    meridians, and no deeper than [maxDepth]. *)
Definition inside (b : Bounds) (maxDepth : Q) (p : Profile) : Prop :=
  exists la lo de,
    lat p = JNumber (Fin la) /\ lon p = JNumber (Fin lo) /\
    depth p = JNumber (Fin de) /\
    south b <= la /\ la <= north b /\
    Qmin (west b) (east b) <= lo /\ lo <= Qmax (west b) (east b) /\
    0 <= de /\ de <= maxDepth.

End Synthetic.

(* ================================================================== *)
(** * The second guard of the validator ([ResponseValidator.requiresRealData]) *)
(* ================================================================== *)

Module RealData.

Local Open Scope nat_scope.

Fixpoint bytes (codes : list nat) : string :=
  match codes with
  | [] => EmptyString
  | n :: rest => String (ascii_of_nat n) (bytes rest)
  end.

(** [\d+] *)
Definition digits : regex := RSeq RDigit (RStar RDigit).

(** [\d{2}] *)
Definition digits2 : regex := RSeq RDigit RDigit.

(** [\s]: the white space and line terminators of the language, the
    ones beyond ASCII as the bytes of their UTF-8 form. *)
Definition whiteSpace : regex :=
  alts [ lit (bytes [9]); lit (bytes [10]); lit (bytes [11]); lit (bytes [12]);
         lit (bytes [13]); lit (bytes [32]);
         lit (bytes [194; 160]);
         lit (bytes [225; 154; 128]);
         lit (bytes [226; 128; 128]); lit (bytes [226; 128; 129]);
         lit (bytes [226; 128; 130]); lit (bytes [226; 128; 131]);
         lit (bytes [226; 128; 132]); lit (bytes [226; 128; 133]);
         lit (bytes [226; 128; 134]); lit (bytes [226; 128; 135]);
         lit (bytes [226; 128; 136]); lit (bytes [226; 128; 137]);
         lit (bytes [226; 128; 138]);
         lit (bytes [226; 128; 168]); lit (bytes [226; 128; 169]);
         lit (bytes [226; 128; 175]);
         lit (bytes [226; 129; 159]);
         lit (bytes [227; 128; 128]);
         lit (bytes [239; 187; 191]) ].

(** [\s*] *)
Definition spaces : regex := RStar whiteSpace.

Definition dataPatterns : list RegExp :=
  [ re (seqs [digits; RLit "."; digits; lit "°"]);
    reI (seqs [digits; spaces; alts [lit "°C"; lit "celsius"; lit "temperature"]]);
    reI (seqs [digits; spaces; alts [lit "m"; lit "meters"; lit "depth"]]);
    reI (seqs [digits; spaces; alts [lit "psu"; lit "salinity"]]);
    re (seqs [digits4; RLit "-"; digits2; RLit "-"; digits2]);
    reI (seqs [lit "profile"; spaces; digits]);
    reI (seqs [lit "float"; spaces; digits]) ].

Definition requiresRealData (response : string) : bool :=
  existsb (fun pattern => test pattern response) dataPatterns.

(** Some character of the text is a decimal digit. *)
Fixpoint hasDigit (s : string) : bool :=
  match s with
  | EmptyString => false
  | String c rest => (isDigit c || hasDigit rest)%bool
  end.

(** Every match of the pattern goes through [\d]. *)
Fixpoint needsDigit (r : regex) : bool :=
  match r with
  | RNone | RDigit => true
  | REps | RLit _ | RDot | RStar _ => false
  | RSeq a b => (needsDigit a || needsDigit b)%bool
  | RAlt a b => (needsDigit a && needsDigit b)%bool
  end.

End RealData.

(* ================================================================== *)
(** * Analysis results, statistics and visualization *)
(* ================================================================== *)

Module Analysis.

Record DepthRange : Type := mkDepthRange {
  min : JSNumber;
  max : JSNumber
}.

Record Statistics : Type := mkStatistics {
  avgTemperature : option JSNumber;
  avgSalinity : option JSNumber;
  depthRange : option DepthRange;
  profileCount : nat
}.

Record AnalysisResult : Type := mkAnalysis {
  summary : string;
  insights : list string;
  statistics : Statistics;
  hasRealData : bool;
  llmProvider : string;
  a_confidence : Q
}.

(** [a + b] on values that are numbers or [null]. *)
Definition plus (a b : JSValue) : JSValue :=
  JNumber (numAdd (toNumber a) (toNumber b)).

(** [values.reduce((a, b) => a + b)] on a list that is not empty: with
    no initial value the first element starts the sum. *)
Definition reduceSum (first : JSValue) (rest : list JSValue) : JSValue :=
  fold_left plus rest first.

(** [v / n] for a count [n] that is not zero. *)
Definition divideBy (n : nat) (v : JSValue) : JSNumber :=
  numScale (1 / inject_Z (Z.of_nat n)) (toNumber v).

(** [values.length > 0 ? values.reduce((a, b) => a + b) / values.length
    : undefined] *)
Definition average (values : list JSValue) : option JSNumber :=
  match values with
  | [] => None
  | first :: rest => Some (divideBy (List.length values) (reduceSum first rest))
  end.

Definition numMin (a b : JSNumber) : JSNumber :=
  match a, b with
  | NaN, _ | _, NaN => NaN
  | _, _ => if numLe a b then a else b
  end.

Definition numMax (a b : JSNumber) : JSNumber :=
  match a, b with
  | NaN, _ | _, NaN => NaN
  | _, _ => if numLe a b then b else a
  end.

(** [Math.min(...values)] and [Math.max(...values)] *)
Definition Math_min (values : list JSValue) : JSNumber :=
  fold_right (fun v least => numMin (toNumber v) least) PosInfinity values.

Definition Math_max (values : list JSValue) : JSNumber :=
  fold_right (fun v most => numMax (toNumber v) most) NegInfinity values.

(** [MCPOrchestrator.calculateBasicStats] *)
Definition calculateBasicStats (data : DataResult) : Statistics :=
  let temps := filter (fun t => negb (isUndefined t)) (map temperature (profiles data)) in
  let salts := filter (fun s => negb (isUndefined s)) (map salinity (profiles data)) in
  let depths := map depth (profiles data) in
  mkStatistics
    (average temps)
    (average salts)
    (match depths with
     | [] => None
     | _ => Some (mkDepthRange (Math_min depths) (Math_max depths))
     end)
    (List.length (profiles data)).

(** ** What the properties below speak of *)

(** The profile has a temperature, respectively a salinity: the field is
    not [undefined]. *)
Definition hasTemperature (p : Profile) : bool := negb (isUndefined (temperature p)).
Definition hasSalinity (p : Profile) : bool := negb (isUndefined (salinity p)).

(** [data] with those of its profiles only that [keep] accepts. *)
Definition only (keep : Profile -> bool) (data : DataResult) : DataResult :=
  mkDataResult (filter keep (profiles data)) (metadata data) (isEmpty data).

End Analysis.

Module Visualization.

Inductive Library : Type :=
| THREE
| PLOTLY
| LEAFLET.

Record Marker : Type := mkMarker {
  m_lat : JSValue;
  m_lon : JSValue;
  value : JSValue;
  popup : string
}.

Record Point : Type := mkPoint {
  x : JSValue;
  y : JSValue;
  z : JSNumber;
  color : JSValue;
  size : Q
}.

(** The [config] objects the source builds. *)
Inductive Config : Type :=
| EmptyConfig
| MapConfig (center : Q * Q) (zoom : Q) (markers : list Marker)       (* center is (lat, lon) *)
| SceneConfig (xaxis yaxis zaxis : string) (points : list Point)
| ScatterConfig (kind : string) (xs ys : list JSValue) (mode : string)
    (colors : list JSValue) (colorscale title xaxis yaxis : string).

(** The [data] field: [null], or an array of profiles. *)
Inductive Payload : Type :=
| NoRows
| Rows (rows : list Profile).

Record VizSpec : Type := mkVizSpec {
  type : VizType;
  config : Config;
  data : Payload;
  library : Library;
  fallbackText : option string
}.

(** [`${v}`] of a value that is a number, [null] or [undefined] *)
Definition show (P : Platform) (v : JSValue) : string :=
  match v with
  | JUndefined => "undefined"
  | JNull => "null"
  | JNumber NaN => "NaN"
  | JNumber PosInfinity => "Infinity"
  | JNumber NegInfinity => "-Infinity"
  | JNumber (Fin q) => Number_toString P q
  end.

(** [MCPOrchestrator.generateVisualization]; the [analysis] argument is
    not read. *)
Definition generateVisualization (P : Platform) (data : DataResult)
           (analysis : Analysis.AnalysisResult) (intent : IntentResult) : VizSpec :=
  if isEmpty data then
    mkVizSpec CHART EmptyConfig NoRows PLOTLY
              (Some "No data to visualize. Try expanding your search criteria.")
  else
    let count := natToString (List.length (profiles data)) in
    match determineVisualizationType data intent with
    | MAP =>
        mkVizSpec MAP
          (MapConfig
             (match region intent with
              | Some r => ((north (bounds r) + south (bounds r)) / 2,
                           (east (bounds r) + west (bounds r)) / 2)
              | None => (40, -70)
              end)
             6
             (map (fun p =>
                     mkMarker (lat p) (lon p) (temperature p)
                       ("T: " ++ show P (temperature p) ++ "°C, S: "
                        ++ show P (salinity p) ++ " PSU")%string)
                  (profiles data)))
          (Rows (profiles data))
          THREE
          (Some ("Map showing " ++ count ++ " ocean profiles")%string)
    | PLOT3D =>
        mkVizSpec PLOT3D
          (SceneConfig "Longitude" "Latitude" "Depth (m)"
             (map (fun p =>
                     mkPoint (lon p) (lat p) (numNeg (toNumber (depth p)))
                             (temperature p) 5)
                  (profiles data)))
          (Rows (profiles data))
          THREE
          (Some ("3D visualization of " ++ count ++ " ocean measurements")%string)
    | _ =>
        mkVizSpec CHART
          (ScatterConfig "scatter"
             (map temperature (profiles data))
             (map salinity (profiles data))
             "markers"
             (map depth (profiles data))
             "Viridis" "Temperature vs Salinity" "Temperature (°C)" "Salinity (PSU)")
          (Rows (profiles data))
          PLOTLY
          (Some ("Scatter plot of " ++ count ++ " ocean measurements")%string)
    end.

(** [MCPOrchestrator.generateAdaptiveVisualization] *)
Definition generateAdaptiveVisualization (P : Platform)
           (analysis : Analysis.AnalysisResult) (intent : IntentResult)
           (data : DataResult) : VizSpec :=
  match queryType intent with
  | KNOWLEDGE_DRIVEN =>
      if negb (Analysis.hasRealData analysis) then
        mkVizSpec CHART EmptyConfig (Rows []) PLOTLY (Some (Analysis.summary analysis))
      else generateVisualization P data analysis intent
  | _ => generateVisualization P data analysis intent
  end.

(** The profile has both a latitude and a longitude. *)
Definition located (p : Profile) : bool :=
  (negb (isUndefined (lat p)) && negb (isUndefined (lon p)))%bool.

(** The specification that says there is nothing to show. *)
Definition nothingToShow : VizSpec :=
  mkVizSpec CHART EmptyConfig NoRows PLOTLY
            (Some "No data to visualize. Try expanding your search criteria.").

End Visualization.

(* ================================================================== *)
(** * The analysis steps ([MCPOrchestrator], continued) *)
(* ================================================================== *)

Module AnalysisSteps.

(** The steps run on the controller's state; what they write on the
    console is left out. *)

(** What the language model's answer holds once parsed, as far as the
    analysis steps read it, each field taken to have the type that
    [AnalysisResult] declares for it; [None] is a missing field. *)
Record StatisticsView : Type := mkStatisticsView {
  v_avgTemperature : option JSNumber;
  v_avgSalinity : option JSNumber;
  v_depthRange : option Analysis.DepthRange
}.

Record Parsed : Type := mkParsed {
  p_summary : option string;
  p_insights : option (list string);
  p_statistics : option StatisticsView;
  p_enhancedSummary : option string;
  p_contextualInsights : option (list string)
}.

(** The [dataSummary] object of [analyzeData]. *)
Record DataSummary : Type := mkDataSummary {
  ds_profileCount : nat;
  ds_timeRange : DateRange;
  ds_region : string;
  sampleData : list Profile
}.

Definition nl : string := String (ascii_of_nat 10) EmptyString.
Definition quote : string := String (ascii_of_nat 34) EmptyString.

Definition modeString (m : UserMode) : string :=
  match m with
  | EXPLORER => "explorer"
  | POWER => "power"
  end.

(** [intent.conceptualTopic || 'ocean science'] *)
Definition topicOf (intent : IntentResult) : string :=
  FailureHandler.orString (conceptualTopic intent) "ocean science".

Fixpoint indexOf (c : ascii) (s : string) : option nat :=
  match s with
  | EmptyString => None
  | String a rest =>
      if Ascii.eqb a c then Some 0%nat
      else match indexOf c rest with
           | Some i => Some (Datatypes.S i)
           | None => None
           end
  end.

Fixpoint lastIndexOf (c : ascii) (s : string) : option nat :=
  match s with
  | EmptyString => None
  | String a rest =>
      match lastIndexOf c rest with
      | Some i => Some (Datatypes.S i)
      | None => if Ascii.eqb a c then Some 0%nat else None
      end
  end.

(** The lines that follow [response.trim()] in each step: when the text
    has an opening brace and a closing brace after it, what lies from the
    first opening brace to the last closing brace is kept. *)
Definition extractJson (cleanResponse : string) : string :=
  match indexOf "{" cleanResponse with
  | None => cleanResponse
  | Some jsonStart =>
      let jsonEnd := match lastIndexOf "}" cleanResponse with
                     | Some j => Datatypes.S j
                     | None => 0%nat
                     end in
      if Nat.ltb jsonStart jsonEnd
      then String.substring jsonStart (jsonEnd - jsonStart) cleanResponse
      else cleanResponse
  end.

(** [{ ...parsed.statistics, profileCount: n }] *)
Definition withCount (v : option StatisticsView) (n : nat) : Analysis.Statistics :=
  match v with
  | Some s => Analysis.mkStatistics (v_avgTemperature s) (v_avgSalinity s)
                                    (v_depthRange s) n
  | None => Analysis.mkStatistics None None None n
  end.

(** [{ profileCount: n }] *)
Definition countOnly (n : nat) : Analysis.Statistics :=
  Analysis.mkStatistics None None None n.

(** [x || d] for a list that may be missing: an array is truthy. *)
Definition orList (x : option (list string)) (d : list string) : list string :=
  match x with
  | Some l => l
  | None => d
  end.

Definition knowledgePrompt (query : string) (intent : IntentResult) : string :=
  ("Answer this ocean science question with expert knowledge:" ++ nl
   ++ nl
   ++ "Question: " ++ quote ++ query ++ quote ++ nl
   ++ "Topic: " ++ topicOf intent ++ nl
   ++ "Mode: " ++ modeString (mode intent) ++ " (" ++ (if isPower (mode intent) then "technical, precise" else "conversational, accessible") ++ ")" ++ nl
   ++ nl
   ++ "Provide response in JSON format:" ++ nl
   ++ "{" ++ nl
   ++ "  " ++ quote ++ "summary" ++ quote ++ ": " ++ quote ++ "Clear explanation answering the question" ++ quote ++ "," ++ nl
   ++ "  " ++ quote ++ "insights" ++ quote ++ ": [" ++ quote ++ "key point 1" ++ quote ++ ", " ++ quote ++ "key point 2" ++ quote ++ ", " ++ quote ++ "key point 3" ++ quote ++ "]," ++ nl
   ++ "  " ++ quote ++ "statistics" ++ quote ++ ": {" ++ nl
   ++ "    " ++ quote ++ "profileCount" ++ quote ++ ": 0" ++ nl
   ++ "  }" ++ nl
   ++ "}" ++ nl
   ++ nl
   ++ "Requirements:" ++ nl
   ++ "- Answer the actual question asked" ++ nl
   ++ "- Use scientific knowledge and established oceanographic principles" ++ nl
   ++ "- " ++ (if isPower (mode intent) then "Include technical details and mechanisms" else "Keep explanations accessible and engaging") ++ nl
   ++ "- NO template responses or generic filler")%string.

Definition hybridPrompt (query : string) (data : DataResult) (intent : IntentResult)
  : string :=
  let hasData := negb (isEmpty data) in
  let dataContext :=
    if hasData
    then ("Current data shows " ++ natToString (List.length (profiles data))
          ++ " ocean profiles from " ++ md_region (metadata data))%string
    else "No current data available" in
  ("Answer this ocean question using both scientific knowledge and available data:" ++ nl
   ++ nl
   ++ "Question: " ++ quote ++ query ++ quote ++ nl
   ++ "Topic: " ++ topicOf intent ++ nl
   ++ "Data Context: " ++ dataContext ++ nl
   ++ "Mode: " ++ modeString (mode intent) ++ nl
   ++ nl
   ++ "Provide comprehensive response in JSON format:" ++ nl
   ++ "{" ++ nl
   ++ "  " ++ quote ++ "summary" ++ quote ++ ": " ++ quote ++ "Answer combining scientific principles with current observations" ++ quote ++ "," ++ nl
   ++ "  " ++ quote ++ "insights" ++ quote ++ ": [" ++ quote ++ "knowledge-based insight" ++ quote ++ ", " ++ quote ++ "data-based insight" ++ quote ++ ", " ++ quote ++ "synthesis insight" ++ quote ++ "]," ++ nl
   ++ "  " ++ quote ++ "statistics" ++ quote ++ ": {" ++ nl
   ++ "    " ++ quote ++ "profileCount" ++ quote ++ ": " ++ natToString (List.length (profiles data)) ++ nl
   ++ "  }" ++ nl
   ++ "}" ++ nl
   ++ nl
   ++ "Requirements:" ++ nl
   ++ "- Answer the actual question with scientific explanations" ++ nl
   ++ "- " ++ (if hasData then "Incorporate current data observations" else "Focus on established scientific knowledge") ++ nl
   ++ "- " ++ (if isPower (mode intent) then "Include technical mechanisms and data analysis" else "Make explanations accessible and engaging"))%string.

Definition contextPrompt (analysis : Analysis.AnalysisResult) (originalQuery : string)
  : string :=
  ("Connect this ocean data analysis to broader scientific context:" ++ nl
   ++ nl
   ++ "Original Question: " ++ quote ++ originalQuery ++ quote ++ nl
   ++ "Current Analysis: " ++ quote ++ Analysis.summary analysis ++ quote ++ nl
   ++ "Data Points: " ++ natToString (Analysis.profileCount (Analysis.statistics analysis)) ++ nl
   ++ nl
   ++ "Add scientific context in JSON:" ++ nl
   ++ "{" ++ nl
   ++ "  " ++ quote ++ "contextualInsights" ++ quote ++ ": [" ++ quote ++ "scientific connection 1" ++ quote ++ ", " ++ quote ++ "broader implication 2" ++ quote ++ "]," ++ nl
   ++ "  " ++ quote ++ "enhancedSummary" ++ quote ++ ": " ++ quote ++ "Enhanced summary connecting data to scientific phenomena" ++ quote ++ nl
   ++ "}")%string.

Section WithRuntime.

(** The controller's side: the outside world of the providers, the clock
    and the provider list of [this.llmController]. *)
Variable Env : Type.
Variable clock : Env -> Z.
Variable providers : list (LLMProvider.t Env).

(** [String.prototype.trim] *)
Variable trim : string -> string.

(** [JSON.stringify(dataSummary, null, 2)] *)
Variable JSON_stringify : DataSummary -> string.

(** [JSON.parse(text)] together with the reads of the parsed value's
    fields that follow it in the same [try] block: a SyntaxError when the
    text is not JSON, a TypeError when it is [null]. *)
Variable JSON_parse : string -> Completion Parsed.

(** [x.toFixed(1)] *)
Variable toFixed1 : JSNumber -> string.

Definition ask (prompt : string) : M (LLMProviderController.State Env) string :=
  LLMProviderController.generateResponse clock providers prompt.

Definition analyzePrompt (data : DataResult) (intent : IntentResult) : string :=
  let dataSummary :=
    mkDataSummary (List.length (profiles data)) (dateRange (metadata data))
                  (md_region (metadata data)) (firstn 5 (profiles data)) in
  ("You are analyzing real ocean data. You MUST respond with ONLY valid JSON, no other text." ++ nl
   ++ nl
   ++ "Data Summary:" ++ nl
   ++ JSON_stringify dataSummary ++ nl
   ++ nl
   ++ "User Mode: " ++ modeString (mode intent) ++ nl
   ++ "Requested Parameters: " ++ String.concat ", " (parameters intent) ++ nl
   ++ nl
   ++ "RESPOND WITH ONLY THIS JSON STRUCTURE (no additional text before or after):" ++ nl
   ++ "{" ++ nl
   ++ "  " ++ quote ++ "summary" ++ quote ++ ": " ++ quote ++ "Brief summary of findings based on the actual data" ++ quote ++ "," ++ nl
   ++ "  " ++ quote ++ "insights" ++ quote ++ ": [" ++ quote ++ "insight 1" ++ quote ++ ", " ++ quote ++ "insight 2" ++ quote ++ ", " ++ quote ++ "insight 3" ++ quote ++ "]," ++ nl
   ++ "  " ++ quote ++ "statistics" ++ quote ++ ": {" ++ nl
   ++ "    " ++ quote ++ "avgTemperature" ++ quote ++ ": 12.5," ++ nl
   ++ "    " ++ quote ++ "avgSalinity" ++ quote ++ ": 35.2," ++ nl
   ++ "    " ++ quote ++ "depthRange" ++ quote ++ ": {" ++ quote ++ "min" ++ quote ++ ": 5, " ++ quote ++ "max" ++ quote ++ ": 2000}," ++ nl
   ++ "    " ++ quote ++ "profileCount" ++ quote ++ ": " ++ natToString (List.length (profiles data)) ++ nl
   ++ "  }" ++ nl
   ++ "}" ++ nl
   ++ nl
   ++ "Requirements:" ++ nl
   ++ "- ONLY valid JSON response" ++ nl
   ++ "- Reference ONLY the provided real data" ++ nl
   ++ "- NO template responses or generic statements" ++ nl
   ++ "- Include specific numbers from the data" ++ nl
   ++ "- " ++ (if isPower (mode intent) then "Technical, research-level analysis" else "Simple, conversational explanations"))%string.

(** [MCPOrchestrator.performKnowledgeAnalysis] *)
Definition performKnowledgeAnalysis (query : string) (intent : IntentResult)
  : M (LLMProviderController.State Env) Analysis.AnalysisResult :=
  tryCatch
    (response <- ask (knowledgePrompt query intent) ;;
     let cleanResponse := extractJson (trim response) in
     tryCatch
       (parsed <- liftC (JSON_parse cleanResponse) ;;
        ret (Analysis.mkAnalysis
               (FailureHandler.orString (p_summary parsed)
                  "Knowledge-based analysis completed")
               (orList (p_insights parsed) ["Analysis completed"])
               (countOnly 0) false "groq|huggingface" (95 # 100)))
       (fun jsonError =>
          ret (Analysis.mkAnalysis
                 ("Analysis of " ++ query
                  ++ ": Based on established oceanographic knowledge")%string
                 ["Knowledge-based analysis completed"]
                 (countOnly 0) false "groq|huggingface" (8 # 10))))%js
    (fun error =>
       ret (Analysis.mkAnalysis
              "I understand you're asking about ocean science concepts. Let me provide a scientific explanation based on established oceanographic principles."
              ["Ocean systems are complex"; "Multiple factors interact";
               "More research is ongoing"]
              (countOnly 0) false "fallback" (6 # 10))).

(** [MCPOrchestrator.performHybridAnalysis] *)
Definition performHybridAnalysis (query : string) (data : DataResult)
           (intent : IntentResult)
  : M (LLMProviderController.State Env) Analysis.AnalysisResult :=
  let hasData := negb (isEmpty data) in
  let count := List.length (profiles data) in
  tryCatch
    (response <- ask (hybridPrompt query data intent) ;;
     let cleanResponse := extractJson (trim response) in
     tryCatch
       (parsed <- liftC (JSON_parse cleanResponse) ;;
        ret (Analysis.mkAnalysis
               (FailureHandler.orString (p_summary parsed)
                  "Analysis completed with available data")
               (orList (p_insights parsed) ["Data analysis completed"])
               (withCount (p_statistics parsed) count)
               hasData "groq|huggingface" (9 # 10)))
       (fun jsonError =>
          ret (Analysis.mkAnalysis
                 ("Analysis of " ++ query ++ ": "
                  ++ (if hasData
                      then "Based on " ++ natToString count ++ " ocean profiles"
                      else "Based on scientific knowledge"))%string
                 ["Analysis completed"; "Data processed successfully"]
                 (countOnly count) hasData "groq|huggingface" (7 # 10))))%js
    (fun error =>
       ret (Analysis.mkAnalysis
              (if hasData
               then ("Based on " ++ natToString count
                     ++ " current observations and oceanographic principles...")%string
               else "Based on established oceanographic knowledge...")
              ["Scientific principles apply"; "Current conditions noted";
               "Further analysis valuable"]
              (countOnly count) hasData "fallback" (7 # 10))).

(** [x ? `label: ${x.toFixed(1)}unit` : otherwise] for an average that
    may be undefined. *)
Definition averageLine (label unit otherwise : string) (x : option JSNumber) : string :=
  match x with
  | Some n => if truthyNumber n
              then (label ++ toFixed1 n ++ unit)%string
              else otherwise
  | None => otherwise
  end.

(** [MCPOrchestrator.analyzeData] *)
Definition analyzeData (data : DataResult) (intent : IntentResult)
  : M (LLMProviderController.State Env) Analysis.AnalysisResult :=
  if isEmpty data then
    ret (Analysis.mkAnalysis "No data available for this query. Try refining filters."
           [] (countOnly 0) false "none" 1)
  else
    let count := List.length (profiles data) in
    tryCatch
      (response <- ask (analyzePrompt data intent) ;;
       let cleanResponse := extractJson (trim response) in
       tryCatch
         (parsed <- liftC (JSON_parse cleanResponse) ;;
          ret (Analysis.mkAnalysis
                 (FailureHandler.orString (p_summary parsed) "Data analysis completed")
                 (orList (p_insights parsed) ["Data processed successfully"])
                 (withCount (p_statistics parsed) count)
                 true "groq|huggingface" (85 # 100)))
         (fun jsonError =>
            let stats := Analysis.calculateBasicStats data in
            ret (Analysis.mkAnalysis
                   ("Analysis of " ++ natToString count ++ " ocean profiles from "
                    ++ md_region (metadata data))%string
                   ["Data analysis completed"; "Statistical processing successful"]
                   stats true "groq|huggingface" (7 # 10))))%js
      (fun error =>
         let stats := Analysis.calculateBasicStats data in
         ret (Analysis.mkAnalysis
                ("Found " ++ natToString count ++ " ocean profiles in "
                 ++ md_region (metadata data) ++ " from "
                 ++ dr_start (dateRange (metadata data)) ++ " to "
                 ++ dr_end (dateRange (metadata data)) ++ ".")%string
                (filter truthyString
                   [ ("Data spans " ++ natToString (Analysis.profileCount stats)
                      ++ " measurements")%string;
                     averageLine "Average temperature: " "°C"
                                 "Temperature data available"
                                 (Analysis.avgTemperature stats);
                     averageLine "Average salinity: " " PSU"
                                 "Salinity data available"
                                 (Analysis.avgSalinity stats) ])
                stats true "fallback" (7 # 10))).

(** [MCPOrchestrator.performIntelligentAnalysis] *)
Definition performIntelligentAnalysis (query : string) (data : DataResult)
           (intent : IntentResult) (routing : Routing.RoutingDecision)
  : M (LLMProviderController.State Env) Analysis.AnalysisResult :=
  match Routing.analysisType routing with
  | Routing.KnowledgeAnalysis => performKnowledgeAnalysis query intent
  | Routing.HybridAnalysis => performHybridAnalysis query data intent
  | Routing.DataAnalysis => analyzeData data intent
  end.

(** [MCPOrchestrator.addScientificContext] *)
Definition addScientificContext (analysis : Analysis.AnalysisResult)
           (intent : IntentResult) (originalQuery : string)
  : M (LLMProviderController.State Env) Analysis.AnalysisResult :=
  match queryType intent with
  | KNOWLEDGE_DRIVEN => ret analysis
  | DATA_DRIVEN =>
      if Analysis.hasRealData analysis then
        tryCatch
          (response <- ask (contextPrompt analysis originalQuery) ;;
           let cleanResponse := extractJson (trim response) in
           enhancement <- liftC (JSON_parse cleanResponse) ;;
           ret (Analysis.mkAnalysis
                  (FailureHandler.orString (p_enhancedSummary enhancement)
                     (Analysis.summary analysis))
                  (Analysis.insights analysis
                   ++ orList (p_contextualInsights enhancement) [])
                  (Analysis.statistics analysis)
                  (Analysis.hasRealData analysis)
                  (Analysis.llmProvider analysis)
                  (Analysis.a_confidence analysis)))%js
          (fun error => ret analysis)
      else ret analysis
  | HYBRID => ret analysis
  end.

End WithRuntime.

End AnalysisSteps.

(* ================================================================== *)
(** * The provider clients ([GroqProvider], [HuggingFaceProvider]) *)
(* ================================================================== *)

Module Wire.

(** The object a client hands to [JSON.stringify] as the body of a
    request. *)
Inductive Payload : Type :=
| ChatCompletion (model userContent : string) (max_tokens : Z) (temperature : Q)
    (stream : bool)
| InferenceProbe (inputs : string) (wait_for_model : bool)
| InferenceRequest (inputs : string) (max_new_tokens : Z) (temperature : Q)
    (return_full_text wait_for_model : bool).

(** A call of [fetch]: the address and the options the source passes. *)
Record Call : Type := mkCall {
  address : string;
  method : option string;
  authorization : string;
  contentType : string;
  payload : option Payload;
  timeout : Z                       (* AbortSignal.timeout, in ms *)
}.

Record TokenCounts : Type := mkTokenCounts {
  prompt_tokens : option Z;
  completion_tokens : option Z;
  total_tokens : option Z
}.

(** [await response.json()] as the Groq client reads it: either reading
    [data.choices[0].message.content] throws a TypeError, or it yields the
    content, which is taken to be a string as [ProviderResponse] declares,
    and [data.usage], when there is one. *)
Inductive ChatData : Type :=
| ChatUnreadable (message : string)
| ChatAnswer (content : string) (usage : option TokenCounts).

(** A [generated_text]: falsy or missing, a string, or a truthy value
    that is not a string. *)
Inductive Generated : Type :=
| NoText
| Text (s : string)
| NotText.

(** [await response.json()] as the HuggingFace client reads it. *)
Inductive InferenceData : Type :=
| InferenceNull (message : string)          (* [null]: reading a property throws *)
| InferenceArray (first : Generated)        (* an array; [data[0]?.generated_text] *)
| InferenceObject (generated_text : Generated).

Record Reply : Type := mkReply {
  ok : bool;
  status : Z;
  statusText : string;
  chat : Completion ChatData;
  inference : Completion InferenceData
}.

(** What the clients talk to and keep: the clock (its successive
    readings), the network, and the [healthStatus] of each client. *)
Record Net : Type := mkNet {
  ticks : nat -> Z;
  reads : nat;
  wire : nat -> Call -> Completion Reply;     (* what the k-th fetch resolves to *)
  sent : list Call;                           (* the fetches made so far *)
  groqHealth : ProviderHealthStatus;
  hfHealth : ProviderHealthStatus
}.

(** [Date.now()] and the time value of [new Date()] *)
Definition Date_now : M Net Z :=
  fun e => (Normal (ticks e (reads e)),
            mkNet (ticks e) (Datatypes.S (reads e)) (wire e) (sent e)
                  (groqHealth e) (hfHealth e)).

Definition fetch (c : Call) : M Net Reply :=
  fun e => (wire e (List.length (sent e)) c,
            mkNet (ticks e) (reads e) (wire e) (sent e ++ [c])
                  (groqHealth e) (hfHealth e)).

Definition health (p : ProviderType) (e : Net) : ProviderHealthStatus :=
  match p with
  | GROQ => groqHealth e
  | HUGGINGFACE => hfHealth e
  end.

(** [this.healthStatus = h] *)
Definition setHealth (p : ProviderType) (h : ProviderHealthStatus) : M Net unit :=
  modify (fun e =>
    match p with
    | GROQ => mkNet (ticks e) (reads e) (wire e) (sent e) h (hfHealth e)
    | HUGGINGFACE => mkNet (ticks e) (reads e) (wire e) (sent e) (groqHealth e) h
    end).

(** [this.healthStatus.isHealthy = false; this.healthStatus.lastError = m] *)
Definition markUnhealthy (p : ProviderType) (m : string) : M Net unit :=
  (e <- get ;;
   setHealth p (mkHealth false (Some m) (lastChecked (health p e))
                         (responseTime (health p e))))%js.

(** [`${x}`] of a string that may be undefined *)
Definition showOptional (x : option string) : string :=
  match x with
  | Some s => s
  | None => "undefined"
  end.

(** [n || 0] of a count that may be missing *)
Definition orZero (n : option Z) : Z :=
  match n with
  | Some k => k
  | None => 0%Z
  end.

(** The controller's [new Date()]: the next reading of the clock. *)
Definition clock (e : Net) : Z := ticks e (reads e).

End Wire.

Module GroqProvider.

Import Wire.

Definition baseUrl : string := "https://api.groq.com/openai/v1".
Definition model : string := "llama-3.1-8b-instant".

Definition probe (apiKey : string) : Call :=
  mkCall (baseUrl ++ "/models") None ("Bearer " ++ apiKey) "application/json"
         None 5000.

Definition completion (apiKey prompt : string) : Call :=
  mkCall (baseUrl ++ "/chat/completions") (Some "POST") ("Bearer " ++ apiKey)
         "application/json"
         (Some (ChatCompletion model prompt 2048 (1 # 10) false)) 30000.

Definition isAvailable (apiKey : string) : M Net bool :=
  tryCatch
    (startTime <- Date_now ;;
     response <- fetch (probe apiKey) ;;
     finished <- Date_now ;;
     let responseTime := (finished - startTime)%Z in
     let isHealthy := ok response in
     checked <- Date_now ;;
     setHealth GROQ
       (mkHealth isHealthy
          (if isHealthy then None
           else Some ("HTTP " ++ MCPOrchestrator.zToString (status response)
                      ++ ": " ++ statusText response)%string)
          checked (Some responseTime)) ;;;
     ret isHealthy)%js
    (fun error =>
       (checked <- Date_now ;;
        setHealth GROQ
          (mkHealth false (Some (LLMProviderController.errorMessageOf error))
                    checked None) ;;;
        ret false)%js).

(** The [try] block of [generateResponse]. *)
Definition complete (apiKey prompt : string) : M Net ProviderResponse :=
  (response <- fetch (completion apiKey prompt) ;;
   if negb (ok response) then
     throw (newError ("Groq API error: " ++ MCPOrchestrator.zToString (status response)
                      ++ " " ++ statusText response)%string)
   else
     (data <- liftC (chat response) ;;
      match data with
      | ChatUnreadable message => throw (typeError message)
      | ChatAnswer content usage =>
          ret (mkProviderResponse content
                 (Some (mkUsage
                          (orZero (match usage with
                                   | Some u => prompt_tokens u | None => None end))
                          (orZero (match usage with
                                   | Some u => completion_tokens u | None => None end))
                          (orZero (match usage with
                                   | Some u => total_tokens u | None => None end))))
                 model (providerTypeString GROQ))
      end))%js.

Definition generateResponse (apiKey prompt : string) : M Net ProviderResponse :=
  (available <- isAvailable apiKey ;;
   if negb available then
     (e <- get ;;
      throw (newError ("Groq provider is not available: "
                       ++ showOptional (lastError (groqHealth e)))%string))
   else
     tryCatch (complete apiKey prompt)
       (fun error =>
          markUnhealthy GROQ (LLMProviderController.errorMessageOf error) ;;;
          throw error))%js.

Definition getHealthStatus (e : Net) : ProviderHealthStatus := groqHealth e.

(** [new GroqProvider(apiKey)] once its initial [healthStatus] is set. *)
Definition client (apiKey : string) : LLMProvider.t Net :=
  LLMProvider.mk GROQ (isAvailable apiKey) (generateResponse apiKey) getHealthStatus.

End GroqProvider.

Module HuggingFaceProvider.
Section WithTrim.

Import Wire.

(** [String.prototype.trim] *)
Variable trim : string -> string.

Definition baseUrl : string := "https://api-inference.huggingface.co/models".
Definition model : string := "microsoft/DialoGPT-large".

Definition probe (apiKey : string) : Call :=
  mkCall (baseUrl ++ "/" ++ model) (Some "POST") ("Bearer " ++ apiKey)
         "application/json" (Some (InferenceProbe "test" false)) 5000.

Definition completion (apiKey prompt : string) : Call :=
  mkCall (baseUrl ++ "/" ++ model) (Some "POST") ("Bearer " ++ apiKey)
         "application/json"
         (Some (InferenceRequest prompt 500 (1 # 10) false true)) 60000.

Definition isAvailable (apiKey : string) : M Net bool :=
  tryCatch
    (startTime <- Date_now ;;
     response <- fetch (probe apiKey) ;;
     finished <- Date_now ;;
     let responseTime := (finished - startTime)%Z in
     let isHealthy := (ok response || Z.eqb (status response) 503)%bool in
     checked <- Date_now ;;
     setHealth HUGGINGFACE
       (mkHealth isHealthy
          (if isHealthy then None
           else Some ("HTTP " ++ MCPOrchestrator.zToString (status response)
                      ++ ": " ++ statusText response)%string)
          checked (Some responseTime)) ;;;
     ret isHealthy)%js
    (fun error =>
       (checked <- Date_now ;;
        setHealth HUGGINGFACE
          (mkHealth false (Some (LLMProviderController.errorMessageOf error))
                    checked None) ;;;
        ret false)%js).

(** [g || ''], then [.trim()] *)
Definition trimmed (g : Generated) : M Net string :=
  match g with
  | NoText => ret (trim "")
  | Text s => ret (trim (if truthyString s then s else ""))
  | NotText => throw (typeError "content.trim is not a function")
  end.

(** The [try] block of [generateResponse]. *)
Definition complete (apiKey prompt : string) : M Net ProviderResponse :=
  (response <- fetch (completion apiKey prompt) ;;
   if negb (ok response) then
     throw (newError ("HuggingFace API error: "
                      ++ MCPOrchestrator.zToString (status response)
                      ++ " " ++ statusText response)%string)
   else
     (data <- liftC (inference response) ;;
      content <- match data with
                 | InferenceNull message => throw (typeError message)
                 | InferenceArray first => trimmed first
                 | InferenceObject generated_text => trimmed generated_text
                 end ;;
      ret (mkProviderResponse content None model (providerTypeString HUGGINGFACE))))%js.

Definition generateResponse (apiKey prompt : string) : M Net ProviderResponse :=
  (available <- isAvailable apiKey ;;
   if negb available then
     (e <- get ;;
      throw (newError ("HuggingFace provider is not available: "
                       ++ showOptional (lastError (hfHealth e)))%string))
   else
     tryCatch (complete apiKey prompt)
       (fun error =>
          markUnhealthy HUGGINGFACE (LLMProviderController.errorMessageOf error) ;;;
          throw error))%js.

Definition getHealthStatus (e : Net) : ProviderHealthStatus := hfHealth e.

(** [new HuggingFaceProvider(apiKey)] once its initial [healthStatus] is
    set. *)
Definition client (apiKey : string) : LLMProvider.t Net :=
  LLMProvider.mk HUGGINGFACE (isAvailable apiKey) (generateResponse apiKey)
                 getHealthStatus.

End WithTrim.
End HuggingFaceProvider.

(** The constructor of [LLMProviderController] and [testAllProviders]. *)
Module Construction.
Section WithTrim.

Import Wire.

Variable trim : string -> string.

(** [key && key !== placeholder] *)
Definition configured (key : option string) (placeholder : string) : option string :=
  match key with
  | Some k => if (truthyString k && negb (String.eqb k placeholder))%bool
              then Some k else None
  | None => None
  end.

(** The field initialiser [healthStatus = { isHealthy: true, lastChecked:
    new Date() }] of a client. *)
Definition initialHealth (p : ProviderType) : M Net unit :=
  (t <- Date_now ;; setHealth p (mkHealth true None t None))%js.

Record Controller : Type := mkController {
  providers : list (LLMProvider.t Net);
  warned : bool                        (* the console.warn of the constructor *)
}.

(** [new LLMProviderController(groqApiKey, huggingFaceApiKey)] *)
Definition construct (groqApiKey huggingFaceApiKey : option string)
  : M Net Controller :=
  (first <- match configured groqApiKey "your_groq_api_key_here" with
            | Some k => initialHealth GROQ ;;; ret [GroqProvider.client k]
            | None => ret []
            end ;;
   both <- match configured huggingFaceApiKey "your_huggingface_api_key_here" with
           | Some k => initialHealth HUGGINGFACE ;;;
                       ret (first ++ [HuggingFaceProvider.client trim k])
           | None => ret first
           end ;;
   ret (mkController both (Nat.eqb (List.length both) 0)))%js.

(** The client the constructor makes for a provider. *)
Definition clientFor (p : ProviderType) (apiKey : string) : LLMProvider.t Net :=
  match p with
  | GROQ => GroqProvider.client apiKey
  | HUGGINGFACE => HuggingFaceProvider.client trim apiKey
  end.

End WithTrim.

Section WithEnv.

Variable Env : Type.

(** [results[key] = value] on a record kept in insertion order. *)
Fixpoint assign (key : string) (value : bool) (results : list (string * bool))
  : list (string * bool) :=
  match results with
  | [] => [(key, value)]
  | (k, v) :: rest =>
      if String.eqb k key then (k, value) :: rest
      else (k, v) :: assign key value rest
  end.

(** The loop of [testAllProviders]. *)
Fixpoint probeEach (providers : list (LLMProvider.t Env))
         (results : list (string * bool)) : M Env (list (string * bool)) :=
  match providers with
  | [] => ret results
  | provider :: rest =>
      (available <- LLMProvider.isAvailable provider ;;
       probeEach rest
         (assign (providerTypeString (LLMProvider.name provider)) available results))%js
  end.

Definition testAllProviders (providers : list (LLMProvider.t Env))
  : M (LLMProviderController.State Env) (list (string * bool)) :=
  LLMProviderController.call (probeEach providers []).

End WithEnv.
End Construction.

(** Notions used to state what the clients do. *)
Module ClientFacts.

Import Wire.

(** The name a client uses for itself in its messages. *)
Definition displayName (p : ProviderType) : string :=
  match p with
  | GROQ => "Groq"
  | HUGGINGFACE => "HuggingFace"
  end.

Definition probeOf (p : ProviderType) (apiKey : string) : Call :=
  match p with
  | GROQ => GroqProvider.probe apiKey
  | HUGGINGFACE => HuggingFaceProvider.probe apiKey
  end.

Definition completionOf (p : ProviderType) (apiKey prompt : string) : Call :=
  match p with
  | GROQ => GroqProvider.completion apiKey prompt
  | HUGGINGFACE => HuggingFaceProvider.completion apiKey prompt
  end.

(** The reply counts as healthy: a 2xx status, and for HuggingFace also
    503. *)
Definition passes (p : ProviderType) (r : Reply) : bool :=
  match p with
  | GROQ => ok r
  | HUGGINGFACE => (ok r || Z.eqb (status r) 503)%bool
  end.

(** Why a probe with this outcome fails, if it does. *)
Definition probeFailure (p : ProviderType) (outcome : Completion Reply)
  : option string :=
  match outcome with
  | Throw error => Some (LLMProviderController.errorMessageOf error)
  | Normal r =>
      if passes p r then None
      else Some ("HTTP " ++ MCPOrchestrator.zToString (status r)
                 ++ ": " ++ statusText r)%string
  end.

(** The health record of the other client. *)
Definition otherHealth (p : ProviderType) (e : Net) : ProviderHealthStatus :=
  match p with
  | GROQ => hfHealth e
  | HUGGINGFACE => groqHealth e
  end.

(** The endpoint is down: the fetch is rejected, or answered with a
    failure status other than 503. *)
Definition down (outcome : Completion Reply) : Prop :=
  match outcome with
  | Throw _ => True
  | Normal r => ok r = false /\ status r <> 503%Z
  end.

(** The key is given, not empty and not the placeholder. *)
Definition usable (key : option string) (placeholder : string) : bool :=
  match key with
  | Some k => (truthyString k && negb (String.eqb k placeholder))%bool
  | None => false
  end.

(** The providers the constructor sets up, in order, each with its key. *)
Definition hierarchy (groqApiKey huggingFaceApiKey : option string)
  : list (ProviderType * string) :=
  match Construction.configured groqApiKey "your_groq_api_key_here" with
  | Some k => [(GROQ, k)]
  | None => []
  end ++
  match Construction.configured huggingFaceApiKey "your_huggingface_api_key_here" with
  | Some k => [(HUGGINGFACE, k)]
  | None => []
  end.

Definition clients (trim : string -> string) (specs : list (ProviderType * string))
  : list (LLMProvider.t Net) :=
  map (fun pk => Construction.clientFor trim (fst pk) (snd pk)) specs.

Definition probes (specs : list (ProviderType * string)) : list Call :=
  map (fun pk => probeOf (fst pk) (snd pk)) specs.

(** A failure-log entry of a provider that was found unavailable. *)
Definition unavailableEntry (pk : ProviderType * string) (f : FailureEntry) : Prop :=
  f_provider f = providerTypeString (fst pk) /\
  exists reason,
    f_error f = (displayName (fst pk) ++ " provider is not available: " ++ reason)%string.

End ClientFacts.

(** Concrete networks and keys for the examples. *)
Module Scenarios.

Import Wire.

(** Space, tab, line feed, vertical tab, form feed, carriage return. *)
Definition isBlank (c : ascii) : bool :=
  let n := nat_of_ascii c in
  (Nat.eqb n 32 || (Nat.leb 9 n && Nat.leb n 13))%bool.

Fixpoint trimStart (s : string) : string :=
  match s with
  | EmptyString => EmptyString
  | String c rest => if isBlank c then trimStart rest else s
  end.

Fixpoint reversed (acc s : string) : string :=
  match s with
  | EmptyString => acc
  | String c rest => reversed (String c acc) rest
  end.

(** [trim] on text whose white space is ASCII. *)
Definition trimAscii (s : string) : string :=
  reversed EmptyString (trimStart (reversed EmptyString (trimStart s))).

Definition steady (k : nat) : Z := 1700000000000 + 40 * Z.of_nat k.

Definition idle : ProviderHealthStatus := mkHealth true None 0 None.

Definition net (w : nat -> Call -> Completion Reply) : Net :=
  mkNet steady 0 w [] idle idle.

(** No connection: every fetch is rejected. *)
Definition refused : nat -> Call -> Completion Reply :=
  fun _ _ => Throw (typeError "fetch failed").

(** A 503 with an error object as its body. *)
Definition loading : Reply :=
  mkReply false 503 "Service Unavailable"
          (Normal (ChatUnreadable "Cannot read properties of undefined (reading '0')"))
          (Normal (InferenceObject NoText)).

(** A 200 whose body is a one-element array with the generated text. *)
Definition generated (s : string) : Reply :=
  mkReply true 200 "OK"
          (Normal (ChatUnreadable "Cannot read properties of undefined (reading '0')"))
          (Normal (InferenceArray (Text s))).

(** Every endpoint answers 503. *)
Definition allLoading : nat -> Call -> Completion Reply :=
  fun _ _ => Normal loading.

(** Groq is unreachable; HuggingFace answers its probe with 503 and the
    completion with a text. *)
Definition groqUnreachable (s : string) : nat -> Call -> Completion Reply :=
  fun k _ =>
    match k with
    | 0%nat => Throw (typeError "fetch failed")
    | 1%nat => Normal loading
    | _ => Normal (generated s)
    end.

(** A runtime for which no text of the examples is JSON, and fixed
    printers. *)
Definition unparsable : string -> Completion AnalysisSteps.Parsed :=
  fun _ => Throw (ThrownError (mkError "SyntaxError" "Unexpected token S in JSON"))%string.

Definition flat : AnalysisSteps.DataSummary -> string := fun _ => "{}"%string.

Definition oneDecimal : JSNumber -> string := fun _ => "0.0"%string.

Definition started (e : Net) : LLMProviderController.State Net :=
  LLMProviderController.mkState [] [] e.

End Scenarios.

(** Concrete casts for the examples. *)
Module Soundings.

Definition cast (latitude longitude metres : Q) (t s : JSValue) : Profile :=
  mkProfile (Some "cast") (JNumber (Fin latitude)) (JNumber (Fin longitude))
            (JNumber (Fin metres)) t s JUndefined (Some "2020-06-01T00:00:00.000Z").

(** Three casts, one of them without a temperature. *)
Definition threeCasts : DataResult :=
  mkDataResult
    [cast 40 (-60) 1200 (JNumber (Fin 4)) (JNumber (Fin 35));
     cast 41 (-61) 5 (JNumber (Fin 18)) (JNumber (Fin 36));
     cast 42 (-62) 300 JUndefined (JNumber (Fin 34))]
    (mkMetadata 3 (mkDateRange "2020-01-01" "2020-12-31") "North Atlantic" "Argovis")
    false.

(** Three casts, of which only the second reports a temperature. *)
Definition sparseCasts : DataResult :=
  mkDataResult
    [cast 40 (-60) 1200 JUndefined (JNumber (Fin 35));
     cast 41 (-61) 5 (JNumber (Fin (123 # 10))) JUndefined;
     cast 42 (-62) 300 JUndefined (JNumber (Fin 34))]
    (mkMetadata 3 (mkDateRange "2020-01-01" "2020-12-31") "North Atlantic" "Argovis")
    false.

(** What [retrieveData] returns for the North Atlantic in 2020 when the
    API answers, and the world it leaves. *)
Definition retrieved : DataResult * World :=
  match MCPOrchestrator.retrieveData Runtime.platform Fixtures.config
          Fixtures.atlantic2020 Fixtures.answeredWorld with
  | (Normal d, w) => (d, w)
  | (Throw _, w) => (MCPOrchestrator.skippedResult, w)
  end.

(** The fifty synthetic profiles generated for the equatorial belt, and
    the world after the draws. *)
Definition synthesized : DataResult * World :=
  match FailureHandler.generateFallbackData Runtime.platform Fixtures.equatorial2020
          Fixtures.emptyOcean with
  | (Normal d, w) => (d, w)
  | (Throw _, w) => (MCPOrchestrator.skippedResult, w)
  end.

Definition noAnalysis : Analysis.AnalysisResult :=
  Analysis.mkAnalysis "No data available for this query. Try refining filters." []
    (Analysis.mkStatistics None None None 0) false "none" 1.

End Soundings.

(* ================================================================== *)
(** * Properties of the provider controller *)
(* ================================================================== *)

Section ControllerProperties.

Import LLMProviderController.

Variable Env : Type.
Variable clock : Env -> Z.

Let provider : Type := LLMProvider.t Env.

(** One round of the loop, by the outcome of the provider's call. *)
Lemma tryProviders_cons :
  forall (p : provider) (rest : list provider) (prompt lastError : string)
         (s : State Env),
    tryProviders clock (p :: rest) prompt lastError s =
    match LLMProvider.generateResponse p prompt (env s) with
    | (Normal response, e') =>
        (Normal (content response),
         mkState (failureLog s)
           (if truthyString lastError
            then ((console s ++ [LogAttempting (LLMProvider.name p)])
                    ++ [LogSuccess (LLMProvider.name p)])
                   ++ [LogFailover (LLMProvider.name p) lastError]
            else (console s ++ [LogAttempting (LLMProvider.name p)])
                   ++ [LogSuccess (LLMProvider.name p)])
           e')
    | (Throw error, e') =>
        tryProviders clock rest prompt (errorMessageOf error)
          (mkState
             (failureLog s
                ++ [mkFailure (providerTypeString (LLMProvider.name p))
                      (errorMessageOf error) (clock e')])
             ((console s ++ [LogAttempting (LLMProvider.name p)])
                ++ [ErrProviderFailed (LLMProvider.name p) (errorMessageOf error)])
             e')
    end.
Proof.
  intros p rest prompt lastError s.
  cbn [tryProviders].
  unfold bind, tryCatch, attempt, recordFailure, bind, log, call, modify,
    pushFailure, ret.
  cbn [env failureLog console].
  destruct (LLMProvider.generateResponse p prompt (env s)) as [[response|error] e'].
  - cbn [env failureLog console].
    destruct (truthyString lastError); reflexivity.
  - reflexivity.
Qed.

(** When every remaining provider throws, the loop ends on the fixed
    message, whatever the last error was. *)
Lemma tryProviders_all_fail :
  forall (providers : list provider) (prompt lastError : string) (s : State Env),
    allFail providers prompt (env s) = true ->
    exists s', tryProviders clock providers prompt lastError s
               = (Normal FAILURE_MESSAGE, s').
Proof.
  induction providers as [|p rest IH]; intros prompt lastError s Hfail.
  - eexists. reflexivity.
  - rewrite tryProviders_cons. simpl in Hfail.
    destruct (LLMProvider.generateResponse p prompt (env s)) as [[response|error] e'].
    + discriminate.
    + apply IH. exact Hfail.
Qed.

(** One call never removes an entry from the failure log. *)
Lemma tryProviders_log_grows :
  forall (providers : list provider) (prompt lastError : string) (s : State Env),
    exists added,
      failureLog (snd (tryProviders clock providers prompt lastError s))
      = failureLog s ++ added.
Proof.
  induction providers as [|p rest IH]; intros prompt lastError s.
  - exists []. cbn. now rewrite app_nil_r.
  - rewrite tryProviders_cons.
    destruct (LLMProvider.generateResponse p prompt (env s)) as [[response|error] e'].
    + exists []. cbn. now rewrite app_nil_r.
    + match goal with
      | |- context [tryProviders clock rest prompt ?le ?st] =>
          destruct (IH prompt le st) as [added Hadded]
      end.
      rewrite Hadded. cbn [failureLog].
      rewrite <- app_assoc. eexists. reflexivity.
Qed.

Lemma generateResponse_log_grows :
  forall (providers : list provider) (prompt : string) (s : State Env),
    exists added,
      failureLog (snd (generateResponse clock providers prompt s))
      = failureLog s ++ added.
Proof.
  intros [|p rest] prompt s.
  - exists []. cbn. now rewrite app_nil_r.
  - apply tryProviders_log_grows.
Qed.

Lemma generateResponses_log_grows :
  forall (providers : list provider) (prompts : list string) (s : State Env),
    exists added,
      failureLog (snd (generateResponses clock providers prompts s))
      = failureLog s ++ added.
Proof.
  intros providers prompts. induction prompts as [|q more IH]; intros s.
  - exists []. cbn. now rewrite app_nil_r.
  - cbn [generateResponses]. unfold bind at 1.
    destruct (generateResponse_log_grows providers q s) as [a1 H1].
    destruct (generateResponse clock providers q s) as [r s1].
    cbn [snd] in H1.
    destruct r as [x|e].
    + unfold bind. destruct (IH s1) as [a2 H2].
      destruct (generateResponses clock providers more s1) as [r2 s2].
      cbn [snd] in H2.
      destruct r2; cbn [snd ret]; rewrite H2, H1, <- app_assoc; eexists; reflexivity.
    + cbn [snd]. exists a1. exact H1.
Qed.

Lemma sliceLast_length :
  forall (A : Type) (n : nat) (l : list A),
    List.length (sliceLast n l) = Nat.min n (List.length l).
Proof.
  intros A n l. unfold sliceLast. rewrite length_skipn. lia.
Qed.

Lemma sliceLast_suffix :
  forall (A : Type) (n : nat) (l : list A),
    l = firstn (List.length l - n) l ++ sliceLast n l.
Proof.
  intros A n l. unfold sliceLast. now rewrite firstn_skipn.
Qed.

(** Whatever the providers do, the loop returns a string. *)
Lemma tryProviders_returns :
  forall (providers : list provider) (prompt lastError : string) (s : State Env),
    exists r s', tryProviders clock providers prompt lastError s = (Normal r, s').
Proof.
  induction providers as [|p rest IH]; intros prompt lastError s.
  - eexists. eexists. reflexivity.
  - rewrite tryProviders_cons.
    destruct (LLMProvider.generateResponse p prompt (env s)) as [[response|error] e'].
    + eexists. eexists. reflexivity.
    + apply IH.
Qed.

Lemma generateResponse_never_throws :
  forall (providers : list provider) (prompt : string) (s : State Env),
    exists r s', generateResponse clock providers prompt s = (Normal r, s').
Proof.
  intros [|p rest] prompt s.
  - eexists. eexists. reflexivity.
  - apply tryProviders_returns.
Qed.

(** C1. With an empty provider list, or when every provider of the list
    throws, [generateResponse] returns normally, and what it returns is
    exactly the fixed failure message. *)
Theorem generateResponse_graceful_failure :
  forall (providers : list provider) (prompt : string) (s : State Env),
    providers = [] \/ allFail providers prompt (env s) = true ->
    exists s',
      generateResponse clock providers prompt s
      = (Normal "System currently unable to generate result. Please retry.", s').
Proof.
  intros providers prompt s [Hempty | Hfail].
  - subst providers. eexists. reflexivity.
  - destruct providers as [|p rest].
    + eexists. reflexivity.
    + unfold generateResponse.
      apply (tryProviders_all_fail (p :: rest) prompt "" s Hfail).
Qed.

(** C7. When the first provider [A] throws and the next one [B] answers,
    [generateResponse] returns [B]'s content; the failure log gains one
    entry, for [A]; and the run stops there: the console shows the two
    attempts and no other, and the outside world is left as [B]'s call
    left it, whatever providers follow [B] in the list. *)
Theorem generateResponse_failover :
  forall (A B : provider) (rest : list provider) (prompt : string) (s : State Env)
         (errorA : Thrown) (envA : Env) (responseB : ProviderResponse) (envB : Env),
    LLMProvider.generateResponse A prompt (env s) = (Throw errorA, envA) ->
    LLMProvider.generateResponse B prompt envA = (Normal responseB, envB) ->
    exists s',
      generateResponse clock (A :: B :: rest) prompt s
      = (Normal (content responseB), s') /\
      failureLog s'
      = failureLog s
          ++ [mkFailure (providerTypeString (LLMProvider.name A))
                (errorMessageOf errorA) (clock envA)] /\
      env s' = envB /\
      console s'
      = console s
          ++ [LogAttempting (LLMProvider.name A);
              ErrProviderFailed (LLMProvider.name A) (errorMessageOf errorA);
              LogAttempting (LLMProvider.name B);
              LogSuccess (LLMProvider.name B)]
          ++ (if truthyString (errorMessageOf errorA)
              then [LogFailover (LLMProvider.name B) (errorMessageOf errorA)]
              else []).
Proof.
  intros A B rest prompt s errorA envA responseB envB HA HB.
  unfold generateResponse.
  rewrite tryProviders_cons, HA, tryProviders_cons.
  cbn [env failureLog console]. rewrite HB.
  eexists. split; [reflexivity|].
  cbn [env failureLog console].
  repeat split.
  destruct (truthyString (errorMessageOf errorA));
    repeat rewrite <- app_assoc; reflexivity.
Qed.

(** C6, as the code has it.  A sequence of [generateResponse] calls only
    ever appends to the failure log: every entry recorded before or
    during the sequence is still there.  The bound is on what
    [getSystemHealth] reports: [recentFailures] is the last ten entries
    of the log, or the whole log when it is shorter. *)
Theorem failureLog_kept_recentFailures_bounded :
  forall (providers : list provider) (prompts : list string) (s : State Env),
    let s' := snd (generateResponses clock providers prompts s) in
    let recent := recentFailures (getSystemHealth clock providers s') in
    (exists added, failureLog s' = failureLog s ++ added) /\
    (exists older, failureLog s' = older ++ recent) /\
    List.length recent = Nat.min 10 (List.length (failureLog s')) /\
    (List.length recent <= 10)%nat.
Proof.
  intros providers prompts s s' recent.
  split; [apply generateResponses_log_grows|].
  subst recent. cbn [getSystemHealth recentFailures].
  split.
  - eexists. apply sliceLast_suffix.
  - rewrite sliceLast_length. split; [reflexivity | lia].
Qed.

End ControllerProperties.

Module ControllerExamples.

Import LLMProviderController Fixtures.

(** Both providers down: the fixed message comes back. *)
Lemma generateResponse_graceful_failure_witness :
  ([groqDown; hfDown] = [] \/ allFail [groqDown; hfDown] "why?" (env fresh) = true) /\
  exists s',
    generateResponse tick [groqDown; hfDown] "why?" fresh
    = (Normal "System currently unable to generate result. Please retry.", s').
Proof.
  split.
  - right. reflexivity.
  - apply (@generateResponse_graceful_failure nat tick [groqDown; hfDown] "why?" fresh).
    right. reflexivity.
Defined.

(** Groq down, HuggingFace up, and a third provider that is never
    reached. *)
Lemma generateResponse_failover_witness :
  exists s',
    generateResponse tick [groqDown; hfUp; hfDown] "why?" fresh
    = (Normal "The thermocline deepens in winter.", s') /\
    failureLog s'
    = [mkFailure "groq" "Groq API error: 503 Service Unavailable" 1] /\
    env s' = 2%nat.
Proof.
  destruct (@generateResponse_failover nat tick groqDown hfUp [hfDown] "why?" fresh
              (newError "Groq API error: 503 Service Unavailable")
              1%nat
              (mkProviderResponse "The thermocline deepens in winter."
                 None "llama-3.1-8b-instant" "huggingface")
              2%nat eq_refl eq_refl)
    as [s' [Hrun [Hlog [Henv _]]]].
  exists s'. repeat split; assumption.
Defined.

(** Eleven prompts against a single provider that is down leave eleven
    entries in the failure log. *)
Lemma failureLog_exceeds_ten :
  List.length (failureLog elevenFailures) = 11%nat /\
  ~ (List.length (failureLog elevenFailures) <= 10)%nat.
Proof.
  split.
  - vm_compute. reflexivity.
  - vm_compute. intro H. repeat (apply le_S_n in H). inversion H.
Qed.

End ControllerExamples.

(* ================================================================== *)
(** * Properties of classification, validation and visualization choice *)
(* ================================================================== *)

(** The two scenarios of the specification. *)
Example classifyQuery_knowledge :
  classifyQuery "What causes ocean currents?"
  = mkClassification KNOWLEDGE_DRIVEN false (Some "ocean circulation").
Proof. vm_compute. reflexivity. Qed.

Example classifyQuery_data :
  classifyQuery "Show temperature in North Atlantic 2020"
  = mkClassification DATA_DRIVEN true None.
Proof. vm_compute. reflexivity. Qed.

(** C10. Without the real-data flag every response is rejected, whatever
    its text. *)
Theorem validateResponse_rejects_without_real_data :
  forall response : string,
    ResponseValidator.validateResponse response false = false.
Proof.
  intros response. reflexivity.
Qed.

Example validateResponse_accepts_grounded_text :
  ResponseValidator.validateResponse "Mean temperature 12.3 degrees at 45.5N" true = true.
Proof. vm_compute. reflexivity. Qed.

Example validateResponse_rejects_placeholder :
  ResponseValidator.validateResponse "Note: This is a PLACEHOLDER." true = false.
Proof. vm_compute. reflexivity. Qed.

Section VisualizationChoice.

Variable data : DataResult.
Variable intent : IntentResult.


Lemma powerAndMany_reflect :
  (isPower (mode intent) && Nat.ltb 10 (List.length (profiles data)))%bool = true
  <-> powerAndMany data intent.
Proof.
  unfold powerAndMany. rewrite andb_true_iff, Nat.ltb_lt.
  destruct (mode intent); cbn; intuition congruence.
Qed.

Lemma isUndefined_false : forall v, negb (isUndefined v) = true <-> v <> JUndefined.
Proof.
  intros [| |n]; cbn; intuition congruence.
Qed.

Lemma someLocated_reflect :
  existsb (fun p => (negb (isUndefined (lat p)) && negb (isUndefined (lon p)))%bool)
          (profiles data) = true
  <-> someLocated data.
Proof.
  unfold someLocated. rewrite existsb_exists.
  split; intros [p [Hin H]]; exists p; split; try assumption.
  - apply andb_true_iff in H. now rewrite !isUndefined_false in H.
  - apply andb_true_iff. now rewrite !isUndefined_false.
Qed.

(** C8. [determineVisualizationType] answers plot3d exactly in power mode
    with more than ten profiles; otherwise map exactly when some profile
    has both coordinates; otherwise chart.  So power mode with fifteen
    profiles gives plot3d, and explorer mode with profiles that all carry
    coordinates gives map. *)
Theorem determineVisualizationType_choice :
  (determineVisualizationType data intent = PLOT3D <-> powerAndMany data intent) /\
  (determineVisualizationType data intent = MAP
   <-> ~ powerAndMany data intent /\ someLocated data) /\
  (determineVisualizationType data intent = CHART
   <-> ~ powerAndMany data intent /\ ~ someLocated data) /\
  (mode intent = POWER -> List.length (profiles data) = 15%nat ->
   determineVisualizationType data intent = PLOT3D) /\
  (mode intent = EXPLORER -> profiles data <> [] ->
   (forall p, In p (profiles data) -> lat p <> JUndefined /\ lon p <> JUndefined) ->
   determineVisualizationType data intent = MAP).
Proof.
  assert (H3 : determineVisualizationType data intent = PLOT3D <-> powerAndMany data intent).
  { unfold determineVisualizationType. rewrite <- powerAndMany_reflect.
    destruct (isPower (mode intent) && _)%bool.
    - intuition.
    - destruct (existsb _ _); intuition discriminate. }
  assert (HM : determineVisualizationType data intent = MAP <-> ~ powerAndMany data intent /\ someLocated data).
  { unfold determineVisualizationType. rewrite <- powerAndMany_reflect, <- someLocated_reflect.
    destruct (isPower (mode intent) && _)%bool.
    - intuition discriminate.
    - destruct (existsb _ _); intuition discriminate. }
  assert (HC : determineVisualizationType data intent = CHART
               <-> ~ powerAndMany data intent /\ ~ someLocated data).
  { unfold determineVisualizationType. rewrite <- powerAndMany_reflect, <- someLocated_reflect.
    destruct (isPower (mode intent) && _)%bool.
    - intuition discriminate.
    - destruct (existsb _ _); intuition discriminate. }
  split; [exact H3|]. split; [exact HM|]. split; [exact HC|]. split.
  - intros Hmode Hlen. apply H3. split; [assumption | lia].
  - intros Hmode Hne Hall. apply HM. split.
    + intros [Hp _]. congruence.
    + unfold someLocated.
      destruct (profiles data) as [|p ps] eqn:E; [congruence|].
      exists p. split; [now left | apply Hall; now left].
Qed.

End VisualizationChoice.

(** Fifteen located profiles in power mode, the same in explorer mode. *)
Lemma determineVisualizationType_choice_witness :
  determineVisualizationType Fixtures.fifteenProfiles Fixtures.powerIntent = PLOT3D /\
  determineVisualizationType Fixtures.fifteenProfiles Fixtures.atlantic2020 = MAP.
Proof.
  split.
  - destruct (determineVisualizationType_choice Fixtures.fifteenProfiles
                Fixtures.powerIntent) as [_ [_ [_ [Hpower _]]]].
    apply Hpower; reflexivity.
  - destruct (determineVisualizationType_choice Fixtures.fifteenProfiles
                Fixtures.atlantic2020) as [_ [_ [_ [_ Hexplorer]]]].
    apply Hexplorer.
    + reflexivity.
    + discriminate.
    + intros p Hin. apply repeat_spec in Hin. subst p. split; discriminate.
Defined.

(* ================================================================== *)
(** * Properties of data retrieval *)
(* ================================================================== *)

Import MCPOrchestrator.

(** C3. For an intent with neither a region nor a time range,
    [retrieveData] returns the empty result tagged "skipped" and leaves the
    world as it found it: no fetch is made. *)
Theorem retrieveData_skips_without_region_and_time :
  forall (P : Platform) (config : PipelineConfig) (intent : IntentResult) (w : World),
    region intent = None ->
    timeRange intent = None ->
    exists d w',
      retrieveData P config intent w = (Normal d, w') /\
      profiles d = [] /\
      isEmpty d = true /\
      source (metadata d) = "skipped" /\
      requests w' = requests w /\
      w' = w.
Proof.
  intros P config intent w Hregion Htime.
  exists skippedResult, w. unfold retrieveData. rewrite Hregion, Htime.
  repeat split.
Qed.

Lemma retrieveData_skips_witness :
  region Fixtures.knowledgeIntent = None /\
  timeRange Fixtures.knowledgeIntent = None /\
  exists d w',
    retrieveData Runtime.platform Fixtures.config Fixtures.knowledgeIntent
      (Fixtures.world Fixtures.timingOut) = (Normal d, w') /\
    profiles d = [] /\
    isEmpty d = true /\
    source (metadata d) = "skipped" /\
    requests w' = requests (Fixtures.world Fixtures.timingOut) /\
    w' = Fixtures.world Fixtures.timingOut.
Proof.
  split; [reflexivity|]. split; [reflexivity|].
  apply (@retrieveData_skips_without_region_and_time Runtime.platform Fixtures.config
           Fixtures.knowledgeIntent (Fixtures.world Fixtures.timingOut));
    reflexivity.
Defined.

(** On a timeout [retrieveData] is the failure handler's generator, run on
    the intent's own region and time range. *)
Lemma retrieveData_on_timeout :
  forall (P : Platform) (config : PipelineConfig) (intent : IntentResult) (w : World)
         (yearAgo today : string),
    region intent <> None \/ timeRange intent <> None ->
    toISOString P (newDateNumber (Fin (inject_Z (now w - yearMs)))) = Normal yearAgo ->
    toISOString P (newDateNumber (Fin (inject_Z (now w)))) = Normal today ->
    URL_canParse P (argovisBaseUrl config ++ "/argo") = true ->
    (forall request, network w (List.length (requests w)) request = Throw abortError) ->
    exists request,
      retrieveData P config intent w
      = FailureHandler.generateFallbackDataForRegion P (region intent) (timeRange intent)
          (mkWorld (now w) (random w) (drawn w) (network w) (requests w ++ [request])).
Proof.
  intros P config intent w yearAgo today Hsome Hyear Htoday Hurl Habort.
  unfold retrieveData.
  destruct (region intent) as [r|] eqn:Hr; destruct (timeRange intent) as [tr|] eqn:Ht;
    [ | | | destruct Hsome; congruence ];
    unfold bind at 1, Date_now; unfold bind at 1, liftC at 1; rewrite Hyear;
    unfold bind at 1, liftC at 1; rewrite Htoday;
    cbv zeta; unfold bind at 1; rewrite Hurl; cbn [ret];
    unfold tryCatch, fetchProfiles, bind, fetch; rewrite Habort;
    unfold recover; cbn [isAbortError abortError err_name String.eqb Ascii.eqb Bool.eqb];
    eexists; reflexivity.
Qed.

(** So a timeout on an intent without a region always ends in the
    TypeError. *)
Lemma retrieveData_timeout_needs_region :
  forall (P : Platform) (config : PipelineConfig) (intent : IntentResult) (w : World)
         (yearAgo today : string) (tr : TimeRange),
    region intent = None ->
    timeRange intent = Some tr ->
    toISOString P (newDateNumber (Fin (inject_Z (now w - yearMs)))) = Normal yearAgo ->
    toISOString P (newDateNumber (Fin (inject_Z (now w)))) = Normal today ->
    URL_canParse P (argovisBaseUrl config ++ "/argo") = true ->
    (forall request, network w (List.length (requests w)) request = Throw abortError) ->
    fst (retrieveData P config intent w)
    = Throw (typeError "Cannot read properties of undefined (reading 'name')").
Proof.
  intros P config intent w yearAgo today tr Hr Ht Hyear Htoday Hurl Habort.
  destruct (@retrieveData_on_timeout P config intent w yearAgo today) as [request Hrun];
    try assumption.
  - right. congruence.
  - rewrite Hrun, Hr. reflexivity.
Qed.

(** C5, on the code.  A time range, no region, and a fetch that times out:
    the handler of the timeout reads [region.name] of an absent region and
    [retrieveData] ends in a TypeError. *)
Theorem retrieveData_timeout_without_region_throws :
  fst (retrieveData Runtime.platform Fixtures.config
         (Fixtures.intentWith None (Some Fixtures.year2020))
         (Fixtures.world Fixtures.timingOut))
  = Throw (typeError "Cannot read properties of undefined (reading 'name')").
Proof.
  vm_compute. reflexivity.
Qed.

(** The same with a region and no time range: the first round of the
    generator's loop reads [timeRange.start]. *)
Example retrieveData_timeout_without_time_throws :
  fst (retrieveData Runtime.platform Fixtures.config
         (Fixtures.intentWith (Some Fixtures.northAtlantic) None)
         (Fixtures.world Fixtures.timingOut))
  = Throw (typeError "Cannot read properties of undefined (reading 'start')").
Proof.
  vm_compute. reflexivity.
Qed.

(** With both, the timeout is answered with thirty synthetic profiles. *)
Example retrieveData_timeout_with_both :
  match fst (retrieveData Runtime.platform Fixtures.config
               (Fixtures.intentWith (Some Fixtures.northAtlantic) (Some Fixtures.year2020))
               (Fixtures.world Fixtures.timingOut)) with
  | Normal d =>
      (List.length (profiles d) = 30%nat /\ isEmpty d = false /\
       source (metadata d) = "Fallback (API timeout)")
  | Throw _ => False
  end.
Proof.
  vm_compute. repeat split.
Qed.

(** ** What survives the filter *)

Lemma mapItems_normal :
  forall items mapped,
    mapItems items = Normal mapped ->
    exists raws, items = map Some raws /\ mapped = map transformProfile raws.
Proof.
  induction items as [|[r|] rest IH]; intros mapped H; cbn in H.
  - inversion H. exists []. split; reflexivity.
  - destruct (mapItems rest) as [ps|e]; [|discriminate].
    inversion H; subst. destruct (IH ps eq_refl) as [raws [-> ->]].
    exists (r :: raws). split; reflexivity.
  - discriminate.
Qed.

Lemma fallbackForRegion_source :
  forall P region timeRange w d w',
    FailureHandler.generateFallbackDataForRegion P region timeRange w = (Normal d, w') ->
    source (metadata d) = "Fallback (API timeout)".
Proof.
  intros P region timeRange w d w' H.
  unfold FailureHandler.generateFallbackDataForRegion in H.
  destruct region as [r|]; [|discriminate].
  unfold bind in H.
  destruct (forCollect 30 0 _ w) as [[l|e] w1]; [|discriminate].
  destruct timeRange; [|discriminate].
  inversion H. reflexivity.
Qed.

Lemma fetchProfiles_normal :
  forall P request tr rg w d w',
    fetchProfiles P request tr rg w = (Normal d, w') ->
    exists response raws,
      network w (List.length (requests w)) request = Normal response /\
      requests w' = requests w ++ [request] /\
      ok response = true /\
      json response = Normal (JsonArray (map Some raws)) /\
      profiles d = filter validProfile (map transformProfile raws) /\
      isEmpty d = Nat.eqb (List.length (profiles d)) 0 /\
      source (metadata d) = "Argovis".
Proof.
  intros P request tr rg w d w' H.
  unfold fetchProfiles, bind, fetch, liftC, ret, throw in H.
  destruct (network w (List.length (requests w)) request) as [response|e] eqn:Hnet;
    [|discriminate].
  destruct (ok response) eqn:Hok; cbn [negb] in H.
  - destruct (json response) as [body|e] eqn:Hjson; [|discriminate].
    destruct (mapProfiles body) as [mapped|e] eqn:Hmap; [|discriminate].
    destruct body as [items|]; [|discriminate].
    apply mapItems_normal in Hmap. destruct Hmap as [raws [-> ->]].
    inversion H; subst. cbn.
    exists response, raws. repeat split; assumption.
  - destruct (text response); discriminate.
Qed.

Lemma recover_normal :
  forall P region timeRange tr rg error w d w',
    recover P region timeRange tr rg error w = (Normal d, w') ->
    (source (metadata d) = "Argovis (failed)" /\ profiles d = [] /\ isEmpty d = true) \/
    source (metadata d) = "Fallback (API timeout)".
Proof.
  intros P region timeRange tr rg error w d w' H.
  unfold recover in H. destruct (isAbortError error).
  - right. eapply fallbackForRegion_source. exact H.
  - left. inversion H. cbn. repeat split.
Qed.

Lemma retrieveData_cases :
  forall P config intent w d w',
    retrieveData P config intent w = (Normal d, w') ->
    d = skippedResult \/
    (source (metadata d) = "Argovis (failed)" /\ profiles d = [] /\ isEmpty d = true) \/
    source (metadata d) = "Fallback (API timeout)" \/
    (exists request response raws,
        network w (List.length (requests w)) request = Normal response /\
        requests w' = requests w ++ [request] /\
        ok response = true /\
        json response = Normal (JsonArray (map Some raws)) /\
        profiles d = filter validProfile (map transformProfile raws) /\
        isEmpty d = Nat.eqb (List.length (profiles d)) 0 /\
        source (metadata d) = "Argovis").
Proof.
  intros P config intent w d w' H.
  unfold retrieveData in H.
  destruct (region intent) as [r|] eqn:Hr; destruct (timeRange intent) as [tr|] eqn:Ht;
    [ | | | inversion H; left; reflexivity ];
    unfold bind at 1, Date_now in H;
    unfold bind at 1, liftC at 1 in H;
    (destruct (toISOString P (newDateNumber (Fin (inject_Z (now w - yearMs)))));
       [|discriminate]);
    unfold bind at 1, liftC at 1 in H;
    (destruct (toISOString P (newDateNumber (Fin (inject_Z (now w)))));
       [|discriminate]);
    cbv zeta in H; unfold bind at 1 in H;
    (destruct (URL_canParse P (argovisBaseUrl config ++ "/argo")); cbn [ret throw] in H;
       [|discriminate]);
    unfold tryCatch in H;
    match type of H with
    | context [fetchProfiles ?P ?rq ?t ?g w] =>
        destruct (fetchProfiles P rq t g w) as [[d0|e] w0] eqn:Hfetch
    end.
  all: try (inversion H; subst; right; right; right;
            apply fetchProfiles_normal in Hfetch;
            destruct Hfetch as [response [raws Hx]];
            eexists; exists response, raws; exact Hx).
  all: right; apply recover_normal in H; destruct H as [Hf|Hf];
    [left|right;left]; exact Hf.
Qed.


Local Open Scope Q_scope.

Lemma numLe_fin : forall n k, numLe n (Fin k) = true -> n = NegInfinity \/ exists q, n = Fin q /\ q <= k.
Proof.
  intros [| | |q] k H; cbn in H; try discriminate.
  - now left.
  - right. exists q. split; [reflexivity|]. now apply Qle_bool_iff.
Qed.

Lemma numGe_fin : forall n k, numGe n (Fin k) = true -> n = PosInfinity \/ exists q, n = Fin q /\ k <= q.
Proof.
  intros [| | |q] k H; cbn in H; try discriminate.
  - now left.
  - right. exists q. split; [reflexivity|]. now apply Qle_bool_iff.
Qed.

Lemma coordinate_within :
  forall v lo hi,
    truthy v = true -> geConst v lo = true -> leConst v hi = true ->
    within lo hi v /\ nonZero v.
Proof.
  intros [| |n] lo hi Ht Hge Hle; cbn in Ht; try discriminate.
  unfold geConst, leConst in *. cbn [toNumber] in *.
  apply numGe_fin in Hge. apply numLe_fin in Hle.
  destruct Hge as [->|[q [-> Hq]]]; destruct Hle as [Hle|[q' [Hq' Hle]]];
    try discriminate.
  inversion Hq'; subst q'.
  split.
  - exists q. auto.
  - exists q. split; [reflexivity|].
    cbn in Ht. apply negb_true_iff in Ht. intro Hz.
    apply Qeq_bool_iff in Hz. congruence.
Qed.

Lemma validProfile_sound :
  forall p,
    validProfile p = true ->
    within (-90) 90 (lat p) /\ within (-180) 180 (lon p) /\
    (depth p = JNull \/ nonNegative (depth p)).
Proof.
  intros p H. unfold validProfile in H.
  apply andb_true_iff in H; destruct H as [H Hdepth].
  apply andb_true_iff in H; destruct H as [H Hlon2].
  apply andb_true_iff in H; destruct H as [H Hlon1].
  apply andb_true_iff in H; destruct H as [H Hlat2].
  apply andb_true_iff in H; destruct H as [H Hlat1].
  apply andb_true_iff in H; destruct H as [H _].
  apply andb_true_iff in H; destruct H as [H _].
  apply andb_true_iff in H; destruct H as [H _].
  apply andb_true_iff in H; destruct H as [H _].
  apply andb_true_iff in H; destruct H as [Hlat Hlon].
  split; [|split].
  - eapply coordinate_within; eassumption.
  - eapply coordinate_within; eassumption.
  - unfold geConst in Hdepth. destruct (depth p) as [| |n].
    + discriminate.
    + now left.
    + right. cbn [toNumber] in Hdepth. apply numGe_fin in Hdepth.
      destruct Hdepth as [->|[q [-> Hq]]].
      * now left.
      * right. exists q. auto.
Qed.

Lemma depth_transform :
  forall r, exists n, depth (transformProfile r) = JNumber n /\ n <> NaN.
Proof.
  intros r. cbn. unfold jsOr.
  destruct (truthy (measured pres r)) eqn:Ht.
  - destruct (measured pres r) as [| |n]; cbn in Ht; try discriminate.
    exists n. split; [reflexivity|]. destruct n; cbn in Ht; congruence.
  - exists (Fin 0). split; [reflexivity | discriminate].
Qed.

Lemma depth_missing :
  forall r, missing (measured pres r) -> depth (transformProfile r) = JNumber (Fin 0).
Proof.
  intros r [H|H]; cbn; rewrite H; reflexivity.
Qed.

Lemma validProfile_complete :
  forall p,
    within (-90) 90 (lat p) -> nonZero (lat p) ->
    within (-180) 180 (lon p) -> nonZero (lon p) ->
    nonNegative (depth p) ->
    validProfile p = true.
Proof.
  intros p [la [Hla [Hla1 Hla2]]] [la' [Hla' Hlaz]] [lo [Hlo [Hlo1 Hlo2]]]
         [lo' [Hlo' Hloz]] Hd.
  rewrite Hla in Hla'. inversion Hla'; subst la'.
  rewrite Hlo in Hlo'. inversion Hlo'; subst lo'.
  unfold validProfile, geConst, leConst, isNaN. rewrite Hla, Hlo. cbn.
  assert (Qeq_bool la 0 = false) as ->.
  { destruct (Qeq_bool la 0) eqn:E; [|reflexivity]. apply Qeq_bool_iff in E. contradiction. }
  assert (Qeq_bool lo 0 = false) as ->.
  { destruct (Qeq_bool lo 0) eqn:E; [|reflexivity]. apply Qeq_bool_iff in E. contradiction. }
  apply Qle_bool_iff in Hla1, Hla2, Hlo1, Hlo2.
  unfold numGe. cbn. rewrite Hla1, Hla2, Hlo1, Hlo2. cbn.
  destruct Hd as [->|[q [-> Hq]]]; cbn; [reflexivity|].
  apply Qle_bool_iff in Hq. rewrite Hq. reflexivity.
Qed.

(** C4, as the code has it.  When [retrieveData] returns what the API
    answered, every profile it returns has a latitude in [-90, 90], a
    longitude in [-180, 180] and a depth that is at least 0; a record whose
    latitude or longitude is missing or out of range, or whose depth is
    negative, is not among them; a record without a pressure reading gets
    depth 0 and is returned when its coordinates are in range and not zero;
    and [isEmpty] holds exactly when no profile is returned. *)
Theorem retrieveData_keeps_valid_profiles :
  forall (P : Platform) (config : PipelineConfig) (intent : IntentResult)
         (w : World) (d : DataResult) (w' : World),
    retrieveData P config intent w = (Normal d, w') ->
    source (metadata d) = "Argovis" ->
    exists request response raws,
      network w (List.length (requests w)) request = Normal response /\
      json response = Normal (JsonArray (map Some raws)) /\
      (forall p, In p (profiles d) ->
         within (-90) 90 (lat p) /\ within (-180) 180 (lon p) /\
         nonNegative (depth p)) /\
      (forall r, In r raws ->
         ~ within (-90) 90 (raw_lat r) \/ ~ within (-180) 180 (raw_lon r) \/
         ~ nonNegative (depth (transformProfile r)) ->
         ~ In (transformProfile r) (profiles d)) /\
      (forall r, In r raws -> missing (measured pres r) ->
         depth (transformProfile r) = JNumber (Fin 0) /\
         (within (-90) 90 (raw_lat r) -> nonZero (raw_lat r) ->
          within (-180) 180 (raw_lon r) -> nonZero (raw_lon r) ->
          In (transformProfile r) (profiles d))) /\
      (isEmpty d = true <-> profiles d = []).
Proof.
  intros P config intent w d w' Hrun Hsource.
  apply retrieveData_cases in Hrun.
  destruct Hrun as [Hskip | [[Hfailed _] | [Hfallback | Hanswer]]].
  - subst d. discriminate.
  - rewrite Hsource in Hfailed. discriminate.
  - rewrite Hsource in Hfallback. discriminate.
  - destruct Hanswer as [request [response [raws
      [Hnet [_ [_ [Hjson [Hprofiles [Hempty _]]]]]]]]].
    exists request, response, raws.
    split; [exact Hnet|]. split; [exact Hjson|].
    rewrite Hempty, Hprofiles. split; [|split; [|split]].
    + intros p Hin. apply filter_In in Hin. destruct Hin as [Hin Hvalid].
      apply in_map_iff in Hin. destruct Hin as [r [<- _]].
      apply validProfile_sound in Hvalid.
      destruct Hvalid as [Hlat [Hlon Hdepth]].
      split; [exact Hlat|]. split; [exact Hlon|].
      destruct Hdepth as [Hnull|Hdepth]; [|exact Hdepth].
      destruct (depth_transform r) as [n [Hn _]]. congruence.
    + intros r _ Hbad Hin. apply filter_In in Hin. destruct Hin as [_ Hvalid].
      apply validProfile_sound in Hvalid.
      destruct Hvalid as [Hlat [Hlon Hdepth]].
      destruct Hbad as [Hbad|[Hbad|Hbad]]; [now apply Hbad | now apply Hbad |].
      destruct Hdepth as [Hnull|Hdepth]; [|now apply Hbad].
      destruct (depth_transform r) as [n [Hn _]]. congruence.
    + intros r Hin Hmissing. split; [now apply depth_missing|].
      intros Hlat Hlatz Hlon Hlonz. apply filter_In. split.
      * apply in_map. exact Hin.
      * apply validProfile_complete; try assumption.
        rewrite (depth_missing r Hmissing). right. exists 0. split; [reflexivity|].
        apply Qle_refl.
    + destruct (filter validProfile (map transformProfile raws)); cbn;
        split; intro H; congruence.
Qed.

Lemma retrieveData_keeps_valid_profiles_witness :
  exists d w',
    retrieveData Runtime.platform Fixtures.config Fixtures.atlantic2020
      Fixtures.answeredWorld = (Normal d, w') /\
    source (metadata d) = "Argovis" /\
    (forall p, In p (profiles d) ->
       within (-90) 90 (lat p) /\ within (-180) 180 (lon p) /\ nonNegative (depth p)) /\
    (isEmpty d = true <-> profiles d = []).
Proof.
  assert (H : exists d w',
             retrieveData Runtime.platform Fixtures.config Fixtures.atlantic2020
               Fixtures.answeredWorld = (Normal d, w') /\
             source (metadata d) = "Argovis").
  { eexists. eexists. split; [lazy; reflexivity | reflexivity]. }
  destruct H as [d [w' [Hrun Hsource]]].
  exists d, w'. split; [exact Hrun|]. split; [exact Hsource|].
  destruct (@retrieveData_keeps_valid_profiles Runtime.platform Fixtures.config
              Fixtures.atlantic2020 Fixtures.answeredWorld d w' Hrun Hsource)
    as [request [response [raws [_ [_ [Hrange [_ [_ Hempty]]]]]]]].
  split; [exact Hrange | exact Hempty].
Defined.

(** The record without a measurement has no depth to speak of, and yet it
    is returned, at depth 0; the record at latitude 95 is dropped. *)
Lemma retrieveData_keeps_profile_without_depth :
  missing (measured pres Fixtures.unmeasured) /\
  exists d w',
    retrieveData Runtime.platform Fixtures.config Fixtures.atlantic2020
      Fixtures.answeredWorld = (Normal d, w') /\
    In (transformProfile Fixtures.unmeasured) (profiles d) /\
    profiles d = [transformProfile Fixtures.unmeasured;
                  transformProfile Fixtures.measuredAt5] /\
    depth (transformProfile Fixtures.unmeasured) = JNumber (Fin 0) /\
    isEmpty d = false.
Proof.
  split; [left; reflexivity|].
  eexists. eexists. split; [lazy; reflexivity|].
  split; [left; reflexivity|]. repeat split.
Qed.

(* ================================================================== *)
(** * Properties of the failure handler *)
(* ================================================================== *)

Import FailureHandler.

Lemma timeClipZ_some :
  forall t, (- maxTime <= t <= maxTime)%Z -> timeClipZ t = Some t.
Proof.
  intros t [H1 H2]. unfold timeClipZ.
  apply Z.leb_le in H1, H2. now rewrite H1, H2.
Qed.

Lemma timeClipZ_range :
  forall t t', timeClipZ t = Some t' -> t' = t /\ (- maxTime <= t <= maxTime)%Z.
Proof.
  intros t t' H. unfold timeClipZ in H.
  destruct (- maxTime <=? t)%Z eqn:H1; destruct (t <=? maxTime)%Z eqn:H2;
    cbn in H; try discriminate.
  inversion H. apply Z.leb_le in H1, H2. subst. repeat split; assumption.
Qed.

Lemma Qtruncate_range :
  forall (x : Q) (m : Z),
    (0 <= m)%Z -> inject_Z (- m) <= x -> x <= inject_Z m ->
    (- m <= Qtruncate x <= m)%Z.
Proof.
  intros x m Hm Hlo Hhi. unfold Qtruncate.
  destruct (Qle_bool 0 x) eqn:E.
  - apply Qle_bool_iff in E. split.
    + assert (0 <= Qfloor x)%Z.
      { change 0%Z with (Qfloor 0). now apply Qfloor_resp_le. }
      lia.
    + rewrite Zle_Qle. eapply Qle_trans; [apply Qfloor_le | exact Hhi].
  - assert (Hneg : x < 0).
    { apply Qnot_le_lt. intro H. apply Qle_bool_iff in H. congruence. }
    split.
    + rewrite Zle_Qle. eapply Qle_trans; [exact Hlo | apply Qle_ceiling].
    + assert (Qceiling x <= 0)%Z.
      { change 0%Z with (Qceiling 0). apply Qceiling_resp_le. now apply Qlt_le_weak. }
      lia.
Qed.

Lemma between_range :
  forall (s e r m : Q),
    - m <= s -> s <= m -> - m <= e -> e <= m -> 0 <= r -> r <= 1 ->
    - m <= s + r * (e + - s) /\ s + r * (e + - s) <= m.
Proof.
  intros. split; nra.
Qed.

Lemma randomDate_valid :
  forall (ts te : Z) (r : Q),
    (- maxTime <= ts <= maxTime)%Z -> (- maxTime <= te <= maxTime)%Z ->
    0 <= r -> r < 1 ->
    exists t,
      newDateNumber
        (numAdd (getTime (Some ts))
           (numScale r (numSub (getTime (Some te)) (getTime (Some ts)))))
      = Some t.
Proof.
  intros ts te r [Hs1 Hs2] [He1 He2] Hr0 Hr1.
  cbn [getTime numSub numNeg numAdd numScale newDateNumber].
  eexists. apply timeClipZ_some.
  rewrite Zle_Qle in Hs1, Hs2, He1, He2.
  change (inject_Z (- maxTime)) with (- inject_Z maxTime) in Hs1, He1.
  destruct (@between_range (inject_Z ts) (inject_Z te) r (inject_Z maxTime)
              Hs1 Hs2 He1 He2 Hr0 (Qlt_le_weak _ _ Hr1)) as [Hlo Hhi].
  apply Qtruncate_range.
  - unfold maxTime. lia.
  - exact Hlo.
  - exact Hhi.
Qed.

Lemma newDateString_range :
  forall P s t, newDateString P s = Some t -> (- maxTime <= t <= maxTime)%Z.
Proof.
  intros P s t H. unfold newDateString in H.
  destruct (Date_parse P s) as [t0|]; [|discriminate].
  apply timeClipZ_range in H. destruct H as [-> H]. exact H.
Qed.

Lemma syntheticProfile_ok :
  forall P idPrefix maxDepth b s e ts te i w,
    newDateString P s = Some ts ->
    newDateString P e = Some te ->
    randomOK w ->
    exists p, FailureHandler.syntheticProfile P idPrefix maxDepth b (Some (s, e)) i w
              = (Normal p, advance 6 w).
Proof.
  intros P idPrefix maxDepth b s e ts te i w Hs He Hrandom.
  unfold FailureHandler.syntheticProfile, bind, Math_random, liftC, ret.
  cbn [random drawn now network requests].
  rewrite Hs, He.
  destruct (@randomDate_valid ts te (random w (5 + drawn w)%nat)) as [t Ht].
  - eapply newDateString_range; eassumption.
  - eapply newDateString_range; eassumption.
  - apply Hrandom.
  - apply Hrandom.
  - cbn [plus] in Ht. rewrite Ht. cbn [toISOString].
    eexists. reflexivity.
Qed.

Lemma advance_randomOK : forall n w, randomOK w -> randomOK (advance n w).
Proof. intros n w H k. apply H. Qed.

Lemma advances_requests : forall n w, requests (advances n w) = requests w.
Proof. induction n; intros w; cbn; [reflexivity | now rewrite IHn]. Qed.

Lemma forCollect_synthetic :
  forall P idPrefix maxDepth b s e ts te,
    newDateString P s = Some ts ->
    newDateString P e = Some te ->
    forall n i w,
      randomOK w ->
      exists l,
        forCollect n i (FailureHandler.syntheticProfile P idPrefix maxDepth b (Some (s, e))) w
        = (Normal l, advances n w) /\ List.length l = n.
Proof.
  intros P idPrefix maxDepth b s e ts te Hs He.
  induction n as [|n IH]; intros i w Hrandom.
  - exists []. split; reflexivity.
  - cbn [forCollect]. unfold bind at 1.
    destruct (@syntheticProfile_ok P idPrefix maxDepth b s e ts te i w Hs He Hrandom)
      as [p Hp].
    rewrite Hp. unfold bind at 1.
    destruct (IH (S i) (advance 6 w)) as [l [Hl Hlen]];
      [apply advance_randomOK; exact Hrandom|].
    rewrite Hl. exists (p :: l). split; [reflexivity | cbn; now rewrite Hlen].
Qed.

Lemma toISOString_normal :
  forall P d s, toISOString P d = Normal s -> exists t, d = Some t /\ s = Date_toISOString P t.
Proof.
  intros P [t|] s H; cbn in H; [|discriminate].
  inversion H. exists t. split; reflexivity.
Qed.

Lemma shiftMonths_some :
  forall P d k t, shiftMonths P d k = Some t -> exists t0, d = Some t0.
Proof.
  intros P [t0|] k t H; [|discriminate]. exists t0. reflexivity.
Qed.

Lemma expandTemporal_normal :
  forall P intent months wide,
    expandTemporal P intent months = Normal wide ->
    widenedInTime P months intent wide.
Proof.
  intros P intent months wide H.
  unfold expandTemporal in H. unfold widenedInTime.
  destruct (timeRange intent) as [tr|].
  - destruct (toISOString P (shiftMonths P (newDateString P (start tr)) (- months)))
      as [s|] eqn:Hs; [|discriminate].
    destruct (toISOString P (shiftMonths P (newDateString P (end_ tr)) months))
      as [e|] eqn:He; [|discriminate].
    apply toISOString_normal in Hs. destruct Hs as [ts [Hs ->]].
    apply toISOString_normal in He. destruct He as [te [He ->]].
    exists ts, te. inversion H. repeat split; assumption.
  - inversion H. reflexivity.
Qed.

Lemma expandSpatial_widened :
  forall intent degrees, widenedInSpace degrees intent (expandSpatial intent degrees).
Proof.
  intros intent degrees. unfold widenedInSpace, expandSpatial.
  destruct (region intent) as [r|]; [|reflexivity].
  eexists. split; [reflexivity|]. cbn. repeat split; reflexivity.
Qed.

Lemma widenedInTime_valid :
  forall P months intent wide tr,
    widenedInTime P months intent wide ->
    timeRange intent = Some tr ->
    exists ts te, newDateString P (start tr) = Some ts /\ newDateString P (end_ tr) = Some te.
Proof.
  intros P months intent wide tr H Htr. unfold widenedInTime in H. rewrite Htr in H.
  destruct H as [s [e [Hs [He _]]]].
  apply shiftMonths_some in Hs. apply shiftMonths_some in He.
  destruct Hs as [ts Hs]. destruct He as [te He]. exists ts, te. auto.
Qed.

Lemma generateFallbackData_ok :
  forall P intent w,
    (forall tr, timeRange intent = Some tr ->
       exists ts te, newDateString P (start tr) = Some ts /\
                     newDateString P (end_ tr) = Some te) ->
    (timeRange intent = None -> parsesDefaultRange P) ->
    randomOK w ->
    exists d,
      generateFallbackData P intent w = (Normal d, advances 50 w) /\
      isEmpty d = false /\
      source (metadata d) = "Fallback (MCP unavailable)" /\
      List.length (profiles d) = 50%nat.
Proof.
  intros P intent w Hrange Hdefault Hrandom.
  unfold generateFallbackData. cbv zeta.
  assert (Hdates : exists ts te,
            newDateString P (start match timeRange intent with
                                   | Some tr => tr
                                   | None => defaultFallbackTimeRange
                                   end) = Some ts /\
            newDateString P (end_ match timeRange intent with
                                  | Some tr => tr
                                  | None => defaultFallbackTimeRange
                                  end) = Some te).
  { destruct (timeRange intent) as [tr|].
    - apply Hrange. reflexivity.
    - destruct (Hdefault eq_refl) as [H1 H2]. cbn.
      destruct (newDateString P "2023-01-01") as [ts|]; [|congruence].
      destruct (newDateString P "2023-12-31") as [te|]; [|congruence].
      exists ts, te. auto. }
  destruct Hdates as [ts [te [Hs He]]].
  unfold bind.
  match goal with
  | |- context [forCollect 50 0 (syntheticProfile P ?pre ?md ?b (Some (?s, ?e))) w] =>
      destruct (@forCollect_synthetic P pre md b s e ts te Hs He 50 0%nat w Hrandom)
        as [l [Hl Hlen]]
  end.
  rewrite Hl. unfold ret. eexists. split; [reflexivity|].
  cbn. repeat split. exact Hlen.
Qed.

(** With a region and a time range whose dates the runtime reads, the
    generator used on a timeout returns thirty profiles for them. *)
Lemma generateFallbackDataForRegion_ok :
  forall P r tr w ts te,
    newDateString P (start tr) = Some ts ->
    newDateString P (end_ tr) = Some te ->
    randomOK w ->
    exists d,
      generateFallbackDataForRegion P (Some r) (Some tr) w = (Normal d, advances 30 w) /\
      isEmpty d = false /\
      source (metadata d) = "Fallback (API timeout)" /\
      dateRange (metadata d) = toDateRange tr /\
      md_region (metadata d) = orString (name r) "Unknown" /\
      List.length (profiles d) = 30%nat.
Proof.
  intros P r tr w ts te Hs He Hrandom.
  unfold generateFallbackDataForRegion. cbv zeta. unfold bind.
  destruct (@forCollect_synthetic P "timeout_fallback_" 1500 (bounds r)
              (start tr) (end_ tr) ts te Hs He 30 0%nat w Hrandom) as [l [Hl Hlen]].
  rewrite Hl. unfold ret. eexists. split; [reflexivity|].
  cbn. repeat split. exact Hlen.
Qed.

Lemma handleEmptyData_steps :
  forall P intent (retrieveDataFn : IntentResult -> M World DataResult) w wide,
    expandTemporal P intent 6 = Normal wide ->
    handleEmptyData P intent retrieveDataFn w =
    match retrieveDataFn wide w with
    | (Normal d1, w1) =>
        if isEmpty d1 then
          match retrieveDataFn (expandSpatial intent 10) w1 with
          | (Normal d2, w2) =>
              if isEmpty d2 then generateFallbackData P intent w2 else (Normal d2, w2)
          | (Throw e, w2) => (Throw e, w2)
          end
        else (Normal d1, w1)
    | (Throw e, w1) => (Throw e, w1)
    end.
Proof.
  intros P intent retrieveDataFn w wide Hwide.
  unfold handleEmptyData, bind, liftC, ret. rewrite Hwide.
  destruct (retrieveDataFn wide w) as [[d1|e] w1]; [|reflexivity].
  destruct (isEmpty d1); cbn [negb]; [|reflexivity].
  destruct (retrieveDataFn (expandSpatial intent 10) w1) as [[d2|e] w2]; [|reflexivity].
  destruct (isEmpty d2); reflexivity.
Qed.

(** C2, as the code has it.  Provided widening the time range does not
    throw, [handleEmptyData] first calls the retrieval function on the
    intent with its time range moved out by six months at each end; when
    that returns a result that is not empty, it returns it and stops.
    Otherwise it calls the retrieval function, in the world the first call
    left, on the original intent with its box moved out by ten degrees on
    each side, no further than [-90, 90] and [-180, 180]; a result that is
    not empty is returned.  Otherwise it makes no further call and returns
    fifty synthetic profiles, with [isEmpty] false and a source that starts
    with "Fallback (" (the draws of [Math.random()] being in [0, 1), and
    the runtime reading the generator's two default dates when the intent
    has no time range).  An intent without a time range, or without a
    region, is retried unchanged in that step. *)
Theorem handleEmptyData_sequence :
  forall (P : Platform) (intent : IntentResult)
         (retrieveDataFn : IntentResult -> M World DataResult)
         (w : World) (wide : IntentResult),
    expandTemporal P intent 6 = Normal wide ->
    (timeRange intent = None -> parsesDefaultRange P) ->
    widenedInTime P 6 intent wide /\
    widenedInSpace 10 intent (expandSpatial intent 10) /\
    forall d1 w1,
      retrieveDataFn wide w = (Normal d1, w1) ->
      (isEmpty d1 = false ->
       handleEmptyData P intent retrieveDataFn w = (Normal d1, w1)) /\
      (isEmpty d1 = true ->
       forall d2 w2,
         retrieveDataFn (expandSpatial intent 10) w1 = (Normal d2, w2) ->
         (isEmpty d2 = false ->
          handleEmptyData P intent retrieveDataFn w = (Normal d2, w2)) /\
         (isEmpty d2 = true ->
          randomOK w2 ->
          exists d w3,
            handleEmptyData P intent retrieveDataFn w = (Normal d, w3) /\
            isEmpty d = false /\
            startsWith "Fallback (" (source (metadata d)) = true /\
            List.length (profiles d) = 50%nat /\
            requests w3 = requests w2)).
Proof.
  intros P intent retrieveDataFn w wide Hwide Hdefault.
  assert (Htime := @expandTemporal_normal P intent 6%Z wide Hwide).
  split; [exact Htime|]. split; [apply expandSpatial_widened|].
  intros d1 w1 Hfirst.
  rewrite (@handleEmptyData_steps P intent retrieveDataFn w wide Hwide), Hfirst.
  split.
  - intros Hfull. rewrite Hfull. reflexivity.
  - intros Hempty d2 w2 Hsecond. rewrite Hempty, Hsecond.
    split.
    + intros Hfull. rewrite Hfull. reflexivity.
    + intros Hempty2 Hrandom. rewrite Hempty2.
      destruct (@generateFallbackData_ok P intent w2) as [d [Hd [He [Hs Hl]]]].
      * intros tr Htr. eapply widenedInTime_valid; eassumption.
      * exact Hdefault.
      * exact Hrandom.
      * exists d, (advances 50 w2). rewrite Hs.
        repeat split; assumption.
Qed.

Lemma draws_in_range : randomOK Fixtures.emptyOcean.
Proof.
  intros k. cbn [Fixtures.emptyOcean Fixtures.world random]. unfold Fixtures.draws.
  assert (H : ((7 * k + 3) mod 10 < 10)%nat) by (apply Nat.mod_upper_bound; lia).
  remember ((7 * k + 3) mod 10)%nat as n eqn:Hn. clear Hn.
  split.
  - unfold Qle. cbn [Qnum Qden]. lia.
  - unfold Qlt. cbn [Qnum Qden]. lia.
Qed.

(** The belt around the equator, an API without data for it: two fetches,
    then fifty synthetic profiles. *)
Lemma handleEmptyData_sequence_witness :
  expandTemporal Runtime.platform Fixtures.equatorial2020 6 = Normal Fixtures.equatorialWide /\
  exists d w3,
    handleEmptyData Runtime.platform Fixtures.equatorial2020
      (retrieveData Runtime.platform Fixtures.config) Fixtures.emptyOcean
    = (Normal d, w3) /\
    isEmpty d = false /\
    startsWith "Fallback (" (source (metadata d)) = true /\
    List.length (profiles d) = 50%nat /\
    requests w3 = [Fixtures.firstRetry; Fixtures.secondRetry].
Proof.
  assert (Hwide : expandTemporal Runtime.platform Fixtures.equatorial2020 6
                  = Normal Fixtures.equatorialWide) by (vm_compute; reflexivity).
  split; [exact Hwide|].
  destruct (@handleEmptyData_sequence Runtime.platform Fixtures.equatorial2020
              (retrieveData Runtime.platform Fixtures.config) Fixtures.emptyOcean
              Fixtures.equatorialWide Hwide)
    as [_ [_ Hcalls]].
  - intros Hnone. discriminate Hnone.
  - destruct (Hcalls (Fixtures.nothingFound "2019-07-01" "2021-07-01")
                (Fixtures.afterFetches [Fixtures.firstRetry]))
      as [_ Hsecond]; [vm_compute; reflexivity|].
    destruct (Hsecond eq_refl (Fixtures.nothingFound "2020-01-01" "2020-12-31")
                (Fixtures.afterFetches [Fixtures.firstRetry; Fixtures.secondRetry]))
      as [_ Hlast]; [vm_compute; reflexivity|].
    destruct (Hlast eq_refl) as [d [w3 [Hrun [Hfull [Hsource [Hcount Hrequests]]]]]].
    + intros k. apply (draws_in_range k).
    + exists d, w3. repeat split; assumption.
Defined.

(** On the same input the second fetch asks for longitudes -180 to 180,
    as the first did: the box has grown by ten degrees to the north and to
    the south, and not at all to the east and to the west. *)
Lemma handleEmptyData_spatial_retry_is_clamped :
  requests (snd (handleEmptyData Runtime.platform Fixtures.equatorial2020
                   (retrieveData Runtime.platform Fixtures.config) Fixtures.emptyOcean))
  = [Fixtures.firstRetry; Fixtures.secondRetry] /\
  polygon Fixtures.secondRetry
  = [(-180, -20); (180, -20); (180, 20); (-180, 20); (-180, -20)] /\
  exists r,
    region (expandSpatial Fixtures.equatorial2020 10) = Some r /\
    ~ east (bounds r) == east (bounds Fixtures.equatorialRegion) + 10 /\
    ~ west (bounds r) == west (bounds Fixtures.equatorialRegion) - 10.
Proof.
  split; [vm_compute; reflexivity|]. split; [reflexivity|].
  eexists. split; [reflexivity|]. split; intro H; vm_compute in H; discriminate H.
Qed.

(* ================================================================== *)
(** * Classification reads nothing that an earlier call wrote *)
(* ================================================================== *)

Lemma update_same :
  forall (A : Type) (l : list A) n (a : A), nth_error l n = Some a -> Objects.update n a l = l.
Proof.
  intros A l. induction l as [|x l IH]; intros [|n] a H; cbn in *; try discriminate.
  - congruence.
  - rewrite (IH n a H). reflexivity.
Qed.

Lemma matchesFrom_start :
  forall p s, Objects.matchesFrom p s 0 = test p s.
Proof.
  intros p s. unfold Objects.matchesFrom, test. destruct (anchored p); reflexivity.
Qed.

(** An object without [g] and [y] answers as the pattern alone does, and
    is left as it was, whatever its [lastIndex]. *)
Lemma exec_plain :
  forall matchEnd o s,
    Objects.global o = false -> Objects.sticky o = false ->
    Objects.exec matchEnd o s = (test (Objects.pattern o) s, o).
Proof.
  intros matchEnd o s Hg Hy. unfold Objects.exec. rewrite Hg, Hy. cbn.
  rewrite matchesFrom_start. reflexivity.
Qed.

Lemma test_fresh :
  forall matchEnd object p s r,
    nth_error (Objects.objects r) object = Some (Objects.fresh p) ->
    Objects.test matchEnd object s r = (Normal (test p s), r).
Proof.
  intros matchEnd object p s r H. unfold Objects.test. rewrite H.
  rewrite exec_plain by reflexivity. cbn.
  rewrite (@update_same _ _ _ _ H). destruct r; reflexivity.
Qed.

Lemma newRegExps_run :
  forall literals r,
    Objects.newRegExps literals r
    = (Normal (seq (List.length (Objects.objects r)) (List.length literals)),
       Objects.mkRealm (Objects.objects r ++ map Objects.fresh literals) (Objects.outside r)).
Proof.
  intros literals. induction literals as [|p rest IH]; intros r.
  - cbn. unfold ret. rewrite app_nil_r. destruct r; reflexivity.
  - cbn [Objects.newRegExps]. unfold bind at 1. unfold Objects.newRegExp at 1.
    unfold bind at 1. rewrite IH. cbn. unfold ret.
    rewrite length_app, Nat.add_1_r, <- app_assoc. reflexivity.
Qed.

Lemma firstMatch_fresh :
  forall matchEnd query r literals objects,
    Forall2 (fun object p => nth_error (Objects.objects r) object = Some (Objects.fresh p))
            objects literals ->
    Objects.firstMatch matchEnd objects query r
    = (Normal (existsb (fun pattern => test pattern query) literals), r).
Proof.
  intros matchEnd query r literals objects H. induction H as [|object p objects literals Hp _ IH].
  - reflexivity.
  - cbn [Objects.firstMatch existsb]. unfold bind. rewrite (@test_fresh matchEnd object p query r Hp).
    destruct (test p query); [reflexivity|]. exact IH.
Qed.

Lemma fresh_in_store :
  forall before literals after,
    Forall2 (fun object p =>
               nth_error (before ++ map Objects.fresh literals ++ after) object
               = Some (Objects.fresh p))
            (seq (List.length before) (List.length literals)) literals.
Proof.
  intros before literals. revert before.
  induction literals as [|p rest IH]; intros before after; cbn; constructor.
  - rewrite nth_error_app2 by lia. rewrite Nat.sub_diag. reflexivity.
  - specialize (IH (before ++ [Objects.fresh p]) after).
    rewrite length_app, Nat.add_1_r, <- app_assoc in IH. exact IH.
Qed.

Lemma test_last :
  forall matchEnd p s objects outside,
    Objects.test matchEnd (List.length objects) s
                 (Objects.mkRealm (objects ++ [Objects.mkObject p false false 0]) outside)
    = (Normal (test p s), Objects.mkRealm (objects ++ [Objects.fresh p]) outside).
Proof.
  intros matchEnd p s objects outside.
  change (Objects.mkObject p false false 0) with (Objects.fresh p).
  apply test_fresh. cbn. rewrite nth_error_app2 by lia. rewrite Nat.sub_diag. reflexivity.
Qed.

(** Run from any store, the classifier on objects returns what the
    classifier on patterns computes; it adds its own objects to the store and
    changes nothing else. *)
Lemma classifyQuery_run :
  forall matchEnd query r,
    exists added,
      Objects.classifyQuery matchEnd query r
      = (Normal (classifyQuery query),
         Objects.mkRealm (Objects.objects r ++ added) (Objects.outside r)).
Proof.
  intros matchEnd query r. unfold Objects.classifyQuery, classifyQuery.
  unfold bind at 1. rewrite newRegExps_run.
  unfold bind at 1. rewrite newRegExps_run. cbn [Objects.objects Objects.outside].
  set (store := Objects.mkRealm _ _).
  assert (Hk : Forall2 (fun object p => nth_error (Objects.objects store) object
                                        = Some (Objects.fresh p))
                 (seq (List.length (Objects.objects r)) (List.length knowledgePatterns))
                 knowledgePatterns).
  { subst store. cbn [Objects.objects]. rewrite <- app_assoc. apply fresh_in_store. }
  assert (Hd : Forall2 (fun object p => nth_error (Objects.objects store) object
                                        = Some (Objects.fresh p))
                 (seq (List.length (Objects.objects r ++ map Objects.fresh knowledgePatterns))
                      (List.length dataPatterns))
                 dataPatterns).
  { subst store. cbn [Objects.objects].
    assert (H := fresh_in_store (Objects.objects r ++ map Objects.fresh knowledgePatterns)
                                dataPatterns []).
    rewrite app_nil_r in H. exact H. }
  unfold bind at 1. rewrite (@firstMatch_fresh matchEnd query _ _ _ Hk).
  destruct (existsb (fun pattern => test pattern query) knowledgePatterns).
  { eexists. subst store. unfold ret. rewrite <- app_assoc. reflexivity. }
  unfold bind at 1. rewrite (@firstMatch_fresh matchEnd query _ _ _ Hd).
  destruct (existsb (fun pattern => test pattern query) dataPatterns).
  { eexists. subst store. unfold ret. rewrite <- app_assoc. reflexivity. }
  unfold bind at 1. unfold Objects.newRegExp at 1. unfold bind at 1.
  rewrite test_last.
  destruct (test yearPattern query).
  - unfold bind at 1. unfold bind at 1. unfold Objects.newRegExp at 1. rewrite test_last.
    cbn [Objects.objects Objects.outside].
    destruct (test placePattern query).
    { eexists. subst store. unfold ret. cbn [Objects.objects Objects.outside].
      rewrite <- !app_assoc. reflexivity. }
    unfold bind at 1. unfold Objects.newRegExp at 1. unfold bind at 1.
    rewrite test_last. cbn [Objects.objects Objects.outside].
    destruct (test hybridPattern query);
      eexists; subst store; unfold ret; cbn [Objects.objects Objects.outside];
      rewrite <- !app_assoc; reflexivity.
  - unfold bind at 1. unfold ret at 1.
    unfold bind at 1. unfold Objects.newRegExp at 1. unfold bind at 1.
    rewrite test_last. cbn [Objects.objects Objects.outside].
    destruct (test hybridPattern query);
      eexists; subst store; unfold ret; cbn [Objects.objects Objects.outside];
      rewrite <- !app_assoc; reflexivity.
Qed.

(** The model does tell a classifier with memory from one without: a
    pattern with the [g] flag that is made once and kept answers the
    second question differently. *)
Example kept_global_pattern_remembers :
  forall w,
    let r := Objects.keptYearPattern (Objects.mkRealm [] w) in
    exists r1 r2,
      Objects.test Objects.toTheEnd 0 "in 2020" r = (Normal true, r1) /\
      Objects.test Objects.toTheEnd 0 "in 2020" r1 = (Normal false, r2).
Proof.
  intros w r. subst r. do 2 eexists. split; reflexivity.
Qed.

(** C9. Two calls of [classifyQuery] on the same query, one after the
    other, return the same query type, the same [requiresData] and the same
    conceptual topic.  The calls are run on the store of RegExp objects,
    where [test] reads and writes [lastIndex]: whatever objects the store
    held before the first call and whatever the first call left there, the
    second call answers as the first did, and neither touches the clock,
    [Math.random()] or the network. *)
Theorem classifyQuery_repeatable :
  forall (matchEnd : RegExp -> string -> nat -> nat) (query : string) (r : Objects.Realm),
    exists first second r1 r2,
      Objects.classifyQuery matchEnd query r = (Normal first, r1) /\
      Objects.classifyQuery matchEnd query r1 = (Normal second, r2) /\
      type first = type second /\
      cl_requiresData first = cl_requiresData second /\
      cl_conceptualTopic first = cl_conceptualTopic second /\
      Objects.outside r2 = Objects.outside r.
Proof.
  intros matchEnd query r.
  destruct (classifyQuery_run matchEnd query r) as [added1 H1].
  destruct (classifyQuery_run matchEnd query
              (Objects.mkRealm (Objects.objects r ++ added1) (Objects.outside r)))
    as [added2 H2].
  do 4 eexists. split; [exact H1|]. split; [exact H2|].
  repeat split.
Qed.

(* ================================================================== *)
(** * Properties of intent detection and routing *)
(* ================================================================== *)

Import Routing.

(** ** Literal patterns *)

Lemma matchesPrefix_none : forall ic s, matchesPrefix ic RNone s = false.
Proof.
  intros ic s. induction s as [|c s IH]; [reflexivity|]. cbn. exact IH.
Qed.

Lemma matchesPrefix_eps : forall ic s, matchesPrefix ic REps s = true.
Proof.
  intros ic [|c s]; reflexivity.
Qed.

Lemma mkSeq_eps : forall r, mkSeq REps r = r.
Proof.
  intros r. destruct r; reflexivity.
Qed.

Lemma lit_shape :
  forall p, p <> EmptyString -> lit p <> RNone /\ lit p <> REps /\ nullable (lit p) = false.
Proof.
  intros [|c [|c' p]] H; [congruence| |]; cbn; repeat split; discriminate.
Qed.

(** A literal matches at the front of [s] exactly when [s] begins with it,
    letter case aside. *)
Lemma matchesPrefix_lit :
  forall p s, matchesPrefix true (lit p) s = beginsWith p s.
Proof.
  unfold beginsWith.
  induction p as [|c p IH]; intros s.
  - cbn. apply matchesPrefix_eps.
  - destruct p as [|c' p].
    + destruct s as [|a s]; [reflexivity|].
      cbn [lit matchesPrefix nullable deriv orb toLowerCase startsWith litMatches].
      destruct (Ascii.eqb (lowerChar c) (lowerChar a)).
      * rewrite matchesPrefix_eps. reflexivity.
      * rewrite matchesPrefix_none. reflexivity.
    + destruct s as [|a s]; [reflexivity|].
      change (lit (String c (String c' p))) with (RSeq (RLit c) (lit (String c' p))).
      cbn [matchesPrefix nullable deriv andb orb litMatches].
      change (toLowerCase (String c (String c' p)))
        with (String (lowerChar c) (toLowerCase (String c' p))).
      cbn [toLowerCase startsWith].
      destruct (Ascii.eqb (lowerChar c) (lowerChar a)).
      * rewrite mkSeq_eps. cbn [andb]. apply IH.
      * cbn [mkSeq andb]. apply matchesPrefix_none.
Qed.

(** The same for a literal followed by [.*]. *)
Lemma matchesPrefix_lit_anyStar :
  forall p s,
    p <> EmptyString ->
    matchesPrefix true (RSeq (lit p) anyStar) s = beginsWith p s.
Proof.
  unfold beginsWith.
  induction p as [|c p IH]; intros s Hp; [congruence|].
  destruct p as [|c' p].
  - destruct s as [|a s]; [reflexivity|].
    cbn [lit matchesPrefix nullable deriv andb orb toLowerCase startsWith litMatches].
    destruct (Ascii.eqb (lowerChar c) (lowerChar a)).
    + cbn [mkSeq andb]. destruct s; reflexivity.
    + cbn [mkSeq andb]. apply matchesPrefix_none.
  - destruct s as [|a s]; [reflexivity|].
    change (lit (String c (String c' p))) with (RSeq (RLit c) (lit (String c' p))).
    cbn [matchesPrefix nullable deriv andb orb litMatches].
    change (toLowerCase (String c (String c' p)))
      with (String (lowerChar c) (toLowerCase (String c' p))).
    cbn [toLowerCase startsWith].
    destruct (lit_shape (p := String c' p)) as [Hnone [Heps _]]; [discriminate|].
    destruct (Ascii.eqb (lowerChar c) (lowerChar a)).
    + rewrite mkSeq_eps. cbn [andb].
      assert (Hseq : mkSeq (lit (String c' p)) anyStar = RSeq (lit (String c' p)) anyStar).
      { destruct (lit (String c' p)); try reflexivity; congruence. }
      rewrite Hseq. apply IH. discriminate.
    + cbn [mkSeq andb]. apply matchesPrefix_none.
Qed.

Lemma matchesSomewhere_prefix :
  forall r p,
    (forall s, matchesPrefix true r s = beginsWith p s) ->
    forall s, matchesSomewhere true r s = mentions p s.
Proof.
  intros r p H. unfold mentions.
  induction s as [|a s IH].
  - cbn [matchesSomewhere]. rewrite H. unfold beginsWith. cbn [toLowerCase includes].
    destruct (startsWith _ _); reflexivity.
  - cbn [matchesSomewhere toLowerCase includes]. rewrite H, IH. reflexivity.
Qed.

(** [/p/i.test(s)], [/^p/i.test(s)] and [/p.*/i.test(s)] for a literal [p]. *)
Lemma test_literal : forall p s, test (reI (lit p)) s = mentions p s.
Proof.
  intros p s. apply matchesSomewhere_prefix. apply matchesPrefix_lit.
Qed.

Lemma test_anchored_literal : forall p s, test (reAnchoredI (lit p)) s = beginsWith p s.
Proof.
  intros p s. apply matchesPrefix_lit.
Qed.

Lemma test_literal_anyStar :
  forall p s, p <> EmptyString -> test (reI (RSeq (lit p) anyStar)) s = mentions p s.
Proof.
  intros p s Hp. apply matchesSomewhere_prefix.
  intros s'. now apply matchesPrefix_lit_anyStar.
Qed.

(** ** Classification *)

(** The three outputs of [classifyQuery] hang together: data is required
    exactly when the query is not classified as knowledge, and a conceptual
    topic is missing exactly for the data-driven queries. *)
Lemma classifyQuery_outputs_consistent :
  forall query : string,
    (cl_requiresData (classifyQuery query) = true
     <-> type (classifyQuery query) <> KNOWLEDGE_DRIVEN) /\
    (cl_conceptualTopic (classifyQuery query) = None
     <-> type (classifyQuery query) = DATA_DRIVEN).
Proof.
  intros query. unfold classifyQuery.
  destruct (existsb _ knowledgePatterns); [cbn; intuition congruence|].
  destruct (existsb _ dataPatterns); [cbn; intuition congruence|].
  destruct (test yearPattern query && test placePattern query)%bool;
    [cbn; intuition congruence|].
  destruct (test hybridPattern query); cbn; intuition congruence.
Qed.

Lemma knowledge_pattern_matches :
  forall query pattern,
    In pattern knowledgePatterns ->
    test pattern query = true ->
    type (classifyQuery query) = KNOWLEDGE_DRIVEN /\
    cl_requiresData (classifyQuery query) = false.
Proof.
  intros query pattern Hin Htest. unfold classifyQuery.
  assert (H : existsb (fun p => test p query) knowledgePatterns = true).
  { apply existsb_exists. exists pattern. split; assumption. }
  rewrite H. split; reflexivity.
Qed.

(** X1. A query that says "what is", "what causes" or "relationship
    between", in whatever letter case and whatever else it says, is
    classified as knowledge and as requiring no data: the knowledge patterns
    are tried before the data patterns. *)
Theorem classifyQuery_knowledge_phrases_win :
  forall query : string,
    mentions "what is" query = true \/
    mentions "what causes" query = true \/
    mentions "relationship between" query = true ->
    type (classifyQuery query) = KNOWLEDGE_DRIVEN /\
    cl_requiresData (classifyQuery query) = false.
Proof.
  intros query [H | [H | H]].
  - apply (@knowledge_pattern_matches query (reI (RSeq (lit "what is") anyStar))).
    + cbn. tauto.
    + rewrite test_literal_anyStar; [exact H | discriminate].
  - apply (@knowledge_pattern_matches query (reI (lit "what causes"))).
    + cbn. tauto.
    + rewrite test_literal. exact H.
  - apply (@knowledge_pattern_matches query (reI (lit "relationship between"))).
    + cbn. tauto.
    + rewrite test_literal. exact H.
Qed.

(** A question about one ocean in one year: the data patterns match it,
    and it is answered from knowledge all the same. *)
Lemma classifyQuery_knowledge_phrases_win_witness :
  (mentions "what is" "What is the temperature in the Pacific in 2020?" = true \/
   mentions "what causes" "What is the temperature in the Pacific in 2020?" = true \/
   mentions "relationship between" "What is the temperature in the Pacific in 2020?" = true) /\
  existsb (fun pattern => test pattern "What is the temperature in the Pacific in 2020?")
          dataPatterns = true /\
  type (classifyQuery "What is the temperature in the Pacific in 2020?") = KNOWLEDGE_DRIVEN /\
  cl_requiresData (classifyQuery "What is the temperature in the Pacific in 2020?") = false.
Proof.
  split; [left; reflexivity|]. split; [vm_compute; reflexivity|].
  apply (@classifyQuery_knowledge_phrases_win
           "What is the temperature in the Pacific in 2020?").
  left. reflexivity.
Defined.

(** ** Parameter extraction *)

Lemma Qtruncate_inject_Z : forall z : Z, Qtruncate (inject_Z z) = z.
Proof.
  intros z. unfold Qtruncate.
  destruct (Qle_bool 0 (inject_Z z)); [apply Qfloor_Z | apply Qceiling_Z].
Qed.

Lemma toISOString_of_time :
  forall (P : Platform) (t : Z),
    (- maxTime <= t <= maxTime)%Z ->
    toISOString P (newDateNumber (Fin (inject_Z t))) = Normal (Date_toISOString P t).
Proof.
  intros P t Ht. cbn [newDateNumber]. rewrite Qtruncate_inject_Z.
  rewrite (timeClipZ_some Ht). reflexivity.
Qed.

Lemma clockInRange_now :
  forall w, clockInRange w ->
    (- maxTime <= now w - yearMs <= maxTime)%Z /\ (- maxTime <= now w <= maxTime)%Z.
Proof.
  intros w [H1 H2]. unfold maxTime, yearMs in *. lia.
Qed.

(** With the clock in range [extractQueryParameters] is its pure part. *)
Lemma extractQueryParameters_run :
  forall (P : Platform) (query : string) (w : World),
    clockInRange w ->
    extractQueryParameters P query w =
    (Normal (mkExtracted (selectRegion (toLowerCase query))
               (mkTimeRange (splitHead "T" (Date_toISOString P (now w - yearMs)))
                            (splitHead "T" (Date_toISOString P (now w))) false true)
               (queryParameters (toLowerCase query))),
     w).
Proof.
  intros P query w Hclock. apply clockInRange_now in Hclock. destruct Hclock as [H1 H2].
  unfold extractQueryParameters, bind, Date_now, liftC, ret.
  rewrite (toISOString_of_time P H1), (toISOString_of_time P H2). reflexivity.
Qed.

Lemma startsWith_app_includes :
  forall p1 p2 s, startsWith (p1 ++ p2) s = true -> includes p2 s = true.
Proof.
  induction p1 as [|c p1 IH]; intros p2 s H.
  - cbn in H. destruct s; cbn; rewrite H; reflexivity.
  - destruct s as [|a s]; [discriminate|].
    cbn in H. apply andb_true_iff in H. destruct H as [_ H].
    cbn [includes]. rewrite (IH _ _ H). apply orb_true_r.
Qed.

(** A text that contains a phrase contains every ending of the phrase. *)
Lemma includes_app :
  forall p1 p2 s, includes (p1 ++ p2) s = true -> includes p2 s = true.
Proof.
  intros p1 p2. induction s as [|a s IH]; intros H.
  - cbn in H. rewrite orb_false_r in H. now apply startsWith_app_includes in H.
  - cbn [includes] in H. apply orb_true_iff in H. destruct H as [H|H].
    + now apply startsWith_app_includes in H.
    + cbn [includes]. rewrite (IH H). apply orb_true_r.
Qed.

Lemma firstMentioned_in :
  forall table queryLower region,
    firstMentioned table queryLower = Some region -> In region (map snd table).
Proof.
  induction table as [|[key r] rest IH]; intros queryLower region H; [discriminate|].
  cbn in H. destruct (includes key queryLower).
  - inversion H. now left.
  - right. eapply IH. exact H.
Qed.

Lemma selectRegion_not_sub_pacific :
  forall queryLower,
    name (selectRegion queryLower) <> Some "North Pacific" /\
    name (selectRegion queryLower) <> Some "South Pacific".
Proof.
  intros q. unfold selectRegion, regions. cbn [firstMentioned].
  destruct (includes "atlantic canada" q); [split; discriminate|].
  destruct (includes "north atlantic" q); [split; discriminate|].
  destruct (includes "south atlantic" q); [split; discriminate|].
  destruct (includes "pacific" q) eqn:Hpacific; [split; discriminate|].
  assert (Hnorth : includes "north pacific" q = false).
  { destruct (includes "north pacific" q) eqn:E; [|reflexivity].
    apply (@includes_app "north " "pacific") in E. congruence. }
  assert (Hsouth : includes "south pacific" q = false).
  { destruct (includes "south pacific" q) eqn:E; [|reflexivity].
    apply (@includes_app "south " "pacific") in E. congruence. }
  rewrite Hnorth, Hsouth.
  destruct (includes "indian ocean" q); [split; discriminate|].
  destruct (includes "equator" q); [split; discriminate|].
  destruct (includes "gulf stream" q); [split; discriminate|].
  destruct (includes "mediterranean" q); split; discriminate.
Qed.

(** X2. The region [extractQueryParameters] returns is always an entry of
    its table: the first whose key the lower-cased query contains, and the
    North Atlantic when it contains none.  It is never the North Pacific or
    the South Pacific entry: a query that names either also contains
    "pacific", which comes first and selects the whole Pacific. *)
Theorem extractQueryParameters_region :
  forall (P : Platform) (query : string) (w : World),
    clockInRange w ->
    exists x,
      extractQueryParameters P query w = (Normal x, w) /\
      In (x_region x) (map snd regions) /\
      (firstMentioned regions (toLowerCase query) = None ->
       name (x_region x) = Some "North Atlantic") /\
      (mentions "pacific" query = true ->
       mentions "atlantic canada" query = false ->
       mentions "north atlantic" query = false ->
       mentions "south atlantic" query = false ->
       name (x_region x) = Some "Pacific Ocean") /\
      name (x_region x) <> Some "North Pacific" /\
      name (x_region x) <> Some "South Pacific".
Proof.
  intros P query w Hclock.
  eexists. split; [apply extractQueryParameters_run; exact Hclock|].
  cbn [x_region]. split; [|split; [|split]].
  - unfold selectRegion.
    destruct (firstMentioned regions (toLowerCase query)) as [r|] eqn:E.
    + eapply firstMentioned_in. exact E.
    + cbn. tauto.
  - intros Hnone. unfold selectRegion. rewrite Hnone. reflexivity.
  - unfold mentions. intros Hp H1 H2 H3.
    unfold selectRegion, regions. cbn [firstMentioned].
    change (toLowerCase "pacific") with "pacific" in Hp.
    change (toLowerCase "atlantic canada") with "atlantic canada" in H1.
    change (toLowerCase "north atlantic") with "north atlantic" in H2.
    change (toLowerCase "south atlantic") with "south atlantic" in H3.
    rewrite H1, H2, H3, Hp. reflexivity.
  - apply selectRegion_not_sub_pacific.
Qed.

Lemma queryParameters_shape :
  forall queryLower,
    queryParameters queryLower <> [] /\
    NoDup (queryParameters queryLower) /\
    incl (queryParameters queryLower)
         ["temperature"; "salinity"; "pressure"; "current"; "oxygen"; "chlorophyll"].
Proof.
  intros q. unfold queryParameters.
  destruct (includes "temperature" q || includes "temp" q)%bool;
  destruct (includes "salinity" q || includes "salt" q)%bool;
  destruct (includes "pressure" q);
  destruct (includes "current" q || includes "velocity" q)%bool;
  destruct (includes "oxygen" q);
  destruct (includes "chlorophyll" q);
  cbn [app];
  (split; [discriminate|]);
  (split;
   [ repeat (constructor; [cbn; intuition discriminate|]); constructor
   | intros p Hp; cbn in Hp; cbn; intuition ]).
Qed.

(** X3. [extractQueryParameters] never returns an empty parameter list:
    the parameters are those of the six known names the query mentions, each
    once, and temperature and salinity when it mentions none.  The time
    range is always the defaulted one, from 365 days before the clock's
    date to the clock's date, and the call leaves the world untouched. *)
Theorem extractQueryParameters_parameters :
  forall (P : Platform) (query : string) (w : World),
    clockInRange w ->
    exists x,
      extractQueryParameters P query w = (Normal x, w) /\
      x_parameters x <> [] /\
      NoDup (x_parameters x) /\
      incl (x_parameters x)
           ["temperature"; "salinity"; "pressure"; "current"; "oxygen"; "chlorophyll"] /\
      x_timeRange x
      = mkTimeRange (splitHead "T" (Date_toISOString P (now w - yearMs)))
                    (splitHead "T" (Date_toISOString P (now w))) false true.
Proof.
  intros P query w Hclock.
  eexists. split; [apply extractQueryParameters_run; exact Hclock|].
  cbn [x_parameters x_timeRange].
  destruct (queryParameters_shape (toLowerCase query)) as [H1 [H2 H3]].
  repeat split; assumption.
Qed.

Lemma fixture_clock : clockInRange (Fixtures.world Fixtures.timingOut).
Proof.
  unfold clockInRange, maxTime, yearMs. cbn. lia.
Qed.

Lemma extractQueryParameters_region_witness :
  clockInRange (Fixtures.world Fixtures.timingOut) /\
  exists x,
    extractQueryParameters Runtime.platform "Salinity of the North Pacific"
      (Fixtures.world Fixtures.timingOut)
    = (Normal x, Fixtures.world Fixtures.timingOut) /\
    name (x_region x) = Some "Pacific Ocean".
Proof.
  split; [exact fixture_clock|].
  destruct (@extractQueryParameters_region Runtime.platform
              "Salinity of the North Pacific" (Fixtures.world Fixtures.timingOut)
              fixture_clock) as [x [Hrun [_ [_ [Hpacific _]]]]].
  exists x. split; [exact Hrun|]. apply Hpacific; reflexivity.
Defined.

Lemma extractQueryParameters_parameters_witness :
  clockInRange (Fixtures.world Fixtures.timingOut) /\
  exists x,
    extractQueryParameters Runtime.platform "Show me the Gulf Stream"
      (Fixtures.world Fixtures.timingOut)
    = (Normal x, Fixtures.world Fixtures.timingOut) /\
    x_parameters x <> [] /\
    x_timeRange x = mkTimeRange "2022-11-14" "2023-11-14" false true.
Proof.
  split; [exact fixture_clock|].
  destruct (@extractQueryParameters_parameters Runtime.platform
              "Show me the Gulf Stream" (Fixtures.world Fixtures.timingOut)
              fixture_clock) as [x [Hrun [Hne [_ [_ Htime]]]]].
  exists x. split; [exact Hrun|]. split; [exact Hne|].
  rewrite Htime. vm_compute. reflexivity.
Defined.

(** ** Intent detection, routing and retrieval together *)

Lemma detectIntent_run :
  forall (P : Platform) (query : string) (explicitMode : UserMode) (w : World),
    clockInRange w ->
    detectIntent P query explicitMode w =
    (Normal (mkIntent (type (classifyQuery query)) explicitMode
               (cl_requiresData (classifyQuery query))
               (cl_conceptualTopic (classifyQuery query))
               (Some (selectRegion (toLowerCase query)))
               (Some (mkTimeRange (splitHead "T" (Date_toISOString P (now w - yearMs)))
                                  (splitHead "T" (Date_toISOString P (now w)))
                                  false true))
               (queryParameters (toLowerCase query)) 1),
     w).
Proof.
  intros P query explicitMode w Hclock.
  unfold detectIntent, bind. rewrite (extractQueryParameters_run P query Hclock).
  reflexivity.
Qed.

(** X4. Called with a mode, [detectIntent] makes no fetch and returns an
    intent of that mode that always carries a region and a time range.
    Routed with the same mode, this intent has data fetched exactly when
    the pattern classifier says the query requires data, in explorer mode
    as in power mode, and is given the knowledge analysis exactly in
    explorer mode for a query classified as knowledge. *)
Theorem detectIntent_then_routeQuery :
  forall (P : Platform) (query : string) (explicitMode : UserMode) (w : World),
    clockInRange w ->
    exists intent,
      detectIntent P query explicitMode w = (Normal intent, w) /\
      mode intent = explicitMode /\
      queryType intent = type (classifyQuery query) /\
      region intent <> None /\
      timeRange intent <> None /\
      shouldFetchData (routeQuery intent (Some explicitMode))
      = cl_requiresData (classifyQuery query) /\
      (analysisType (routeQuery intent (Some explicitMode)) = KnowledgeAnalysis
       <-> explicitMode = EXPLORER /\ type (classifyQuery query) = KNOWLEDGE_DRIVEN).
Proof.
  intros P query explicitMode w Hclock.
  eexists. split; [apply detectIntent_run; exact Hclock|].
  cbn [mode queryType region timeRange].
  split; [reflexivity|]. split; [reflexivity|].
  split; [discriminate|]. split; [discriminate|].
  unfold routeQuery. cbn [mode queryType requiresData].
  destruct (classifyQuery_outputs_consistent query) as [Hdata _].
  destruct explicitMode; cbn [isPower];
    destruct (type (classifyQuery query)) eqn:Htype;
    destruct (cl_requiresData (classifyQuery query)) eqn:Hreq;
    cbn; split; try reflexivity; try (intuition congruence).
Qed.

Lemma detectIntent_then_routeQuery_witness :
  clockInRange (Fixtures.world Fixtures.timingOut) /\
  exists intent,
    detectIntent Runtime.platform "Show temperature in North Atlantic 2020" EXPLORER
      (Fixtures.world Fixtures.timingOut)
    = (Normal intent, Fixtures.world Fixtures.timingOut) /\
    queryType intent = DATA_DRIVEN /\
    shouldFetchData (routeQuery intent (Some EXPLORER)) = true.
Proof.
  split; [exact fixture_clock|].
  destruct (@detectIntent_then_routeQuery Runtime.platform
              "Show temperature in North Atlantic 2020" EXPLORER
              (Fixtures.world Fixtures.timingOut) fixture_clock)
    as [intent [Hrun [_ [Htype [_ [_ [Hfetch _]]]]]]].
  exists intent. split; [exact Hrun|]. split.
  - rewrite Htype. vm_compute. reflexivity.
  - rewrite Hfetch. vm_compute. reflexivity.
Defined.

(** X5. An intent that [detectIntent] built for a given mode survives a
    timeout of the profile-data API: it has a region and a time range of
    its own, so [retrieveData] makes its one fetch and, when that times
    out, returns thirty synthetic profiles tagged "Fallback (API timeout)"
    rather than throwing (the runtime reading back the two dates it
    printed, and the draws of [Math.random()] being in [0, 1)). *)
Theorem detectIntent_then_retrieveData_timeout :
  forall (P : Platform) (config : PipelineConfig) (query : string)
         (explicitMode : UserMode) (w : World),
    clockInRange w ->
    randomOK w ->
    URL_canParse P (argovisBaseUrl config ++ "/argo") = true ->
    newDateString P (splitHead "T" (Date_toISOString P (now w - yearMs))) <> None ->
    newDateString P (splitHead "T" (Date_toISOString P (now w))) <> None ->
    (forall request, network w (List.length (requests w)) request = Throw abortError) ->
    exists intent d w',
      detectIntent P query explicitMode w = (Normal intent, w) /\
      retrieveData P config intent w = (Normal d, w') /\
      isEmpty d = false /\
      source (metadata d) = "Fallback (API timeout)" /\
      List.length (profiles d) = 30%nat /\
      List.length (requests w') = Datatypes.S (List.length (requests w)).
Proof.
  intros P config query explicitMode w Hclock Hrandom Hurl Hstart Hend Habort.
  assert (Hrun := detectIntent_run P query explicitMode Hclock).
  destruct (clockInRange_now Hclock) as [H1 H2].
  eexists. 
  destruct (@retrieveData_on_timeout P config
              (mkIntent (type (classifyQuery query)) explicitMode
                 (cl_requiresData (classifyQuery query))
                 (cl_conceptualTopic (classifyQuery query))
                 (Some (selectRegion (toLowerCase query)))
                 (Some (mkTimeRange
                          (splitHead "T" (Date_toISOString P (now w - yearMs)))
                          (splitHead "T" (Date_toISOString P (now w))) false true))
                 (queryParameters (toLowerCase query)) 1)
              w (Date_toISOString P (now w - yearMs)) (Date_toISOString P (now w)))
    as [request Hretrieve].
  - left. discriminate.
  - apply toISOString_of_time. exact H1.
  - apply toISOString_of_time. exact H2.
  - exact Hurl.
  - exact Habort.
  - cbn [region timeRange] in Hretrieve.
    destruct (newDateString P (splitHead "T" (Date_toISOString P (now w - yearMs))))
      as [ts|] eqn:Hts; [|congruence].
    destruct (newDateString P (splitHead "T" (Date_toISOString P (now w))))
      as [te|] eqn:Hte; [|congruence].
    destruct (@generateFallbackDataForRegion_ok P (selectRegion (toLowerCase query))
                (mkTimeRange (splitHead "T" (Date_toISOString P (now w - yearMs)))
                             (splitHead "T" (Date_toISOString P (now w))) false true)
                (mkWorld (now w) (random w) (drawn w) (network w)
                         (requests w ++ [request])) ts te Hts Hte)
      as [d [Hgen [Hfull [Hsource [_ [_ Hcount]]]]]].
    + intros k. apply Hrandom.
    + exists d. eexists. split; [exact Hrun|]. split.
      * rewrite Hretrieve. exact Hgen.
      * repeat split; try assumption.
        rewrite advances_requests. cbn [requests]. rewrite length_app. cbn. lia.
Qed.

Lemma detectIntent_then_retrieveData_timeout_witness :
  exists intent d w',
    detectIntent Runtime.platform "Show temperature in North Atlantic 2020" POWER
      (Fixtures.world Fixtures.timingOut)
    = (Normal intent, Fixtures.world Fixtures.timingOut) /\
    retrieveData Runtime.platform Fixtures.config intent
      (Fixtures.world Fixtures.timingOut) = (Normal d, w') /\
    isEmpty d = false /\
    source (metadata d) = "Fallback (API timeout)".
Proof.
  destruct (@detectIntent_then_retrieveData_timeout Runtime.platform Fixtures.config
              "Show temperature in North Atlantic 2020" POWER
              (Fixtures.world Fixtures.timingOut))
    as [intent [d [w' [Hintent [Hrun [Hfull [Hsource _]]]]]]].
  - exact fixture_clock.
  - intros k. apply (draws_in_range k).
  - reflexivity.
  - vm_compute. discriminate.
  - vm_compute. discriminate.
  - intros request. reflexivity.
  - exists intent, d, w'. repeat split; assumption.
Defined.

(* ================================================================== *)
(** * More properties of data retrieval and of the failure handler *)
(* ================================================================== *)

Import Outcomes.

Lemma startsWith_app : forall p s, startsWith p (p ++ s) = true.
Proof.
  induction p as [|c p IH]; intros s; [reflexivity|].
  cbn. rewrite Ascii.eqb_refl. apply IH.
Qed.

Lemma startsWith_refl : forall p, startsWith p p = true.
Proof.
  induction p as [|c p IH]; [reflexivity|]. cbn. now rewrite Ascii.eqb_refl.
Qed.

Lemma includes_append_r :
  forall p s1 s2, includes p s2 = true -> includes p (s1 ++ s2) = true.
Proof.
  intros p. induction s1 as [|c s1 IH]; intros s2 H; [exact H|].
  cbn [append includes]. rewrite (IH _ H). apply orb_true_r.
Qed.

Lemma timed_includes_T :
  forall x suffix,
    includes "T" suffix = true ->
    includes "T" (if includes "T" x then x else (x ++ suffix)%string) = true.
Proof.
  intros x suffix H. destruct (includes "T" x) eqn:E; [exact E|].
  now apply includes_append_r.
Qed.

Lemma timed_startsWith :
  forall x suffix,
    startsWith x (if includes "T" x then x else (x ++ suffix)%string) = true.
Proof.
  intros x suffix. destruct (includes "T" x);
    [apply startsWith_refl | apply startsWith_app].
Qed.

(** What [retrieveData] does once it is past the guard, by the outcome of
    the [try] block. *)
Lemma retrieveData_past_guard :
  forall (P : Platform) (config : PipelineConfig) (intent : IntentResult) (w : World),
    clockInRange w ->
    URL_canParse P (argovisBaseUrl config ++ "/argo") = true ->
    region intent <> None \/ timeRange intent <> None ->
    exists request effectiveTimeRange effectiveRegion,
      url request = (argovisBaseUrl config ++ "/argo")%string /\
      x_argokey request = argovisApiKey config /\
      polygon request = ring (match region intent with
                              | Some r => bounds r
                              | None => mkBounds 90 (-90) 180 (-180)
                              end) /\
      includes "T" (startDate request) = true /\
      includes "T" (endDate request) = true /\
      (forall tr, timeRange intent = Some tr ->
         startsWith (start tr) (startDate request) = true /\
         startsWith (end_ tr) (endDate request) = true) /\
      retrieveData P config intent w
      = tryCatch (fetchProfiles P request effectiveTimeRange effectiveRegion)
                 (recover P (region intent) (timeRange intent)
                    effectiveTimeRange effectiveRegion) w.
Proof.
  intros P config intent w Hclock Hurl Hsome.
  destruct (clockInRange_now Hclock) as [H1 H2].
  unfold retrieveData.
  destruct (region intent) as [r|] eqn:Hr; destruct (timeRange intent) as [tr|] eqn:Ht;
    [ | | | destruct Hsome; congruence ];
    unfold bind at 1, Date_now; unfold bind at 1, liftC at 1;
    rewrite (toISOString_of_time P H1);
    unfold bind at 1, liftC at 1; rewrite (toISOString_of_time P H2);
    cbv zeta; unfold bind at 1; rewrite Hurl; cbn [ret];
    (eexists; eexists; eexists;
     split; [|split; [|split; [|split; [|split; [|split; [|reflexivity]]]]]]);
    cbn [url x_argokey polygon startDate endDate];
    try reflexivity;
    try (apply timed_includes_T; reflexivity);
    try (intros tr' Htr'; inversion Htr'; subst tr'; split; apply timed_startsWith);
    try (intros tr' Htr'; discriminate Htr').
Qed.

Lemma fetchProfiles_world :
  forall P request tr rg w,
    snd (fetchProfiles P request tr rg w)
    = mkWorld (now w) (random w) (drawn w) (network w) (requests w ++ [request]).
Proof.
  intros P request tr rg w.
  unfold fetchProfiles, bind, fetch, liftC, ret, throw.
  destruct (network w (List.length (requests w)) request) as [response|e]; [|reflexivity].
  destruct (ok response); cbn [negb].
  - destruct (json response) as [body|e]; [|reflexivity].
    destruct (mapProfiles body); reflexivity.
  - destruct (text response); reflexivity.
Qed.

Lemma mapItems_null :
  forall items, In None items ->
    mapItems items = Throw (typeError "Cannot read properties of null (reading '_id')").
Proof.
  induction items as [|[r|] rest IH]; intros H.
  - destruct H.
  - destruct H as [H|H]; [discriminate|]. cbn. rewrite (IH H). reflexivity.
  - reflexivity.
Qed.

(** A plain failure makes the [try] block throw something that is not a
    timeout. *)
Lemma fetchProfiles_fails :
  forall P request tr rg w,
    failsPlainly (network w (List.length (requests w)) request) ->
    exists e, fst (fetchProfiles P request tr rg w) = Throw e /\ notAbort e.
Proof.
  intros P request tr rg w H.
  unfold fetchProfiles, bind, fetch, liftC, ret, throw.
  unfold failsPlainly in H.
  destruct (network w (List.length (requests w)) request) as [response|e].
  - destruct (ok response); cbn [negb].
    + destruct (json response) as [body|e].
      * destruct body as [items|].
        -- cbn [mapProfiles]. rewrite (mapItems_null _ H). eexists. split; reflexivity.
        -- eexists. split; reflexivity.
      * exists e. split; [reflexivity | exact H].
    + destruct (text response) as [t|e].
      * eexists. split; reflexivity.
      * exists e. split; [reflexivity | exact H].
  - exists e. split; [reflexivity | exact H].
Qed.

Lemma retrieveData_plain_failure :
  forall (P : Platform) (config : PipelineConfig) (intent : IntentResult) (w : World),
    clockInRange w ->
    URL_canParse P (argovisBaseUrl config ++ "/argo") = true ->
    region intent <> None \/ timeRange intent <> None ->
    (forall request, failsPlainly (network w (List.length (requests w)) request)) ->
    exists d request,
      retrieveData P config intent w
      = (Normal d,
         mkWorld (now w) (random w) (drawn w) (network w) (requests w ++ [request])) /\
      profiles d = [] /\
      isEmpty d = true /\
      totalProfiles (metadata d) = 0%nat /\
      source (metadata d) = "Argovis (failed)".
Proof.
  intros P config intent w Hclock Hurl Hsome Hfail.
  destruct (retrieveData_past_guard P config intent Hclock Hurl Hsome)
    as [request [tr [rg [_ [_ [_ [_ [_ [_ Hrun]]]]]]]]].
  rewrite Hrun. unfold tryCatch.
  destruct (fetchProfiles_fails P request tr rg w (Hfail request)) as [e [He Hplain]].
  assert (Hw := fetchProfiles_world P request tr rg w).
  destruct (fetchProfiles P request tr rg w) as [c w1]. cbn [fst snd] in He, Hw.
  subst c w1. unfold recover. unfold notAbort in Hplain. rewrite Hplain.
  eexists. exists request. split; [reflexivity|]. repeat split.
Qed.

(** X6. However the profile-data API fails, short of a timeout, the
    failure is not passed on: [retrieveData] makes its one fetch and returns
    an empty result, [isEmpty] true, tagged "Argovis (failed)".  This covers
    a rejected fetch, a status that is not 2xx, a body that is not JSON or
    not an array, and an array with a [null] in it. *)
Theorem retrieveData_failure_is_empty_result :
  forall (P : Platform) (config : PipelineConfig) (intent : IntentResult) (w : World),
    clockInRange w ->
    URL_canParse P (argovisBaseUrl config ++ "/argo") = true ->
    region intent <> None \/ timeRange intent <> None ->
    (forall request, failsPlainly (network w (List.length (requests w)) request)) ->
    exists d request,
      retrieveData P config intent w
      = (Normal d,
         mkWorld (now w) (random w) (drawn w) (network w) (requests w ++ [request])) /\
      profiles d = [] /\
      isEmpty d = true /\
      totalProfiles (metadata d) = 0%nat /\
      source (metadata d) = "Argovis (failed)".
Proof.
  intros P config intent w Hclock Hurl Hsome Hfail.
  destruct (retrieveData_plain_failure P config intent Hclock Hurl Hsome Hfail)
    as [d [request H]].
  exists d, request. exact H.
Qed.

Lemma retrieveData_failure_is_empty_result_witness :
  exists d request,
    retrieveData Runtime.platform Fixtures.config Fixtures.atlantic2020
      (Fixtures.world (fun _ _ => Normal unavailable))
    = (Normal d,
       mkWorld 1700000000000 Fixtures.draws 0 (fun _ _ => Normal unavailable) [request]) /\
    isEmpty d = true /\
    source (metadata d) = "Argovis (failed)".
Proof.
  destruct (@retrieveData_failure_is_empty_result Runtime.platform Fixtures.config
              Fixtures.atlantic2020 (Fixtures.world (fun _ _ => Normal unavailable)))
    as [d [request [Hrun [_ [Hempty [_ Hsource]]]]]].
  - exact fixture_clock.
  - reflexivity.
  - left. discriminate.
  - intros request. exact I.
  - exists d, request. repeat split; assumption.
Defined.

(** The generators make no fetch, whether they return or throw. *)
Lemma syntheticProfile_requests :
  forall P idPrefix maxDepth b range i w,
    requests (snd (syntheticProfile P idPrefix maxDepth b range i w)) = requests w.
Proof.
  intros P idPrefix maxDepth b range i w.
  unfold syntheticProfile, bind, Math_random, liftC, ret, throw.
  cbn [random drawn now network requests].
  destruct range as [[s e]|]; [|reflexivity].
  match goal with
  | |- context [toISOString P ?d] => destruct (toISOString P d)
  end; reflexivity.
Qed.

Lemma forCollect_requests :
  forall (body : nat -> M World Profile),
    (forall i w, requests (snd (body i w)) = requests w) ->
    forall n i w, requests (snd (forCollect n i body w)) = requests w.
Proof.
  intros body Hbody. induction n as [|n IH]; intros i w; [reflexivity|].
  cbn [forCollect]. unfold bind at 1.
  specialize (Hbody i w).
  destruct (body i w) as [[p|e] w1]; cbn [snd] in Hbody; [|exact Hbody].
  unfold bind at 1. specialize (IH (Datatypes.S i) w1).
  destruct (forCollect n (Datatypes.S i) body w1) as [[l|e] w2];
    unfold ret; cbn [snd] in IH |- *; congruence.
Qed.

Lemma generateFallbackDataForRegion_requests :
  forall P region timeRange w,
    requests (snd (generateFallbackDataForRegion P region timeRange w)) = requests w.
Proof.
  intros P region timeRange w. unfold generateFallbackDataForRegion.
  destruct region as [r|]; [|reflexivity].
  cbv zeta. unfold bind.
  match goal with
  | |- context [forCollect 30 0 ?body w] =>
      assert (H := @forCollect_requests body
                     (fun i w0 => syntheticProfile_requests _ _ _ _ _ i w0) 30 0%nat w);
      destruct (forCollect 30 0 body w) as [[l|e] w1]
  end; cbn [snd] in H; [|exact H].
  destruct timeRange; exact H.
Qed.

(** X7. For an intent with a region or a time range, [retrieveData] makes
    exactly one fetch, whatever comes of it: there is no retry inside.  The
    fetch goes to the base URL's [/argo] with the API key; its polygon is
    the closed ring of the region's four corners, of the whole globe when
    the intent has no region; and both dates carry a time of day, the
    intent's own dates coming first in them. *)
Theorem retrieveData_one_request :
  forall (P : Platform) (config : PipelineConfig) (intent : IntentResult) (w : World),
    clockInRange w ->
    URL_canParse P (argovisBaseUrl config ++ "/argo") = true ->
    region intent <> None \/ timeRange intent <> None ->
    exists request,
      requests (snd (retrieveData P config intent w)) = requests w ++ [request] /\
      url request = (argovisBaseUrl config ++ "/argo")%string /\
      x_argokey request = argovisApiKey config /\
      polygon request = ring (match region intent with
                              | Some r => bounds r
                              | None => mkBounds 90 (-90) 180 (-180)
                              end) /\
      List.length (polygon request) = 5%nat /\
      nth_error (polygon request) 4 = hd_error (polygon request) /\
      includes "T" (startDate request) = true /\
      includes "T" (endDate request) = true /\
      (forall tr, timeRange intent = Some tr ->
         startsWith (start tr) (startDate request) = true /\
         startsWith (end_ tr) (endDate request) = true).
Proof.
  intros P config intent w Hclock Hurl Hsome.
  destruct (retrieveData_past_guard P config intent Hclock Hurl Hsome)
    as [request [tr [rg [H1 [H2 [H3 [H4 [H5 [H6 Hrun]]]]]]]]].
  exists request. rewrite Hrun.
  split; [|rewrite H3; repeat split; solve [assumption | reflexivity | apply H6; assumption]].
  unfold tryCatch.
  assert (Hw := fetchProfiles_world P request tr rg w).
  destruct (fetchProfiles P request tr rg w) as [[d|e] w1]; cbn [snd] in Hw; subst w1.
  - reflexivity.
  - unfold recover. destruct (isAbortError e).
    + rewrite generateFallbackDataForRegion_requests. reflexivity.
    + reflexivity.
Qed.

(** Ocean-wide, no region in the intent, and a server that is down. *)
Lemma retrieveData_one_request_witness :
  exists request,
    requests (snd (retrieveData Runtime.platform Fixtures.config
                     (Fixtures.intentWith None (Some Fixtures.year2020))
                     (Fixtures.world (fun _ _ => Normal unavailable))))
    = [request] /\
    polygon request = [(-180, -90); (180, -90); (180, 90); (-180, 90); (-180, -90)] /\
    startDate request = "2020-01-01T00:00:00.000Z" /\
    endDate request = "2020-12-31T23:59:59.999Z".
Proof.
  destruct (@retrieveData_one_request Runtime.platform Fixtures.config
              (Fixtures.intentWith None (Some Fixtures.year2020))
              (Fixtures.world (fun _ _ => Normal unavailable)))
    as [request [Hrequests [_ [_ [Hpolygon _]]]]].
  - exact fixture_clock.
  - reflexivity.
  - right. discriminate.
  - exists request. split; [exact Hrequests|]. split; [exact Hpolygon|].
    vm_compute in Hrequests. inversion Hrequests. split; reflexivity.
Defined.

(** X8. Spatial expansion keeps a box that lies on the globe on the globe
    and never shrinks it: each side moves outwards or stays, the name and
    the time range are kept.  A box that already spans a whole axis is left
    as it is along that axis. *)
Theorem expandSpatial_grows_on_globe :
  forall (intent : IntentResult) (r : Region) (degrees : Q),
    region intent = Some r ->
    onGlobe (bounds r) ->
    0 <= degrees ->
    exists r',
      region (expandSpatial intent degrees) = Some r' /\
      onGlobe (bounds r') /\
      north (bounds r) <= north (bounds r') /\
      south (bounds r') <= south (bounds r) /\
      east (bounds r) <= east (bounds r') /\
      west (bounds r') <= west (bounds r) /\
      name r' = name r /\
      timeRange (expandSpatial intent degrees) = timeRange intent.
Proof.
  intros intent r degrees Hr [Hs [Hn [Hw He]]] Hd.
  unfold expandSpatial. rewrite Hr.
  eexists. split; [reflexivity|]. cbn.
  repeat split.
  - apply Q.le_max_l.
  - apply Q.le_min_l.
  - apply Q.le_max_l.
  - apply Q.le_min_l.
  - apply Q.min_glb; [exact Hn | lra].
  - apply Q.max_lub; [exact Hs | lra].
  - apply Q.min_glb; [exact He | lra].
  - apply Q.max_lub; [exact Hw | lra].
Qed.

Lemma expandSpatial_grows_on_globe_witness :
  exists r',
    region (expandSpatial Fixtures.equatorial2020 10) = Some r' /\
    onGlobe (bounds r') /\
    north (bounds Fixtures.equatorialRegion) <= north (bounds r') /\
    east (bounds Fixtures.equatorialRegion) <= east (bounds r').
Proof.
  destruct (@expandSpatial_grows_on_globe Fixtures.equatorial2020
              Fixtures.equatorialRegion 10 eq_refl)
    as [r' [Hregion [Hglobe [Hnorth [_ [Heast _]]]]]].
  - unfold onGlobe. cbn. repeat split; discriminate.
  - discriminate.
  - exists r'. repeat split; try assumption; apply Hglobe.
Defined.

Lemma expandTemporal_unreadable :
  forall (P : Platform) (intent : IntentResult) (tr : TimeRange) (months : Z),
    timeRange intent = Some tr ->
    newDateString P (start tr) = None \/ newDateString P (end_ tr) = None ->
    expandTemporal P intent months = Throw (rangeError "Invalid time value").
Proof.
  intros P intent tr months Htr Hbad. unfold expandTemporal. rewrite Htr.
  destruct Hbad as [H|H]; rewrite H; cbn [shiftMonths toISOString]; [reflexivity|].
  destruct (toISOString P (shiftMonths P (newDateString P (start tr)) (- months)))
    as [s|e] eqn:E; [reflexivity|].
  destruct (shiftMonths P (newDateString P (start tr)) (- months)); cbn in E;
    [discriminate | inversion E; reflexivity].
Qed.

(** X9. When the intent's time range holds a date the runtime cannot read,
    [handleEmptyData] throws a RangeError at once: the retrieval function
    is not called and no synthetic data is produced. *)
Theorem handleEmptyData_unreadable_dates :
  forall (P : Platform) (intent : IntentResult)
         (retrieveDataFn : IntentResult -> M World DataResult)
         (w : World) (tr : TimeRange),
    timeRange intent = Some tr ->
    newDateString P (start tr) = None \/ newDateString P (end_ tr) = None ->
    handleEmptyData P intent retrieveDataFn w
    = (Throw (rangeError "Invalid time value"), w).
Proof.
  intros P intent retrieveDataFn w tr Htr Hbad.
  unfold handleEmptyData, bind, liftC.
  rewrite (expandTemporal_unreadable P intent 6 Htr Hbad). reflexivity.
Qed.

Lemma handleEmptyData_unreadable_dates_witness :
  handleEmptyData Runtime.platform
    (Fixtures.intentWith (Some Fixtures.northAtlantic)
       (Some (mkTimeRange "last winter" "2020-03-31" true false)))
    (retrieveData Runtime.platform Fixtures.config) Fixtures.emptyOcean
  = (Throw (rangeError "Invalid time value"), Fixtures.emptyOcean).
Proof.
  apply (@handleEmptyData_unreadable_dates Runtime.platform
           (Fixtures.intentWith (Some Fixtures.northAtlantic)
              (Some (mkTimeRange "last winter" "2020-03-31" true false)))
           (retrieveData Runtime.platform Fixtures.config) Fixtures.emptyOcean
           (mkTimeRange "last winter" "2020-03-31" true false) eq_refl).
  left. reflexivity.
Defined.

Lemma widenedInTime_keeps :
  forall P months intent wide,
    widenedInTime P months intent wide ->
    region intent <> None \/ timeRange intent <> None ->
    region wide <> None \/ timeRange wide <> None.
Proof.
  intros P months intent wide H Hsome. unfold widenedInTime in H.
  destruct (timeRange intent) as [tr|] eqn:Htr.
  - destruct H as [s [e [_ [_ ->]]]]. right. discriminate.
  - subst wide. rewrite Htr. exact Hsome.
Qed.

Lemma expandSpatial_keeps :
  forall intent degrees,
    region intent <> None \/ timeRange intent <> None ->
    region (expandSpatial intent degrees) <> None \/
    timeRange (expandSpatial intent degrees) <> None.
Proof.
  intros intent degrees Hsome. unfold expandSpatial.
  destruct (region intent) as [r|] eqn:Hr; [left; discriminate|].
  rewrite Hr. exact Hsome.
Qed.

Lemma retrieveData_skipped :
  forall (P : Platform) (config : PipelineConfig) (intent : IntentResult) (w : World),
    region intent = None -> timeRange intent = None ->
    retrieveData P config intent w = (Normal skippedResult, w).
Proof.
  intros P config intent w Hr Ht. unfold retrieveData. rewrite Hr, Ht. reflexivity.
Qed.

(** X10. [handleEmptyData] with [retrieveData] as its retrieval function,
    against an API that fails on every fetch short of timing out.  Suppose
    the dates of the intent's time range, if it has one, are readable, so
    that [expandTemporal] returns (with unreadable dates it throws, see X9);
    suppose the runtime reads the generator's two default dates if the intent
    has no time range, the clock is within what [Date] can print,
    [Math.random()] draws in [0, 1) and the configured address is a URL.
    Then nothing is thrown, and the result is fifty synthetic profiles,
    [isEmpty] false, tagged "Fallback (MCP unavailable)".  An intent with a
    region or a time range costs exactly two fetches, one per retry; an
    intent with neither costs none, as [retrieveData] then returns its
    skipped result without fetching. *)
Theorem handleEmptyData_with_failing_api :
  forall (P : Platform) (config : PipelineConfig) (intent wide : IntentResult)
         (w : World),
    expandTemporal P intent 6 = Normal wide ->
    (timeRange intent = None -> parsesDefaultRange P) ->
    clockInRange w ->
    randomOK w ->
    URL_canParse P (argovisBaseUrl config ++ "/argo") = true ->
    (forall k request, failsPlainly (network w k request)) ->
    exists d w' attempts,
      handleEmptyData P intent (retrieveData P config) w = (Normal d, w') /\
      isEmpty d = false /\
      source (metadata d) = "Fallback (MCP unavailable)" /\
      List.length (profiles d) = 50%nat /\
      requests w' = requests w ++ attempts /\
      List.length attempts = match region intent, timeRange intent with
                             | None, None => 0%nat
                             | _, _ => 2%nat
                             end.
Proof.
  intros P config intent wide w Hwide Hdefault Hclock Hrandom Hurl Hfail.
  assert (Htime := @expandTemporal_normal P intent 6%Z wide Hwide).
  rewrite (@handleEmptyData_steps P intent (retrieveData P config) w wide Hwide).
  assert (Hcases : (region intent = None /\ timeRange intent = None) \/
                   (region intent <> None \/ timeRange intent <> None)).
  { destruct (region intent); [right; left; discriminate|].
    destruct (timeRange intent); [right; right; discriminate|].
    left. split; reflexivity. }
  destruct Hcases as [[Hr Ht]|Hsome].
  - assert (Hsame : wide = intent).
    { unfold widenedInTime in Htime. rewrite Ht in Htime. exact Htime. }
    subst wide. rewrite (retrieveData_skipped P config intent w Hr Ht).
    cbn [isEmpty skippedResult].
    assert (Hspace : expandSpatial intent 10 = intent).
    { unfold expandSpatial. rewrite Hr. reflexivity. }
    rewrite Hspace, (retrieveData_skipped P config intent w Hr Ht).
    cbn [isEmpty skippedResult].
    destruct (@generateFallbackData_ok P intent w) as [d [Hd [He [Hs Hl]]]].
    + intros tr Htr. rewrite Ht in Htr. discriminate Htr.
    + exact Hdefault.
    + intros k. apply Hrandom.
    + exists d, (advances 50 w), []. rewrite Hr, Ht.
      split; [exact Hd|]. repeat split; try assumption.
      rewrite advances_requests, app_nil_r. reflexivity.
  - destruct (@retrieveData_plain_failure P config wide w Hclock Hurl)
      as [d1 [first [Hrun1 [_ [Hempty1 _]]]]].
    { eapply widenedInTime_keeps; eassumption. }
    { intros request. apply Hfail. }
    rewrite Hrun1, Hempty1.
    set (w1 := mkWorld (now w) (random w) (drawn w) (network w) (requests w ++ [first])).
    destruct (@retrieveData_plain_failure P config (expandSpatial intent 10) w1)
      as [d2 [second [Hrun2 [_ [Hempty2 _]]]]].
    { exact Hclock. }
    { exact Hurl. }
    { apply expandSpatial_keeps. exact Hsome. }
    { intros request. apply Hfail. }
    rewrite Hrun2, Hempty2.
    set (w2 := mkWorld (now w1) (random w1) (drawn w1) (network w1)
                       (requests w1 ++ [second])).
    destruct (@generateFallbackData_ok P intent w2) as [d [Hd [He [Hs Hl]]]].
    + intros tr Htr. eapply widenedInTime_valid; eassumption.
    + exact Hdefault.
    + intros k. apply Hrandom.
    + exists d, (advances 50 w2), [first; second].
      split; [exact Hd|]. repeat split; try assumption.
      * rewrite advances_requests. cbn [w2 w1 requests]. rewrite <- app_assoc. reflexivity.
      * destruct Hsome as [H|H].
        -- destruct (region intent); [reflexivity | congruence].
        -- destruct (region intent); [reflexivity|].
           destruct (timeRange intent); [reflexivity | congruence].
Qed.

Lemma handleEmptyData_with_failing_api_witness :
  (exists d w' attempts,
     handleEmptyData Runtime.platform Fixtures.equatorial2020
       (retrieveData Runtime.platform Fixtures.config)
       (Fixtures.world (fun _ _ => Normal unavailable)) = (Normal d, w') /\
     isEmpty d = false /\
     source (metadata d) = "Fallback (MCP unavailable)" /\
     requests w' = attempts /\ List.length attempts = 2%nat) /\
  (exists d w',
     handleEmptyData Runtime.platform Fixtures.knowledgeIntent
       (retrieveData Runtime.platform Fixtures.config)
       (Fixtures.world (fun _ _ => Normal unavailable)) = (Normal d, w') /\
     isEmpty d = false /\
     source (metadata d) = "Fallback (MCP unavailable)" /\
     requests w' = []).
Proof.
  split.
  - destruct (@handleEmptyData_with_failing_api Runtime.platform Fixtures.config
                Fixtures.equatorial2020 Fixtures.equatorialWide
                (Fixtures.world (fun _ _ => Normal unavailable)))
      as [d [w' [attempts [Hrun [Hfull [Hsource [_ [Hrequests Hcount]]]]]]]].
    + vm_compute. reflexivity.
    + intros H. discriminate H.
    + exact fixture_clock.
    + intros k. apply (draws_in_range k).
    + reflexivity.
    + intros k request. exact I.
    + exists d, w', attempts. repeat split; assumption.
  - destruct (@handleEmptyData_with_failing_api Runtime.platform Fixtures.config
                Fixtures.knowledgeIntent Fixtures.knowledgeIntent
                (Fixtures.world (fun _ _ => Normal unavailable)))
      as [d [w' [attempts [Hrun [Hfull [Hsource [_ [Hrequests Hcount]]]]]]]].
    + reflexivity.
    + intros _. split; vm_compute; discriminate.
    + exact fixture_clock.
    + intros k. apply (draws_in_range k).
    + reflexivity.
    + intros k request. exact I.
    + exists d, w'. repeat split; try assumption.
      cbn in Hcount. destruct attempts; [exact Hrequests | discriminate Hcount].
Defined.

(* ================================================================== *)
(** * Where the synthetic profiles lie *)
(* ================================================================== *)

Lemma scale_positive : forall f : nat, 0 < inject_Z (10 ^ Z.of_nat f).
Proof.
  intros f. change 0 with (inject_Z 0). rewrite <- Zlt_Qlt.
  apply Z.pow_pos_nonneg; lia.
Qed.

Lemma Qfloor_at_least :
  forall (n : Z) (q : Q), inject_Z n <= q -> (n <= Qfloor q)%Z.
Proof.
  intros n q H. rewrite <- (Qfloor_Z n). apply Qfloor_resp_le. exact H.
Qed.

Lemma Qfloor_at_most :
  forall (n : Z) (q : Q), q < inject_Z (n + 1) -> (Qfloor q <= n)%Z.
Proof.
  intros n q H.
  assert (Hlt : inject_Z (Qfloor q) < inject_Z (n + 1)).
  { eapply Qle_lt_trans; [apply Qfloor_le | exact H]. }
  rewrite <- Zlt_Qlt in Hlt. lia.
Qed.

(** Rounding to [f] decimals does not cross a number with at most [f]
    decimals. *)
Lemma toFixedNumber_at_least :
  forall (f : nat) (a x : Q),
    Synthetic.decimals f a -> a <= x -> a <= toFixedNumber f x.
Proof.
  intros f a x [n Hn] Hax. unfold toFixedNumber.
  assert (Hs := scale_positive f).
  set (s := inject_Z (10 ^ Z.of_nat f)) in *.
  assert (Hxs : inject_Z n <= x * s).
  { rewrite <- Hn. apply Qmult_le_compat_r; [exact Hax | apply Qlt_le_weak; exact Hs]. }
  destruct (Qle_bool 0 x).
  - apply Qle_shift_div_l; [exact Hs|]. rewrite Hn. rewrite <- Zle_Qle.
    apply Qfloor_at_least. lra.
  - assert (Hfloor : (Qfloor (- x * s + (1 # 2)) <= - n)%Z).
    { apply Qfloor_at_most. rewrite inject_Z_plus, inject_Z_opp.
      change (inject_Z 1) with 1.
      setoid_replace (- x * s) with (- (x * s)) by ring. lra. }
    rewrite Zle_Qle, inject_Z_opp in Hfloor.
    assert (Hdiv : inject_Z (Qfloor (- x * s + (1 # 2))) / s <= - a).
    { apply Qle_shift_div_r; [exact Hs|].
      setoid_replace (- a * s) with (- (a * s)) by ring. rewrite Hn. exact Hfloor. }
    lra.
Qed.

Lemma toFixedNumber_at_most :
  forall (f : nat) (b x : Q),
    Synthetic.decimals f b -> x <= b -> toFixedNumber f x <= b.
Proof.
  intros f b x [n Hn] Hxb. unfold toFixedNumber.
  assert (Hs := scale_positive f).
  set (s := inject_Z (10 ^ Z.of_nat f)) in *.
  assert (Hxs : x * s <= inject_Z n).
  { rewrite <- Hn. apply Qmult_le_compat_r; [exact Hxb | apply Qlt_le_weak; exact Hs]. }
  destruct (Qle_bool 0 x).
  - apply Qle_shift_div_r; [exact Hs|]. rewrite Hn. rewrite <- Zle_Qle.
    apply Qfloor_at_most. rewrite inject_Z_plus. change (inject_Z 1) with 1. lra.
  - assert (Hfloor : (- n <= Qfloor (- x * s + (1 # 2)))%Z).
    { apply Qfloor_at_least. rewrite inject_Z_opp.
      setoid_replace (- x * s) with (- (x * s)) by ring. lra. }
    rewrite Zle_Qle, inject_Z_opp in Hfloor.
    assert (Hdiv : - b <= inject_Z (Qfloor (- x * s + (1 # 2))) / s).
    { apply Qle_shift_div_l; [exact Hs|].
      setoid_replace (- b * s) with (- (b * s)) by ring. rewrite Hn. exact Hfloor. }
    lra.
Qed.

Lemma decimals_zero : forall f : nat, Synthetic.decimals f 0.
Proof. intros f. exists 0%Z. ring. Qed.

Lemma decimals_integer : forall (f : nat) (z : Z), Synthetic.decimals f (inject_Z z).
Proof.
  intros f z. exists (z * 10 ^ Z.of_nat f)%Z. rewrite inject_Z_mult. reflexivity.
Qed.

Lemma between_ends :
  forall s e r : Q,
    0 <= r -> r < 1 ->
    Qmin s e <= s + r * (e - s) /\ s + r * (e - s) <= Qmax s e.
Proof.
  intros s e r H0 H1. destruct (Qlt_le_dec e s) as [Hlt|Hle].
  - rewrite (Q.min_r s e), (Q.max_l s e) by (apply Qlt_le_weak; exact Hlt).
    split; nra.
  - rewrite (Q.min_l s e), (Q.max_r s e) by exact Hle. split; nra.
Qed.

Lemma decimals_min :
  forall f x y, Synthetic.decimals f x -> Synthetic.decimals f y ->
                Synthetic.decimals f (Qmin x y).
Proof.
  intros f x y [n Hn] [m Hm]. destruct (Qlt_le_dec y x) as [Hlt|Hle].
  - exists m. rewrite (Q.min_r x y) by (apply Qlt_le_weak; exact Hlt). exact Hm.
  - exists n. rewrite (Q.min_l x y) by exact Hle. exact Hn.
Qed.

Lemma decimals_max :
  forall f x y, Synthetic.decimals f x -> Synthetic.decimals f y ->
                Synthetic.decimals f (Qmax x y).
Proof.
  intros f x y [n Hn] [m Hm]. destruct (Qlt_le_dec y x) as [Hlt|Hle].
  - exists n. rewrite (Q.max_l x y) by (apply Qlt_le_weak; exact Hlt). exact Hn.
  - exists m. rewrite (Q.max_r x y) by exact Hle. exact Hm.
Qed.

(** One synthetic profile lies inside the box it is drawn for. *)
Lemma syntheticProfile_inside :
  forall P idPrefix (maxDepth : Q) b range i w p w',
    FailureHandler.syntheticProfile P idPrefix maxDepth b range i w = (Normal p, w') ->
    randomOK w ->
    Synthetic.gridded b -> south b <= north b ->
    0 <= maxDepth -> Synthetic.decimals 1 maxDepth ->
    Synthetic.inside b maxDepth p.
Proof.
  intros P idPrefix maxDepth b range i w p w' H Hrandom
         [Hn [Hs [He Hw]]] Hband Hdepth Hgrid.
  unfold FailureHandler.syntheticProfile, bind, Math_random, liftC, ret, throw in H.
  cbn [random drawn now network requests] in H.
  destruct range as [[s e]|]; [|discriminate].
  match type of H with
  | context [toISOString ?P ?d] => destruct (toISOString P d); [|discriminate]
  end.
  inversion H. subst p. clear H.
  destruct (Hrandom (drawn w)) as [Ha0 Ha1].
  destruct (Hrandom (Datatypes.S (drawn w))) as [Hb0 Hb1].
  destruct (Hrandom (Datatypes.S (Datatypes.S (drawn w)))) as [Hc0 Hc1].
  destruct (between_ends (west b) (east b) Hb0 Hb1) as [Hlo Hhi].
  eexists. eexists. eexists.
  cbn [lat lon depth].
  split; [reflexivity|]. split; [reflexivity|]. split; [reflexivity|].
  split; [apply toFixedNumber_at_least; [exact Hs | nra]|].
  split; [apply toFixedNumber_at_most; [exact Hn | nra]|].
  split; [apply toFixedNumber_at_least; [apply decimals_min; assumption | exact Hlo]|].
  split; [apply toFixedNumber_at_most; [apply decimals_max; assumption | exact Hhi]|].
  split; [apply toFixedNumber_at_least; [apply decimals_zero | nra]|].
  apply toFixedNumber_at_most; [exact Hgrid | nra].
Qed.

Lemma syntheticProfile_random :
  forall P idPrefix maxDepth b range i w r w',
    FailureHandler.syntheticProfile P idPrefix maxDepth b range i w = (r, w') ->
    random w' = random w.
Proof.
  intros P idPrefix maxDepth b range i w r w' H.
  unfold FailureHandler.syntheticProfile, bind, Math_random, liftC, ret, throw in H.
  cbn [random drawn now network requests] in H.
  destruct range as [[s e]|]; [|inversion H; reflexivity].
  match type of H with
  | context [toISOString ?P ?d] => destruct (toISOString P d)
  end; inversion H; reflexivity.
Qed.

Lemma forCollect_inside :
  forall P idPrefix (maxDepth : Q) b range,
    Synthetic.gridded b -> south b <= north b ->
    0 <= maxDepth -> Synthetic.decimals 1 maxDepth ->
    forall n i w l w',
      forCollect n i (FailureHandler.syntheticProfile P idPrefix maxDepth b range) w
      = (Normal l, w') ->
      randomOK w ->
      Forall (Synthetic.inside b maxDepth) l.
Proof.
  intros P idPrefix maxDepth b range Hgrid Hband Hdepth Hdec.
  induction n as [|n IH]; intros i w l w' H Hrandom.
  - inversion H. constructor.
  - cbn [forCollect] in H. unfold bind at 1 in H.
    destruct (FailureHandler.syntheticProfile P idPrefix maxDepth b range i w)
      as [[p|e] w1] eqn:Hp; [|discriminate].
    unfold bind at 1 in H.
    destruct (forCollect n (Datatypes.S i)
                (FailureHandler.syntheticProfile P idPrefix maxDepth b range) w1)
      as [[l1|e] w2] eqn:Hl; [|discriminate].
    inversion H; subst. constructor.
    + eapply syntheticProfile_inside; eassumption.
    + eapply IH; [exact Hl|].
      intros k. rewrite (syntheticProfile_random _ _ _ _ _ _ _ Hp). apply Hrandom.
Qed.

(** X11. The synthetic profiles of both generators lie where they are
    asked for.  Take draws in [0, 1) and a region whose four bounds are
    latitudes between -90 and 90 and longitudes between -180 and 180, have
    at most four decimals, and whose south is not above its north.  Then
    every profile of [generateFallbackData] and of
    [generateFallbackDataForRegion] has its latitude in the band, its
    longitude between the two meridians on the side that does not cross
    the date line, and its depth between 0 and the generator's maximum,
    2000 and 1500 metres.  Nothing is said of boxes beyond the globe, where
    the source's doubles may overflow. *)
Theorem synthetic_profiles_inside_region :
  forall (P : Platform) (intent : IntentResult) (r : Region) (w : World),
    region intent = Some r ->
    randomOK w ->
    Synthetic.geographic (bounds r) ->
    Synthetic.gridded (bounds r) ->
    south (bounds r) <= north (bounds r) ->
    (forall d w',
       FailureHandler.generateFallbackData P intent w = (Normal d, w') ->
       Forall (Synthetic.inside (bounds r) 2000) (profiles d)) /\
    (forall d w',
       FailureHandler.generateFallbackDataForRegion P (region intent) (timeRange intent) w
       = (Normal d, w') ->
       Forall (Synthetic.inside (bounds r) 1500) (profiles d)).
Proof.
  intros P intent r w Hr Hrandom _ Hgrid Hband. split; intros d w' H.
  - unfold FailureHandler.generateFallbackData in H. cbv zeta in H.
    rewrite Hr in H. unfold bind in H.
    match type of H with
    | context [forCollect 50 0 ?body w] =>
        destruct (forCollect 50 0 body w) as [[l|e] w1] eqn:Hl; [|discriminate]
    end.
    inversion H. cbn [profiles].
    eapply forCollect_inside; try eassumption.
    + discriminate.
    + apply (decimals_integer 1 2000).
  - unfold FailureHandler.generateFallbackDataForRegion in H.
    rewrite Hr in H. cbv zeta in H. unfold bind in H.
    match type of H with
    | context [forCollect 30 0 ?body w] =>
        destruct (forCollect 30 0 body w) as [[l|e] w1] eqn:Hl; [|discriminate]
    end.
    destruct (timeRange intent); [|discriminate].
    inversion H. cbn [profiles].
    eapply forCollect_inside; try eassumption.
    + discriminate.
    + apply (decimals_integer 1 1500).
Qed.

Lemma synthetic_profiles_inside_region_witness :
  Forall (Synthetic.inside (bounds Fixtures.equatorialRegion) 2000)
         (profiles (fst Soundings.synthesized)).
Proof.
  destruct (@synthetic_profiles_inside_region Runtime.platform
              Fixtures.equatorial2020 Fixtures.equatorialRegion
              Fixtures.emptyOcean) as [H _].
  - reflexivity.
  - exact draws_in_range.
  - unfold Synthetic.geographic. cbn. repeat split; discriminate.
  - split; [apply (decimals_integer 4 10)|].
    split; [apply (decimals_integer 4 (-10))|].
    split; [apply (decimals_integer 4 180) | apply (decimals_integer 4 (-180))].
  - discriminate.
  - apply (H (fst Soundings.synthesized) (snd Soundings.synthesized)).
    vm_compute. reflexivity.
Defined.

(* ================================================================== *)
(** * Properties of the validator's two guards *)
(* ================================================================== *)

Lemma needsDigit_not_nullable :
  forall r, RealData.needsDigit r = true -> nullable r = false.
Proof.
  induction r as [| | | | |a IHa b IHb|a IHa b IHb|a IHa]; cbn; intros H;
    try reflexivity; try discriminate.
  - apply orb_true_iff in H. destruct H as [H|H].
    + rewrite (IHa H). reflexivity.
    + rewrite (IHb H). apply andb_false_r.
  - apply andb_true_iff in H. destruct H as [Ha Hb].
    rewrite (IHa Ha), (IHb Hb). reflexivity.
Qed.

Lemma mkSeq_needsDigit :
  forall a b, (RealData.needsDigit a || RealData.needsDigit b)%bool = true ->
              RealData.needsDigit (mkSeq a b) = true.
Proof.
  intros a b H. destruct a, b; cbn in *; try reflexivity; try discriminate; exact H.
Qed.

Lemma mkAlt_needsDigit :
  forall a b, RealData.needsDigit a = true -> RealData.needsDigit b = true ->
              RealData.needsDigit (mkAlt a b) = true.
Proof.
  intros a b Ha Hb. destruct a, b; cbn in *; try reflexivity; try discriminate;
    try assumption; rewrite ?Ha, ?Hb; try reflexivity;
    apply andb_true_iff; split; assumption.
Qed.

Lemma deriv_needsDigit :
  forall ic c r,
    isDigit c = false -> RealData.needsDigit r = true ->
    RealData.needsDigit (deriv ic c r) = true.
Proof.
  intros ic c r Hc.
  induction r as [| | | | |a IHa b IHb|a IHa b IHb|a IHa]; cbn [deriv RealData.needsDigit];
    intros H; try reflexivity; try discriminate.
  - rewrite Hc. reflexivity.
  - destruct (nullable a) eqn:Hnull.
    + assert (Ha : RealData.needsDigit a = false).
      { destruct (RealData.needsDigit a) eqn:Ha; [|reflexivity].
        apply needsDigit_not_nullable in Ha. congruence. }
      rewrite Ha in H. cbn in H.
      apply mkAlt_needsDigit.
      * apply mkSeq_needsDigit. rewrite H. apply orb_true_r.
      * apply IHb. exact H.
    + apply mkSeq_needsDigit. apply orb_true_iff in H. destruct H as [H|H].
      * rewrite (IHa H). reflexivity.
      * rewrite H. apply orb_true_r.
  - apply andb_true_iff in H. destruct H as [Ha Hb].
    apply mkAlt_needsDigit; [apply IHa | apply IHb]; assumption.
Qed.

Lemma matchesPrefix_needsDigit :
  forall ic s r,
    RealData.needsDigit r = true -> matchesPrefix ic r s = true ->
    RealData.hasDigit s = true.
Proof.
  intros ic s. induction s as [|c s IH]; intros r Hr H; cbn [matchesPrefix] in H;
    rewrite (needsDigit_not_nullable _ Hr) in H; cbn [orb] in H.
  - discriminate.
  - cbn [RealData.hasDigit]. destruct (isDigit c) eqn:Hc; [reflexivity|].
    cbn [orb]. eapply IH; [|exact H]. apply deriv_needsDigit; assumption.
Qed.

Lemma matchesSomewhere_needsDigit :
  forall ic r s,
    RealData.needsDigit r = true -> matchesSomewhere ic r s = true ->
    RealData.hasDigit s = true.
Proof.
  intros ic r s Hr. induction s as [|c s IH]; intros H; cbn [matchesSomewhere] in H;
    apply orb_true_iff in H; destruct H as [H|H];
    try (eapply matchesPrefix_needsDigit; eassumption); try discriminate.
  cbn [RealData.hasDigit]. rewrite (IH H). apply orb_true_r.
Qed.

(** X12. [validateResponse] accepts a response of ASCII characters
    exactly when the caller says there is real data and the response,
    letter case apart, neither begins with one of the two opening phrases
    nor contains one of the six other phrases.  So on ASCII text the verdict
    does not depend on letter case, and the two opening phrases are harmless
    anywhere but at the start.  Nothing is said of a response with other
    characters, which [toLowerCase] may turn into ASCII letters. *)
Theorem validateResponse_accepts_iff :
  forall (response : string) (hasRealData : bool),
    isAscii response = true ->
    (ResponseValidator.validateResponse response hasRealData = true <->
    hasRealData = true /\
    beginsWith "here's a fun fact about" response = false /\
    beginsWith "did you know that the ocean" response = false /\
    mentions "this is a placeholder" response = false /\
    mentions "lorem ipsum" response = false /\
    mentions "sample data shows" response = false /\
    mentions "this is sample data" response = false /\
    mentions "placeholder response" response = false /\
    mentions "mock analysis" response = false).
Proof.
  intros response hasRealData _.
  unfold ResponseValidator.validateResponse.
  cbn [existsb ResponseValidator.obviousTemplates ResponseValidator.obviousHardcoded].
  rewrite !test_anchored_literal, !test_literal.
  change (includes (toLowerCase "this is sample data") (toLowerCase response))
    with (mentions "this is sample data" response).
  change (includes (toLowerCase "placeholder response") (toLowerCase response))
    with (mentions "placeholder response" response).
  change (includes (toLowerCase "mock analysis") (toLowerCase response))
    with (mentions "mock analysis" response).
  destruct hasRealData; cbn [negb];
    [|split; [discriminate | intros [H _]; discriminate H]].
  destruct (beginsWith "here's a fun fact about" response);
    destruct (beginsWith "did you know that the ocean" response);
    destruct (mentions "this is a placeholder" response);
    destruct (mentions "lorem ipsum" response);
    destruct (mentions "sample data shows" response);
    destruct (mentions "this is sample data" response);
    destruct (mentions "placeholder response" response);
    destruct (mentions "mock analysis" response);
    cbn; split; intros H; try discriminate H; try (repeat split; reflexivity);
    repeat match goal with
           | H : _ /\ _ |- _ => destruct H
           end; discriminate.
Qed.

Lemma validateResponse_accepts_iff_witness :
  ResponseValidator.validateResponse "The mean temperature is 12.3 C (mock-up)." true = true /\
  ResponseValidator.validateResponse "A MOCK Analysis of the gyre." true = false.
Proof.
  split.
  - apply (@validateResponse_accepts_iff "The mean temperature is 12.3 C (mock-up)." true).
    + reflexivity.
    + repeat split; reflexivity.
  - destruct (ResponseValidator.validateResponse "A MOCK Analysis of the gyre." true) eqn:E;
      [|reflexivity].
    apply (@validateResponse_accepts_iff "A MOCK Analysis of the gyre." true) in E.
    + repeat match goal with
             | H : _ /\ _ |- _ => destruct H as [_ H]
             end.
      discriminate E.
    + reflexivity.
Defined.

(** X13. [requiresRealData] accepts no response without a decimal digit
    in it: each of its seven patterns goes through a [\d]. *)
Theorem requiresRealData_needs_a_digit :
  forall response : string,
    RealData.requiresRealData response = true ->
    RealData.hasDigit response = true.
Proof.
  intros response H. unfold RealData.requiresRealData in H.
  apply existsb_exists in H. destruct H as [pattern [Hin Htest]].
  assert (Hneeds : RealData.needsDigit (body pattern) = true).
  { cbn in Hin. repeat (destruct Hin as [<-|Hin]; [reflexivity|]). destruct Hin. }
  unfold test in Htest. destruct (anchored pattern).
  - eapply matchesPrefix_needsDigit; eassumption.
  - eapply matchesSomewhere_needsDigit; eassumption.
Qed.

Lemma requiresRealData_needs_a_digit_witness :
  RealData.requiresRealData "Mean salinity was 35 psu." = true /\
  RealData.hasDigit "Mean salinity was 35 psu." = true.
Proof.
  split.
  - vm_compute. reflexivity.
  - apply (@requiresRealData_needs_a_digit "Mean salinity was 35 psu.").
    vm_compute. reflexivity.
Defined.

Lemma matchesSomewhere_later :
  forall ic r before s,
    matchesSomewhere ic r s = true -> matchesSomewhere ic r (before ++ s) = true.
Proof.
  intros ic r before s H. induction before as [|c before IH]; [exact H|].
  cbn [append matchesSomewhere]. rewrite IH. apply orb_true_r.
Qed.

Lemma matchesPrefix_nullable :
  forall ic r s, nullable r = true -> matchesPrefix ic r s = true.
Proof.
  intros ic r s H. destruct s; cbn [matchesPrefix]; rewrite H; reflexivity.
Qed.

(** X14. The depth pattern of [requiresRealData] is satisfied by any
    digit directly followed by the letter m, in either case, whatever
    comes before and after: a response needs no measurement to pass. *)
Theorem requiresRealData_digit_then_m :
  forall (before after : string) (d m : ascii),
    isDigit d = true ->
    m = "m"%char \/ m = "M"%char ->
    RealData.requiresRealData (before ++ String d (String m after)) = true.
Proof.
  intros before after d m Hd Hm.
  unfold RealData.requiresRealData, RealData.dataPatterns.
  cbn [existsb]. apply orb_true_iff. right. apply orb_true_iff. right.
  apply orb_true_iff. left.
  unfold test, reI. cbn [anchored ignoreCase body].
  apply matchesSomewhere_later.
  cbn [matchesSomewhere]. apply orb_true_iff. left.
  cbn [matchesPrefix seqs RealData.digits nullable deriv andb orb].
  rewrite Hd. cbn [mkSeq].
  apply orb_true_iff. right. apply matchesPrefix_nullable.
  destruct Hm as [->| ->]; vm_compute; reflexivity.
Qed.

Lemma requiresRealData_digit_then_m_witness :
  RealData.requiresRealData "There are 3 main reasons." = true.
Proof.
  exact (@requiresRealData_digit_then_m "There are " "ain reasons." "3"%char "m"%char
           eq_refl (or_introl eq_refl)).
Defined.

(* ================================================================== *)
(** * Properties of the statistics and of the visualization *)
(* ================================================================== *)

Lemma numLe_refl : forall a, a <> NaN -> numLe a a = true.
Proof.
  intros [| | |q] H; cbn; try reflexivity; [congruence|].
  apply Qle_bool_iff. apply Qle_refl.
Qed.

Lemma numLe_total :
  forall a b, a <> NaN -> b <> NaN -> numLe a b = false -> numLe b a = true.
Proof.
  intros [| | |x] [| | |y] Ha Hb H; cbn in *; try congruence.
  apply Qle_bool_iff. destruct (Qlt_le_dec y x) as [Hlt|Hle].
  - apply Qlt_le_weak. exact Hlt.
  - apply Qle_bool_iff in Hle. congruence.
Qed.

Lemma numLe_trans :
  forall a b c, numLe a b = true -> numLe b c = true -> numLe a c = true.
Proof.
  intros [| | |x] [| | |y] [| | |z] H1 H2; cbn in *; try congruence.
  apply Qle_bool_iff. apply Qle_bool_iff in H1. apply Qle_bool_iff in H2.
  eapply Qle_trans; eassumption.
Qed.

Lemma numMin_cases :
  forall a b, a <> NaN -> b <> NaN ->
    Analysis.numMin a b <> NaN /\
    numLe (Analysis.numMin a b) a = true /\ numLe (Analysis.numMin a b) b = true /\
    (Analysis.numMin a b = a \/ Analysis.numMin a b = b).
Proof.
  intros a b Ha Hb.
  assert (Hmin : Analysis.numMin a b = if numLe a b then a else b).
  { destruct a, b; try reflexivity; congruence. }
  rewrite Hmin. destruct (numLe a b) eqn:Hle.
  - repeat split; auto using numLe_refl.
  - repeat split; auto using numLe_refl, numLe_total.
Qed.

Lemma numMax_cases :
  forall a b, a <> NaN -> b <> NaN ->
    Analysis.numMax a b <> NaN /\
    numLe a (Analysis.numMax a b) = true /\ numLe b (Analysis.numMax a b) = true /\
    (Analysis.numMax a b = a \/ Analysis.numMax a b = b).
Proof.
  intros a b Ha Hb.
  assert (Hmax : Analysis.numMax a b = if numLe a b then b else a).
  { destruct a, b; try reflexivity; congruence. }
  rewrite Hmax. destruct (numLe a b) eqn:Hle.
  - repeat split; auto using numLe_refl.
  - repeat split; auto using numLe_refl, numLe_total.
Qed.

(** The least of a list of values none of which is NaN. *)
Lemma Math_min_least :
  forall values : list JSValue,
    (forall v, In v values -> toNumber v <> NaN) ->
    Analysis.Math_min values <> NaN /\
    (forall v, In v values -> numLe (Analysis.Math_min values) (toNumber v) = true) /\
    (values <> [] -> exists v, In v values /\ toNumber v = Analysis.Math_min values).
Proof.
  induction values as [|v rest IH]; intros Hnum.
  - cbn. split; [discriminate|]. split; [intros v []|]. intros H. congruence.
  - destruct IH as [Hrest [Hleast Hattained]].
    { intros u Hu. apply Hnum. right. exact Hu. }
    cbn [Analysis.Math_min fold_right].
    change (fold_right (fun v least => Analysis.numMin (toNumber v) least)
                       PosInfinity rest) with (Analysis.Math_min rest).
    destruct (@numMin_cases (toNumber v) (Analysis.Math_min rest))
      as [Hn [Hl1 [Hl2 Hwhich]]]; [apply Hnum; left; reflexivity | exact Hrest |].
    split; [exact Hn|]. split.
    + intros u [<-|Hu]; [exact Hl1|].
      eapply numLe_trans; [exact Hl2 | apply Hleast; exact Hu].
    + intros _. destruct Hwhich as [Hw|Hw].
      * exists v. split; [left; reflexivity | symmetry; exact Hw].
      * destruct rest as [|u rest'].
        -- cbn in Hw |- *. exists v. split; [left; reflexivity|].
           cbn in Hl1. destruct (toNumber v); cbn in *; congruence.
        -- destruct Hattained as [m [Hin Hm]]; [discriminate|].
           exists m. split; [right; exact Hin | congruence].
Qed.

Lemma Math_max_most :
  forall values : list JSValue,
    (forall v, In v values -> toNumber v <> NaN) ->
    Analysis.Math_max values <> NaN /\
    (forall v, In v values -> numLe (toNumber v) (Analysis.Math_max values) = true) /\
    (values <> [] -> exists v, In v values /\ toNumber v = Analysis.Math_max values).
Proof.
  induction values as [|v rest IH]; intros Hnum.
  - cbn. split; [discriminate|]. split; [intros v []|]. intros H. congruence.
  - destruct IH as [Hrest [Hmost Hattained]].
    { intros u Hu. apply Hnum. right. exact Hu. }
    cbn [Analysis.Math_max fold_right].
    change (fold_right (fun v most => Analysis.numMax (toNumber v) most)
                       NegInfinity rest) with (Analysis.Math_max rest).
    destruct (@numMax_cases (toNumber v) (Analysis.Math_max rest))
      as [Hn [Hl1 [Hl2 Hwhich]]]; [apply Hnum; left; reflexivity | exact Hrest |].
    split; [exact Hn|]. split.
    + intros u [<-|Hu]; [exact Hl1|].
      eapply numLe_trans; [apply Hmost; exact Hu | exact Hl2].
    + intros _. destruct Hwhich as [Hw|Hw].
      * exists v. split; [left; reflexivity | symmetry; exact Hw].
      * destruct rest as [|u rest'].
        -- cbn in Hw |- *. exists v. split; [left; reflexivity|].
           cbn in Hl1. destruct (toNumber v); cbn in *; congruence.
        -- destruct Hattained as [m [Hin Hm]]; [discriminate|].
           exists m. split; [right; exact Hin | congruence].
Qed.

(** X15. For data that is not empty and whose depths are all numbers,
    the depth range of [calculateBasicStats] brackets every profile's depth
    and both of its ends are depths of profiles; the profile count is the
    number of profiles. *)
Theorem calculateBasicStats_depth_range :
  forall data : DataResult,
    profiles data <> [] ->
    (forall p, In p (profiles data) -> toNumber (depth p) <> NaN) ->
    exists r,
      Analysis.depthRange (Analysis.calculateBasicStats data) = Some r /\
      (forall p, In p (profiles data) ->
                 numLe (Analysis.min r) (toNumber (depth p)) = true /\
                 numLe (toNumber (depth p)) (Analysis.max r) = true) /\
      (exists p, In p (profiles data) /\ toNumber (depth p) = Analysis.min r) /\
      (exists p, In p (profiles data) /\ toNumber (depth p) = Analysis.max r) /\
      Analysis.profileCount (Analysis.calculateBasicStats data)
      = List.length (profiles data).
Proof.
  intros data Hsome Hnum.
  assert (Hvalues : forall v, In v (map depth (profiles data)) -> toNumber v <> NaN).
  { intros v Hv. apply in_map_iff in Hv. destruct Hv as [p [<- Hp]]. apply Hnum, Hp. }
  assert (Hnonempty : map depth (profiles data) <> []).
  { destruct (profiles data); [congruence | discriminate]. }
  destruct (Math_min_least _ Hvalues) as [_ [Hleast Hmin]].
  destruct (Math_max_most _ Hvalues) as [_ [Hmost Hmax]].
  exists (Analysis.mkDepthRange (Analysis.Math_min (map depth (profiles data)))
                                (Analysis.Math_max (map depth (profiles data)))).
  unfold Analysis.calculateBasicStats.
  cbn [Analysis.depthRange Analysis.profileCount Analysis.min Analysis.max].
  split.
  { destruct (map depth (profiles data)); [congruence | reflexivity]. }
  split.
  { intros p Hp. split; [apply Hleast | apply Hmost]; apply in_map; exact Hp. }
  split.
  { destruct (Hmin Hnonempty) as [v [Hv Heq]].
    apply in_map_iff in Hv. destruct Hv as [p [<- Hp]]. exists p. split; assumption. }
  split; [|reflexivity].
  destruct (Hmax Hnonempty) as [v [Hv Heq]].
  apply in_map_iff in Hv. destruct Hv as [p [<- Hp]]. exists p. split; assumption.
Qed.

Lemma calculateBasicStats_depth_range_witness :
  exists r,
    Analysis.depthRange (Analysis.calculateBasicStats Soundings.threeCasts) = Some r /\
    Analysis.min r = Fin 5 /\ Analysis.max r = Fin 1200.
Proof.
  destruct (@calculateBasicStats_depth_range Soundings.threeCasts) as [r [Hr _]].
  - discriminate.
  - intros p [<-|[<-|[<-|[]]]]; discriminate.
  - exists r. split; [exact Hr|].
    cbv in Hr. inversion Hr. split; reflexivity.
Defined.

(** ** The averages *)

(** The values that enter an average are the fields of the profiles that
    have one. *)
Lemma defined_fields :
  forall (field : Profile -> JSValue) (rows : list Profile),
    filter (fun v => negb (isUndefined v)) (map field rows)
    = map field (filter (fun p => negb (isUndefined (field p))) rows).
Proof.
  intros field rows. induction rows as [|p rows IH]; [reflexivity|].
  cbn [map filter]. destruct (negb (isUndefined (field p))); cbn [map]; rewrite IH; reflexivity.
Qed.

Lemma filter_twice :
  forall (A : Type) (keep : A -> bool) (l : list A),
    filter keep (filter keep l) = filter keep l.
Proof.
  intros A keep l. induction l as [|x l IH]; [reflexivity|].
  cbn [filter]. destruct (keep x) eqn:E; [|exact IH].
  cbn [filter]. rewrite E, IH. reflexivity.
Qed.

Lemma no_defined_field :
  forall (field : Profile -> JSValue) (rows : list Profile),
    filter (fun v => negb (isUndefined v)) (map field rows) = [] <->
    (forall p, In p rows -> field p = JUndefined).
Proof.
  intros field rows. induction rows as [|p rows IH].
  - split; [intros _ q [] | reflexivity].
  - cbn [map filter]. destruct (field p) eqn:E; cbn [isUndefined negb].
    + rewrite IH. split.
      * intros H q [<-|Hq]; [exact E | apply H; exact Hq].
      * intros H q Hq. apply H. right. exact Hq.
    + split; [discriminate|]. intros H. specialize (H p (or_introl eq_refl)). congruence.
    + split; [discriminate|]. intros H. specialize (H p (or_introl eq_refl)). congruence.
Qed.

Lemma average_none :
  forall values, Analysis.average values = None <-> values = [].
Proof.
  intros [|v rest]; cbn; split; intros H; try reflexivity; discriminate H.
Qed.

Lemma average_single :
  forall t : Q,
    exists a, Analysis.average [JNumber (Fin t)] = Some (Fin a) /\ a == t.
Proof.
  intros t. eexists. split; [reflexivity|]. cbn [List.length].
  change (inject_Z (Z.of_nat 1)) with 1. field.
Qed.

Lemma plus_NaN_left :
  forall rest, fold_left Analysis.plus rest (JNumber NaN) = JNumber NaN.
Proof.
  induction rest as [|v rest IH]; [reflexivity|]. cbn [fold_left]. exact IH.
Qed.

Lemma plus_NaN_right :
  forall rest first,
    In (JNumber NaN) rest -> fold_left Analysis.plus rest first = JNumber NaN.
Proof.
  induction rest as [|v rest IH]; intros first Hin; [destruct Hin|].
  cbn [fold_left]. destruct Hin as [->|Hin].
  - unfold Analysis.plus at 2. cbn [toNumber].
    replace (numAdd (toNumber first) NaN) with NaN by (destruct (toNumber first); reflexivity).
    apply plus_NaN_left.
  - apply IH. exact Hin.
Qed.

(** One value that is not a number spoils the average. *)
Lemma average_NaN :
  forall values, In (JNumber NaN) values -> Analysis.average values = Some NaN.
Proof.
  intros [|first rest] Hin; [destruct Hin|].
  unfold Analysis.average, Analysis.reduceSum, Analysis.divideBy.
  destruct Hin as [->|Hin].
  - rewrite plus_NaN_left. reflexivity.
  - rewrite (plus_NaN_right rest first Hin). reflexivity.
Qed.

Lemma average_of_fields :
  forall (field : Profile -> JSValue) (rows : list Profile),
    let present := fun p => negb (isUndefined (field p)) in
    let average := fun l =>
      Analysis.average (filter (fun v => negb (isUndefined v)) (map field l)) in
    (average rows = None <-> (forall p, In p rows -> field p = JUndefined)) /\
    average (filter present rows) = average rows /\
    (forall p t, filter present rows = [p] -> field p = JNumber (Fin t) ->
                 exists a, average rows = Some (Fin a) /\ a == t) /\
    ((exists p, In p rows /\ field p = JNumber NaN) -> average rows = Some NaN).
Proof.
  intros field rows present average. subst average. cbv beta. repeat split.
  - intros H. apply no_defined_field. apply average_none. exact H.
  - intros H. apply average_none. apply no_defined_field. exact H.
  - rewrite !defined_fields. fold present. rewrite filter_twice. reflexivity.
  - intros p t Hone Ht. rewrite defined_fields. fold present. rewrite Hone.
    cbn [map]. rewrite Ht. apply average_single.
  - intros [p [Hp Hnan]]. apply average_NaN. apply filter_In. split.
    + rewrite <- Hnan. apply in_map. exact Hp.
    + reflexivity.
Qed.

(** X16. What enters the averages of [calculateBasicStats].
    [avgTemperature] is [undefined] exactly when no profile has a
    temperature.  Profiles without a temperature do not count: leaving
    them out of the data leaves [avgTemperature] as it is (they are not
    counted as zero).  When exactly one profile has a temperature, a finite
    number, that number is the average.  A temperature that is [NaN] makes
    the average [NaN].  The same holds of [avgSalinity].  None of this
    rests on how sums and quotients are rounded. *)
Theorem calculateBasicStats_average_of_present :
  forall data : DataResult,
    ((Analysis.avgTemperature (Analysis.calculateBasicStats data) = None <->
      (forall p, In p (profiles data) -> temperature p = JUndefined)) /\
     Analysis.avgTemperature
       (Analysis.calculateBasicStats (Analysis.only Analysis.hasTemperature data))
     = Analysis.avgTemperature (Analysis.calculateBasicStats data) /\
     (forall p t,
        filter Analysis.hasTemperature (profiles data) = [p] ->
        temperature p = JNumber (Fin t) ->
        exists a, Analysis.avgTemperature (Analysis.calculateBasicStats data) = Some (Fin a) /\
                  a == t) /\
     ((exists p, In p (profiles data) /\ temperature p = JNumber NaN) ->
      Analysis.avgTemperature (Analysis.calculateBasicStats data) = Some NaN)) /\
    ((Analysis.avgSalinity (Analysis.calculateBasicStats data) = None <->
      (forall p, In p (profiles data) -> salinity p = JUndefined)) /\
     Analysis.avgSalinity
       (Analysis.calculateBasicStats (Analysis.only Analysis.hasSalinity data))
     = Analysis.avgSalinity (Analysis.calculateBasicStats data) /\
     (forall p s,
        filter Analysis.hasSalinity (profiles data) = [p] ->
        salinity p = JNumber (Fin s) ->
        exists a, Analysis.avgSalinity (Analysis.calculateBasicStats data) = Some (Fin a) /\
                  a == s) /\
     ((exists p, In p (profiles data) /\ salinity p = JNumber NaN) ->
      Analysis.avgSalinity (Analysis.calculateBasicStats data) = Some NaN)).
Proof.
  intros data. split.
  - exact (average_of_fields temperature (profiles data)).
  - exact (average_of_fields salinity (profiles data)).
Qed.

Lemma calculateBasicStats_average_of_present_witness :
  exists a,
    Analysis.avgTemperature (Analysis.calculateBasicStats Soundings.sparseCasts)
    = Some (Fin a) /\ a == 123 # 10.
Proof.
  destruct (calculateBasicStats_average_of_present Soundings.sparseCasts)
    as [[_ [_ [Hone _]]] _].
  apply (Hone (Soundings.cast 41 (-61) 5 (JNumber (Fin (123 # 10))) JUndefined) (123 # 10)).
  - reflexivity.
  - reflexivity.
Defined.

(** Whatever [retrieveData] returns comes from the guard, from the
    fetch, or from the [catch] block. *)
Lemma retrieveData_origin :
  forall P config intent w d w',
    retrieveData P config intent w = (Normal d, w') ->
    d = skippedResult \/
    (exists request tr rg,
        fetchProfiles P request tr rg w = (Normal d, w')) \/
    (exists request tr rg error w0,
        fetchProfiles P request tr rg w = (Throw error, w0) /\
        recover P (region intent) (timeRange intent) tr rg error w0 = (Normal d, w')).
Proof.
  intros P config intent w d w' H.
  unfold retrieveData in H.
  destruct (region intent) as [r|] eqn:Hr; destruct (timeRange intent) as [tr|] eqn:Ht;
    [ | | | inversion H; left; reflexivity ];
    unfold bind at 1, Date_now in H;
    unfold bind at 1, liftC at 1 in H;
    (destruct (toISOString P (newDateNumber (Fin (inject_Z (now w - yearMs)))));
       [|discriminate]);
    unfold bind at 1, liftC at 1 in H;
    (destruct (toISOString P (newDateNumber (Fin (inject_Z (now w)))));
       [|discriminate]);
    cbv zeta in H; unfold bind at 1 in H;
    (destruct (URL_canParse P (argovisBaseUrl config ++ "/argo")); cbn [ret throw] in H;
       [|discriminate]);
    unfold tryCatch in H;
    match type of H with
    | context [fetchProfiles ?P ?rq ?t ?g w] =>
        destruct (fetchProfiles P rq t g w) as [[d0|e] w0] eqn:Hfetch
    end;
    right;
    [ left; inversion H; subst; eexists; eexists; eexists; exact Hfetch
    | right; eexists; eexists; eexists; exists e, w0; split; [exact Hfetch | exact H]
    | left; inversion H; subst; eexists; eexists; eexists; exact Hfetch
    | right; eexists; eexists; eexists; exists e, w0; split; [exact Hfetch | exact H]
    | left; inversion H; subst; eexists; eexists; eexists; exact Hfetch
    | right; eexists; eexists; eexists; exists e, w0; split; [exact Hfetch | exact H] ].
Qed.

Lemma valid_located :
  forall p, validProfile p = true -> Visualization.located p = true.
Proof.
  intros p H. unfold validProfile in H.
  repeat (apply andb_true_iff in H; destruct H as [H ?]).
  unfold Visualization.located.
  destruct (lat p); try discriminate. destruct (lon p); try discriminate.
  reflexivity.
Qed.

Lemma syntheticProfile_located :
  forall P idPrefix maxDepth b range i w p w',
    FailureHandler.syntheticProfile P idPrefix maxDepth b range i w = (Normal p, w') ->
    Visualization.located p = true.
Proof.
  intros P idPrefix maxDepth b range i w p w' H.
  unfold FailureHandler.syntheticProfile, bind, Math_random, liftC, ret, throw in H.
  cbn [random drawn now network requests] in H.
  destruct range as [[s e]|]; [|discriminate].
  match type of H with
  | context [toISOString ?P ?d] => destruct (toISOString P d); [|discriminate]
  end.
  inversion H. reflexivity.
Qed.

Lemma forCollect_all :
  forall (S A : Type) (good : A -> bool) (body : nat -> M S A),
    (forall i s a s', body i s = (Normal a, s') -> good a = true) ->
    forall n i s l s',
      forCollect n i body s = (Normal l, s') ->
      forallb good l = true /\ List.length l = n.
Proof.
  intros S A good body Hbody. induction n as [|n IH]; intros i s l s' H.
  - inversion H. split; reflexivity.
  - cbn [forCollect] in H. unfold bind at 1 in H.
    destruct (body i s) as [[a|e] s1] eqn:Ha; [|discriminate].
    unfold bind at 1 in H.
    destruct (forCollect n (Datatypes.S i) body s1) as [[l1|e] s2] eqn:Hl; [|discriminate].
    inversion H; subst. destruct (IH _ _ _ _ Hl) as [Hall Hlen].
    cbn. rewrite (Hbody _ _ _ _ Ha), Hall, Hlen. split; reflexivity.
Qed.

Lemma fallbackForRegion_located :
  forall P region timeRange w d w',
    FailureHandler.generateFallbackDataForRegion P region timeRange w = (Normal d, w') ->
    isEmpty d = false /\ forallb Visualization.located (profiles d) = true /\
    List.length (profiles d) = 30%nat.
Proof.
  intros P region timeRange w d w' H.
  unfold FailureHandler.generateFallbackDataForRegion in H.
  destruct region as [r|]; [|discriminate].
  unfold bind in H.
  match type of H with
  | context [forCollect 30 0 ?body w] =>
      destruct (forCollect 30 0 body w) as [[l|e] w1] eqn:Hl; [|discriminate];
      destruct (@forCollect_all World Profile Visualization.located body) with
        (n := 30%nat) (i := 0%nat) (s := w) (l := l) (s' := w1) as [Hall Hlen];
      [ intros i s a s' Ha; eapply syntheticProfile_located; exact Ha
      | exact Hl | ]
  end.
  destruct timeRange; [|discriminate].
  inversion H. cbn. repeat split; assumption.
Qed.

(** What [retrieveData] returns is flagged empty, or holds at least one
    profile and only profiles with a position. *)
Lemma retrieveData_located :
  forall P config intent w d w',
    retrieveData P config intent w = (Normal d, w') ->
    isEmpty d = true \/
    (isEmpty d = false /\ profiles d <> [] /\
     forallb Visualization.located (profiles d) = true).
Proof.
  intros P config intent w d w' H.
  destruct (retrieveData_origin _ _ _ _ H)
    as [->|[[request [tr [rg Hfetch]]]|[request [tr [rg [error [w0 [_ Hrecover]]]]]]]].
  - left. reflexivity.
  - apply fetchProfiles_normal in Hfetch.
    destruct Hfetch as [response [raws [_ [_ [_ [_ [Hprofiles [Hempty _]]]]]]]].
    destruct (isEmpty d) eqn:He; [left; reflexivity | right].
    split; [reflexivity|]. split.
    + intros Hnil. rewrite Hnil in Hempty. discriminate.
    + rewrite Hprofiles. apply forallb_forall. intros p Hp.
      apply filter_In in Hp. apply valid_located. apply Hp.
  - unfold recover in Hrecover. destruct (isAbortError error).
    + apply fallbackForRegion_located in Hrecover.
      destruct Hrecover as [He [Hall Hlen]]. right.
      split; [exact He|]. split; [|exact Hall].
      intros Hnil. rewrite Hnil in Hlen. discriminate.
    + inversion Hrecover. left. reflexivity.
Qed.

(** X17. Data returned by [retrieveData] is never drawn as a scatter
    plot: [generateVisualization] answers with the fixed "no data"
    specification when the result is flagged empty, and otherwise with a
    three.js specification over the very profiles retrieved, a 3D plot in
    power mode with more than ten profiles and a map in every other case. *)
Theorem retrieved_data_is_mapped :
  forall (P : Platform) (config : PipelineConfig) (intent : IntentResult)
         (w w' : World) (d : DataResult) (analysis : Analysis.AnalysisResult),
    retrieveData P config intent w = (Normal d, w') ->
    (isEmpty d = true /\
     Visualization.generateVisualization P d analysis intent
     = Visualization.nothingToShow) \/
    (isEmpty d = false /\
     Visualization.library (Visualization.generateVisualization P d analysis intent)
     = Visualization.THREE /\
     Visualization.data (Visualization.generateVisualization P d analysis intent)
     = Visualization.Rows (profiles d) /\
     Visualization.type (Visualization.generateVisualization P d analysis intent)
     = (if (isPower (mode intent) && Nat.ltb 10 (List.length (profiles d)))%bool
        then PLOT3D else MAP)).
Proof.
  intros P config intent w w' d analysis H.
  destruct (retrieveData_located _ _ _ _ H) as [He|[He [Hsome Hall]]].
  - left. split; [exact He|].
    unfold Visualization.generateVisualization. rewrite He. reflexivity.
  - right. split; [exact He|].
    unfold Visualization.generateVisualization, determineVisualizationType.
    rewrite He.
    destruct (isPower (mode intent) && Nat.ltb 10 (List.length (profiles d)))%bool.
    + repeat split.
    + assert (Hex : existsb (fun p => (negb (isUndefined (lat p))
                                       && negb (isUndefined (lon p)))%bool)
                            (profiles d) = true).
      { destruct (profiles d) as [|p rest]; [congruence|].
        cbn in Hall |- *. apply andb_true_iff in Hall. destruct Hall as [Hp _].
        unfold Visualization.located in Hp. rewrite Hp. reflexivity. }
      rewrite Hex. repeat split.
Qed.

Lemma retrieved_data_is_mapped_witness :
  Visualization.type
    (Visualization.generateVisualization Runtime.platform
       (fst (Soundings.retrieved)) Soundings.noAnalysis Fixtures.atlantic2020) = MAP.
Proof.
  destruct (@retrieved_data_is_mapped Runtime.platform Fixtures.config
              Fixtures.atlantic2020 Fixtures.answeredWorld
              (snd Soundings.retrieved) (fst Soundings.retrieved)
              Soundings.noAnalysis) as [[He _]|[_ [_ [_ Htype]]]].
  - vm_compute. reflexivity.
  - vm_compute in He. discriminate He.
  - rewrite Htype. vm_compute. reflexivity.
Defined.

(** X18. Of what the schema of a visualization allows, the pipeline
    uses only part: whatever the analysis, the intent and the data,
    [generateAdaptiveVisualization] never answers with a heat map nor with
    the leaflet library, it names three.js exactly for maps and 3D plots
    (and plotly for charts), it always gives a fallback text, and the rows
    it passes on are the profiles of the data unless it passes none. *)
Theorem generateAdaptiveVisualization_range :
  forall (P : Platform) (analysis : Analysis.AnalysisResult) (intent : IntentResult)
         (data : DataResult),
    Visualization.type
      (Visualization.generateAdaptiveVisualization P analysis intent data) <> HEATMAP /\
    Visualization.library
      (Visualization.generateAdaptiveVisualization P analysis intent data)
    <> Visualization.LEAFLET /\
    (Visualization.library
       (Visualization.generateAdaptiveVisualization P analysis intent data)
     = Visualization.THREE <->
     Visualization.type
       (Visualization.generateAdaptiveVisualization P analysis intent data) <> CHART) /\
    Visualization.fallbackText
      (Visualization.generateAdaptiveVisualization P analysis intent data) <> None /\
    (Visualization.data
       (Visualization.generateAdaptiveVisualization P analysis intent data)
     = Visualization.Rows (profiles data) \/
     Visualization.data
       (Visualization.generateAdaptiveVisualization P analysis intent data)
     = Visualization.Rows [] \/
     Visualization.data
       (Visualization.generateAdaptiveVisualization P analysis intent data)
     = Visualization.NoRows).
Proof.
  intros P analysis intent data.
  unfold Visualization.generateAdaptiveVisualization,
    Visualization.generateVisualization, determineVisualizationType.
  destruct (queryType intent); destruct (Analysis.hasRealData analysis);
    destruct (isEmpty data);
    destruct (isPower (mode intent) && Nat.ltb 10 (List.length (profiles data)))%bool;
    match goal with
    | |- context [existsb ?f (profiles data)] => destruct (existsb f (profiles data))
    | _ => idtac
    end;
    cbn; repeat split; try discriminate; try congruence; auto.
Qed.

(* ================================================================== *)
(** * Properties of the provider clients *)
(* ================================================================== *)

Section ClientProperties.

Import Wire.

(** The availability probe of the Groq client, by what the network does. *)
Lemma groq_isAvailable_run :
  forall (apiKey : string) (e : Net),
    GroqProvider.isAvailable apiKey e =
    match wire e (List.length (sent e)) (GroqProvider.probe apiKey) with
    | Normal response =>
        (Normal (ok response),
         mkNet (ticks e) (3 + reads e) (wire e) (sent e ++ [GroqProvider.probe apiKey])
           (mkHealth (ok response)
              (if ok response then None
               else Some ("HTTP " ++ MCPOrchestrator.zToString (status response)
                          ++ ": " ++ statusText response)%string)
              (ticks e (2 + reads e))
              (Some (ticks e (1 + reads e) - ticks e (reads e))%Z))
           (hfHealth e))
    | Throw error =>
        (Normal false,
         mkNet (ticks e) (2 + reads e) (wire e) (sent e ++ [GroqProvider.probe apiKey])
           (mkHealth false (Some (LLMProviderController.errorMessageOf error))
              (ticks e (1 + reads e)) None)
           (hfHealth e))
    end.
Proof.
  intros apiKey e.
  unfold GroqProvider.isAvailable, tryCatch, bind, Date_now, fetch, setHealth, modify, ret.
  cbn [ticks reads wire sent groqHealth hfHealth].
  destruct (wire e (List.length (sent e)) (GroqProvider.probe apiKey))
    as [response|error]; reflexivity.
Qed.

Lemma hf_isAvailable_run :
  forall (trim : string -> string) (apiKey : string) (e : Net),
    HuggingFaceProvider.isAvailable apiKey e =
    match wire e (List.length (sent e)) (HuggingFaceProvider.probe apiKey) with
    | Normal response =>
        (Normal (ok response || Z.eqb (status response) 503)%bool,
         mkNet (ticks e) (3 + reads e) (wire e)
           (sent e ++ [HuggingFaceProvider.probe apiKey])
           (groqHealth e)
           (mkHealth (ok response || Z.eqb (status response) 503)%bool
              (if (ok response || Z.eqb (status response) 503)%bool then None
               else Some ("HTTP " ++ MCPOrchestrator.zToString (status response)
                          ++ ": " ++ statusText response)%string)
              (ticks e (2 + reads e))
              (Some (ticks e (1 + reads e) - ticks e (reads e))%Z)))
    | Throw error =>
        (Normal false,
         mkNet (ticks e) (2 + reads e) (wire e)
           (sent e ++ [HuggingFaceProvider.probe apiKey])
           (groqHealth e)
           (mkHealth false (Some (LLMProviderController.errorMessageOf error))
              (ticks e (1 + reads e)) None))
    end.
Proof.
  intros trim apiKey e.
  unfold HuggingFaceProvider.isAvailable, tryCatch, bind, Date_now, fetch, setHealth,
    modify, ret.
  cbn [ticks reads wire sent groqHealth hfHealth].
  destruct (wire e (List.length (sent e)) (HuggingFaceProvider.probe apiKey))
    as [response|error]; reflexivity.
Qed.

Import ClientFacts.

(** The state a probe leaves behind. *)
Lemma isAvailable_run :
  forall (trim : string -> string) (p : ProviderType) (apiKey : string) (e : Net),
    exists h : ProviderHealthStatus,
      LLMProvider.isAvailable (Construction.clientFor trim p apiKey) e
      = (Normal (isHealthy h),
         match p with
         | GROQ => mkNet (ticks e)
                     (match wire e (List.length (sent e)) (probeOf p apiKey) with
                      | Normal _ => 3 + reads e | Throw _ => 2 + reads e end)%nat
                     (wire e) (sent e ++ [probeOf p apiKey]) h (hfHealth e)
         | HUGGINGFACE => mkNet (ticks e)
                     (match wire e (List.length (sent e)) (probeOf p apiKey) with
                      | Normal _ => 3 + reads e | Throw _ => 2 + reads e end)%nat
                     (wire e) (sent e ++ [probeOf p apiKey]) (groqHealth e) h
         end) /\
      lastError h = probeFailure p (wire e (List.length (sent e)) (probeOf p apiKey)) /\
      (isHealthy h = true <-> lastError h = None).
Proof.
  intros trim p apiKey e. destruct p; cbn [Construction.clientFor LLMProvider.isAvailable
    GroqProvider.client HuggingFaceProvider.client probeOf].
  - rewrite groq_isAvailable_run.
    destruct (wire e (List.length (sent e)) (GroqProvider.probe apiKey))
      as [response|error]; cbn [probeFailure passes].
    + eexists (mkHealth _ _ _ _). split; [reflexivity|]. cbn [lastError isHealthy].
      destruct (ok response); split; try reflexivity; split; intros H;
        try reflexivity; discriminate H.
    + eexists (mkHealth _ _ _ _). split; [reflexivity|]. cbn [lastError isHealthy].
      split; [reflexivity|]. split; intros H; discriminate H.
  - rewrite (hf_isAvailable_run trim).
    destruct (wire e (List.length (sent e)) (HuggingFaceProvider.probe apiKey))
      as [response|error]; cbn [probeFailure passes].
    + eexists (mkHealth _ _ _ _). split; [reflexivity|]. cbn [lastError isHealthy].
      destruct (ok response || Z.eqb (status response) 503)%bool;
        split; try reflexivity; split; intros H; try reflexivity; discriminate H.
    + eexists (mkHealth _ _ _ _). split; [reflexivity|]. cbn [lastError isHealthy].
      split; [reflexivity|]. split; intros H; discriminate H.
Qed.

(** A call of a client's [generateResponse], by the outcome of its
    probe. *)
Lemma generateResponse_cases :
  forall (trim : string -> string) (p : ProviderType) (apiKey prompt : string) (e : Net),
    match probeFailure p (wire e (List.length (sent e)) (probeOf p apiKey)) with
    | Some reason =>
        exists e',
          LLMProvider.generateResponse (Construction.clientFor trim p apiKey) prompt e
          = (Throw (newError (displayName p ++ " provider is not available: "
                              ++ reason)%string), e') /\
          sent e' = sent e ++ [probeOf p apiKey] /\
          wire e' = wire e /\ ticks e' = ticks e /\
          otherHealth p e' = otherHealth p e /\
          isHealthy (health p e') = false /\
          lastError (health p e') = Some reason
    | None =>
        exists r e',
          LLMProvider.generateResponse (Construction.clientFor trim p apiKey) prompt e
          = (r, e') /\
          sent e' = sent e ++ [probeOf p apiKey; completionOf p apiKey prompt] /\
          wire e' = wire e /\ ticks e' = ticks e /\
          otherHealth p e' = otherHealth p e /\
          match r with
          | Normal response =>
              isHealthy (health p e') = true /\
              lastError (health p e') = None /\
              provider response = providerTypeString p
          | Throw error =>
              isHealthy (health p e') = false /\
              lastError (health p e')
              = Some (LLMProviderController.errorMessageOf error)
          end
    end.
Proof.
  intros trim p apiKey prompt e. destruct p;
    cbn [Construction.clientFor LLMProvider.generateResponse
         GroqProvider.client HuggingFaceProvider.client probeOf completionOf
         displayName otherHealth health].
  - assert (Hrun := groq_isAvailable_run apiKey e).
    destruct (wire e (List.length (sent e)) (GroqProvider.probe apiKey))
      as [response|error] eqn:Hprobe; cbn [probeFailure passes].
    + destruct (ok response) eqn:Hok.
      * unfold GroqProvider.generateResponse, bind. rewrite Hrun. cbn [negb].
        unfold tryCatch, GroqProvider.complete, bind, fetch.
        cbn [ticks reads wire sent groqHealth hfHealth].
        destruct (wire e (List.length (sent e ++ [GroqProvider.probe apiKey]))
                       (GroqProvider.completion apiKey prompt))
          as [answer|error] eqn:Hanswer.
        -- destruct (ok answer) eqn:Hok2; cbn [negb].
           ++ unfold liftC. destruct (chat answer) as [[message|content usage]|error];
                (eexists; eexists; split; [reflexivity|];
                 cbn; rewrite <- app_assoc; repeat split).
           ++ eexists. eexists. split; [reflexivity|].
              cbn. rewrite <- app_assoc. repeat split.
        -- eexists. eexists. split; [reflexivity|].
           cbn. rewrite <- app_assoc. repeat split.
      * unfold GroqProvider.generateResponse, bind. rewrite Hrun. cbn [negb].
        eexists. split; [reflexivity|]. cbn. repeat split.
    + unfold GroqProvider.generateResponse, bind. rewrite Hrun. cbn [negb].
      eexists. split; [reflexivity|]. cbn. repeat split.
  - assert (Hrun := hf_isAvailable_run trim apiKey e).
    destruct (wire e (List.length (sent e)) (HuggingFaceProvider.probe apiKey))
      as [response|error] eqn:Hprobe; cbn [probeFailure passes].
    + destruct (ok response || Z.eqb (status response) 503)%bool eqn:Hok.
      * unfold HuggingFaceProvider.generateResponse, bind. rewrite Hrun. cbn [negb].
        unfold tryCatch, HuggingFaceProvider.complete, bind, fetch.
        cbn [ticks reads wire sent groqHealth hfHealth].
        destruct (wire e (List.length (sent e ++ [HuggingFaceProvider.probe apiKey]))
                       (HuggingFaceProvider.completion apiKey prompt))
          as [answer|error] eqn:Hanswer.
        -- destruct (ok answer) eqn:Hok2; cbn [negb].
           ++ unfold liftC.
              destruct (inference answer) as [[message|[|s|]|[|s|]]|error];
                (eexists; eexists; split; [reflexivity|];
                 cbn; rewrite <- app_assoc; repeat split).
           ++ eexists. eexists. split; [reflexivity|].
              cbn. rewrite <- app_assoc. repeat split.
        -- eexists. eexists. split; [reflexivity|].
           cbn. rewrite <- app_assoc. repeat split.
      * unfold HuggingFaceProvider.generateResponse, bind. rewrite Hrun. cbn [negb].
        eexists. split; [reflexivity|]. cbn. repeat split.
    + unfold HuggingFaceProvider.generateResponse, bind. rewrite Hrun. cbn [negb].
      eexists. split; [reflexivity|]. cbn. repeat split.
Qed.

(** X19. The availability probe of either client never throws, makes
    exactly one fetch, and leaves the client's health record in agreement
    with its answer: [isHealthy] is the value returned, and [lastError] is
    set exactly when that value is false.  The other client's record is
    not touched. *)
Theorem isAvailable_records_its_answer :
  forall (trim : string -> string) (p : ProviderType) (apiKey : string) (e : Net),
    exists (b : bool) (e' : Net),
      LLMProvider.isAvailable (Construction.clientFor trim p apiKey) e = (Normal b, e') /\
      isHealthy (LLMProvider.getHealthStatus (Construction.clientFor trim p apiKey) e') = b /\
      lastError (LLMProvider.getHealthStatus (Construction.clientFor trim p apiKey) e')
      = probeFailure p (wire e (List.length (sent e)) (probeOf p apiKey)) /\
      (b = true <->
       lastError (LLMProvider.getHealthStatus (Construction.clientFor trim p apiKey) e')
       = None) /\
      sent e' = sent e ++ [probeOf p apiKey] /\
      otherHealth p e' = otherHealth p e.
Proof.
  intros trim p apiKey e.
  destruct (isAvailable_run trim p apiKey e) as [h [Hrun [Herr Hiff]]].
  exists (isHealthy h). eexists. split; [exact Hrun|].
  destruct p; cbn; repeat split; try assumption; apply Hiff.
Qed.

(** X20. After a call of either client's [generateResponse], the client's
    health record tells how the call ended: it says healthy, with no
    error, exactly when a response was returned; when the call threw, it
    says unhealthy and [lastError] holds the thrown message, or, when the
    probe found the provider unavailable, the reason the thrown message
    ends with.  The other client's record is not touched. *)
Theorem generateResponse_outcome_in_health :
  forall (trim : string -> string) (p : ProviderType) (apiKey prompt : string) (e : Net),
    match LLMProvider.generateResponse (Construction.clientFor trim p apiKey) prompt e with
    | (Normal response, e') =>
        isHealthy (health p e') = true /\
        lastError (health p e') = None /\
        provider response = providerTypeString p /\
        otherHealth p e' = otherHealth p e
    | (Throw error, e') =>
        isHealthy (health p e') = false /\
        (exists reason,
           lastError (health p e') = Some reason /\
           (LLMProviderController.errorMessageOf error = reason \/
            LLMProviderController.errorMessageOf error
            = (displayName p ++ " provider is not available: " ++ reason)%string)) /\
        otherHealth p e' = otherHealth p e
    end.
Proof.
  intros trim p apiKey prompt e.
  assert (H := generateResponse_cases trim p apiKey prompt e).
  destruct (probeFailure p (wire e (List.length (sent e)) (probeOf p apiKey)))
    as [reason|].
  - destruct H as [e' [Hrun [_ [_ [_ [Hother [Hh Hl]]]]]]]. rewrite Hrun.
    split; [exact Hh|]. split; [|exact Hother].
    exists reason. split; [exact Hl|]. right. reflexivity.
  - destruct H as [r [e' [Hrun [_ [_ [_ [Hother Hr]]]]]]]. rewrite Hrun.
    destruct r as [response|error].
    + destruct Hr as [Hh [Hl Hp]]. repeat split; assumption.
    + destruct Hr as [Hh Hl]. split; [exact Hh|]. split; [|exact Hother].
      eexists. split; [exact Hl|]. left. reflexivity.
Qed.

(** X21. When the probe fails (the fetch is rejected, or the status is
    not one the client accepts), [generateResponse] throws "<Name> provider
    is not available: <reason>" and the probe is the only fetch made: the
    prompt is not sent. *)
Theorem generateResponse_unavailable_sends_only_probe :
  forall (trim : string -> string) (p : ProviderType) (apiKey prompt reason : string)
         (e : Net),
    probeFailure p (wire e (List.length (sent e)) (probeOf p apiKey)) = Some reason ->
    exists e',
      LLMProvider.generateResponse (Construction.clientFor trim p apiKey) prompt e
      = (Throw (newError (displayName p ++ " provider is not available: "
                          ++ reason)%string), e') /\
      sent e' = sent e ++ [probeOf p apiKey].
Proof.
  intros trim p apiKey prompt reason e Hfail.
  assert (H := generateResponse_cases trim p apiKey prompt e).
  rewrite Hfail in H. destruct H as [e' [Hrun [Hsent _]]].
  exists e'. split; assumption.
Qed.

Lemma generateResponse_unavailable_sends_only_probe_witness :
  exists e',
    LLMProvider.generateResponse
      (Construction.clientFor Scenarios.trimAscii GROQ "gsk-1") "why?"
      (Scenarios.net Scenarios.refused)
    = (Throw (newError "Groq provider is not available: fetch failed"), e') /\
    sent e' = [GroqProvider.probe "gsk-1"].
Proof.
  exact (@generateResponse_unavailable_sends_only_probe Scenarios.trimAscii GROQ
           "gsk-1" "why?" "fetch failed" (Scenarios.net Scenarios.refused) eq_refl).
Defined.

Lemma truthyString_or_empty :
  forall s : string, (if truthyString s then s else "")%string = s.
Proof.
  intros s. destruct s; reflexivity.
Qed.

(** A HuggingFace call whose probe passes and whose completion is
    answered with a text. *)
Lemma hf_generateResponse_answer :
  forall (trim : string -> string) (apiKey prompt s : string) (e : Net)
         (busy answer : Reply),
    wire e (List.length (sent e)) (HuggingFaceProvider.probe apiKey) = Normal busy ->
    passes HUGGINGFACE busy = true ->
    wire e (Datatypes.S (List.length (sent e)))
         (HuggingFaceProvider.completion apiKey prompt) = Normal answer ->
    ok answer = true ->
    inference answer = Normal (InferenceArray (Text s)) \/
    inference answer = Normal (InferenceObject (Text s)) ->
    exists e',
      HuggingFaceProvider.generateResponse trim apiKey prompt e
      = (Normal (mkProviderResponse (trim s) None "microsoft/DialoGPT-large"
                                    "huggingface"), e') /\
      sent e' = sent e ++ [HuggingFaceProvider.probe apiKey;
                           HuggingFaceProvider.completion apiKey prompt] /\
      isHealthy (hfHealth e') = true /\
      lastError (hfHealth e') = None.
Proof.
  intros trim apiKey prompt s e busy answer Hprobe Hbusy Hanswer Hok Hbody.
  cbn [passes] in Hbusy.
  unfold HuggingFaceProvider.generateResponse, bind.
  rewrite (hf_isAvailable_run trim), Hprobe, Hbusy. cbn [negb].
  unfold tryCatch, HuggingFaceProvider.complete, bind, fetch.
  cbn [ticks reads wire sent groqHealth hfHealth].
  rewrite length_app, Nat.add_1_r, Hanswer, Hok. cbn [negb]. unfold liftC.
  destruct Hbody as [Hbody|Hbody]; rewrite Hbody;
    cbn [HuggingFaceProvider.trimmed]; unfold ret;
    rewrite truthyString_or_empty;
    (eexists; split; [reflexivity|]);
    cbn [sent hfHealth isHealthy lastError]; rewrite <- app_assoc; repeat split.
Qed.

(** X22. A HuggingFace probe answered with status 503 (the model is
    loading) counts as available: the completion request is then sent, and
    when it is answered with a generated text, as the first element of an
    array or as a field of an object, the response carries that text
    trimmed, no usage, and the client stays healthy. *)
Theorem huggingface_loading_still_answers :
  forall (trim : string -> string) (apiKey prompt s : string) (e : Net)
         (busy answer : Reply),
    wire e (List.length (sent e)) (HuggingFaceProvider.probe apiKey) = Normal busy ->
    status busy = 503%Z ->
    wire e (Datatypes.S (List.length (sent e)))
         (HuggingFaceProvider.completion apiKey prompt) = Normal answer ->
    ok answer = true ->
    inference answer = Normal (InferenceArray (Text s)) \/
    inference answer = Normal (InferenceObject (Text s)) ->
    exists e',
      HuggingFaceProvider.generateResponse trim apiKey prompt e
      = (Normal (mkProviderResponse (trim s) None "microsoft/DialoGPT-large"
                                    "huggingface"), e') /\
      sent e' = sent e ++ [HuggingFaceProvider.probe apiKey;
                           HuggingFaceProvider.completion apiKey prompt] /\
      isHealthy (hfHealth e') = true /\
      lastError (hfHealth e') = None.
Proof.
  intros trim apiKey prompt s e busy answer Hprobe Hbusy Hanswer Hok Hbody.
  apply (@hf_generateResponse_answer trim apiKey prompt s e busy answer);
    try assumption.
  cbn [passes]. rewrite Hbusy. apply Bool.orb_true_r.
Qed.

Lemma huggingface_loading_still_answers_witness :
  exists e',
    HuggingFaceProvider.generateResponse Scenarios.trimAscii "hf-1" "why?"
      (Scenarios.net (fun k _ => match k with
                                 | 0%nat => Normal Scenarios.loading
                                 | _ => Normal (Scenarios.generated "  Tides. ")
                                 end))
    = (Normal (mkProviderResponse "Tides." None "microsoft/DialoGPT-large"
                                  "huggingface"), e') /\
    sent e' = [HuggingFaceProvider.probe "hf-1";
               HuggingFaceProvider.completion "hf-1" "why?"].
Proof.
  destruct (@huggingface_loading_still_answers Scenarios.trimAscii "hf-1" "why?"
              "  Tides. "
              (Scenarios.net (fun k _ => match k with
                                         | 0%nat => Normal Scenarios.loading
                                         | _ => Normal (Scenarios.generated "  Tides. ")
                                         end))
              Scenarios.loading (Scenarios.generated "  Tides. ")
              eq_refl eq_refl eq_refl eq_refl (or_introl eq_refl))
    as [e' [Hrun [Hsent _]]].
  exists e'. split; [exact Hrun | exact Hsent].
Defined.

(* ================================================================== *)
(** * Properties of the controller with its own clients *)
(* ================================================================== *)

(** What the constructor does, by the keys it is given. *)
Lemma construct_run :
  forall (trim : string -> string) (groqApiKey huggingFaceApiKey : option string)
         (e : Net),
    exists e',
      Construction.construct trim groqApiKey huggingFaceApiKey e
      = (Normal (Construction.mkController
                   (clients trim (hierarchy groqApiKey huggingFaceApiKey))
                   (Nat.eqb (List.length (hierarchy groqApiKey huggingFaceApiKey)) 0)),
         e') /\
      sent e' = sent e /\ wire e' = wire e /\ ticks e' = ticks e /\
      (forall pk, In pk (hierarchy groqApiKey huggingFaceApiKey) ->
                  isHealthy (health (fst pk) e') = true /\
                  lastError (health (fst pk) e') = None) /\
      (hierarchy groqApiKey huggingFaceApiKey = [] -> e' = e).
Proof.
  intros trim groqApiKey huggingFaceApiKey e.
  unfold Construction.construct, hierarchy, clients.
  destruct (Construction.configured groqApiKey "your_groq_api_key_here") as [k1|];
    destruct (Construction.configured huggingFaceApiKey "your_huggingface_api_key_here")
      as [k2|];
    (eexists; split; [reflexivity|]); cbn; repeat split;
    try discriminate;
    repeat match goal with
           | H : False |- _ => destruct H
           | H : _ \/ _ |- _ => destruct H as [H|H]
           | H : (_, _) = _ |- _ => rewrite <- H
           end;
    reflexivity.
Qed.

Lemma configured_usable :
  forall (key : option string) (placeholder : string),
    match Construction.configured key placeholder with
    | Some k => key = Some k /\ usable key placeholder = true
    | None => usable key placeholder = false
    end.
Proof.
  intros [k|] placeholder; cbn; [|reflexivity].
  destruct (truthyString k && negb (String.eqb k placeholder))%bool; [split|];
    reflexivity.
Qed.

(** X23. The constructor sets up Groq before HuggingFace and leaves out
    a provider whose key is absent, empty or the placeholder of the
    sample configuration; it warns exactly when no provider is left; every
    client starts healthy; and no fetch is made. *)
Theorem construct_hierarchy :
  forall (trim : string -> string) (groqApiKey huggingFaceApiKey : option string)
         (e : Net),
    exists controller e',
      Construction.construct trim groqApiKey huggingFaceApiKey e
      = (Normal controller, e') /\
      map (@LLMProvider.name Net) (Construction.providers controller)
      = (if usable groqApiKey "your_groq_api_key_here" then [GROQ] else [])
        ++ (if usable huggingFaceApiKey "your_huggingface_api_key_here"
            then [HUGGINGFACE] else []) /\
      (Construction.warned controller = true <->
       Construction.providers controller = []) /\
      (forall client, In client (Construction.providers controller) ->
                      isHealthy (LLMProvider.getHealthStatus client e') = true) /\
      sent e' = sent e.
Proof.
  intros trim groqApiKey huggingFaceApiKey e.
  destruct (construct_run trim groqApiKey huggingFaceApiKey e)
    as [e' [Hrun [Hsent [_ [_ [Hhealth _]]]]]].
  eexists. exists e'. split; [exact Hrun|].
  cbn [Construction.providers Construction.warned].
  unfold hierarchy in *.
  assert (H1 := configured_usable groqApiKey "your_groq_api_key_here").
  assert (H2 := configured_usable huggingFaceApiKey "your_huggingface_api_key_here").
  destruct (Construction.configured groqApiKey "your_groq_api_key_here") as [k1|];
    destruct (Construction.configured huggingFaceApiKey "your_huggingface_api_key_here")
      as [k2|];
    repeat match goal with
           | H : _ /\ _ |- _ => destruct H as [_ H]
           end;
    rewrite H1, H2;
    cbn; (split; [reflexivity|]);
    (split; [split; intros H; try reflexivity; discriminate H|]);
    (split; [|exact Hsent]).
  - intros client [<-|[<-|[]]].
    + apply (Hhealth (GROQ, k1)). left. reflexivity.
    + apply (Hhealth (HUGGINGFACE, k2)). right. left. reflexivity.
  - intros client [<-|[]]. apply (Hhealth (GROQ, k1)). left. reflexivity.
  - intros client [<-|[]]. apply (Hhealth (HUGGINGFACE, k2)). left. reflexivity.
  - intros client [].
Qed.

Lemma down_fails :
  forall (p : ProviderType) (outcome : Completion Reply),
    down outcome -> exists reason, probeFailure p outcome = Some reason.
Proof.
  intros p [r|error] Hdown; cbn in *.
  - destruct Hdown as [Hok Hstatus].
    destruct p; cbn; rewrite Hok; cbn.
    + eexists. reflexivity.
    + destruct (Z.eqb_spec (status r) 503) as [Heq|_]; [contradiction|].
      eexists. reflexivity.
  - eexists. reflexivity.
Qed.

(** With every endpoint down, the loop goes through all the clients,
    each one stopping at its probe. *)
Lemma tryProviders_down :
  forall (trim : string -> string) (specs : list (ProviderType * string))
         (prompt lastError : string) (s : LLMProviderController.State Net),
    (forall k c, down (wire (LLMProviderController.env s) k c)) ->
    exists s' added,
      LLMProviderController.tryProviders Wire.clock (clients trim specs) prompt lastError s
      = (Normal FAILURE_MESSAGE, s') /\
      LLMProviderController.failureLog s' = LLMProviderController.failureLog s ++ added /\
      Forall2 unavailableEntry specs added /\
      sent (LLMProviderController.env s')
      = sent (LLMProviderController.env s) ++ probes specs.
Proof.
  intros trim specs. induction specs as [|[p apiKey] rest IH];
    intros prompt lastError s Hdown.
  - eexists. exists []. split; [reflexivity|]. cbn.
    rewrite !app_nil_r. repeat split. constructor.
  - cbn [clients map fst snd].
    rewrite (@tryProviders_cons Net Wire.clock).
    destruct (@down_fails p _ (Hdown (List.length (sent (LLMProviderController.env s)))
                                     (probeOf p apiKey))) as [reason Hreason].
    assert (H := generateResponse_cases trim p apiKey prompt (LLMProviderController.env s)).
    rewrite Hreason in H. destruct H as [e' [Hrun [Hsent [Hwire _]]]].
    rewrite Hrun.
    match goal with
    | |- context [LLMProviderController.tryProviders _ _ _ ?l ?st] =>
        destruct (IH prompt l st) as [s' [added [Hrest [Hlog [Hentries Hcalls]]]]]
    end.
    { cbn [LLMProviderController.env]. rewrite Hwire. exact Hdown. }
    exists s'. eexists. split; [exact Hrest|].
    cbn [LLMProviderController.failureLog LLMProviderController.env] in Hlog, Hcalls.
    split; [rewrite Hlog, <- app_assoc; reflexivity|].
    split.
    + constructor; [|exact Hentries]. split; [destruct p; reflexivity|].
      exists reason. reflexivity.
    + rewrite Hcalls, Hsent, <- app_assoc. reflexivity.
Qed.

(** X24. A controller built from any keys, asked while every endpoint is
    down, returns the fixed failure message; its log gains one entry per
    configured provider, in hierarchy order, each reading "<Name> provider
    is not available: <reason>"; and the only fetches made are the
    probes, one per provider: the prompt is not sent. *)
Theorem controller_with_endpoints_down :
  forall (trim : string -> string) (groqApiKey huggingFaceApiKey : option string)
         (prompt : string) (e : Net),
    (forall k c, down (wire e k c)) ->
    exists controller e1 s',
      Construction.construct trim groqApiKey huggingFaceApiKey e
      = (Normal controller, e1) /\
      LLMProviderController.generateResponse Wire.clock
        (Construction.providers controller) prompt (Scenarios.started e1)
      = (Normal FAILURE_MESSAGE, s') /\
      Forall2 unavailableEntry (hierarchy groqApiKey huggingFaceApiKey)
              (LLMProviderController.failureLog s') /\
      sent (LLMProviderController.env s')
      = sent e ++ probes (hierarchy groqApiKey huggingFaceApiKey).
Proof.
  intros trim groqApiKey huggingFaceApiKey prompt e Hdown.
  destruct (construct_run trim groqApiKey huggingFaceApiKey e)
    as [e1 [Hrun [Hsent [Hwire [_ [_ Hsame]]]]]].
  destruct (hierarchy groqApiKey huggingFaceApiKey) as [|pk rest] eqn:Hspecs.
  - eexists. exists e1, (Scenarios.started e1). split; [exact Hrun|].
    cbn. rewrite app_nil_r. repeat split; [constructor | exact Hsent].
  - destruct (@tryProviders_down trim (pk :: rest) prompt "" (Scenarios.started e1))
      as [s' [added [Hloop [Hlog [Hentries Hcalls]]]]].
    { cbn [Scenarios.started LLMProviderController.env]. rewrite Hwire. exact Hdown. }
    eexists. exists e1, s'. split; [exact Hrun|].
    cbn [Construction.providers].
    split; [exact Hloop|].
    cbn [Scenarios.started LLMProviderController.failureLog LLMProviderController.env
         app] in Hlog, Hcalls.
    rewrite Hlog, Hcalls, Hsent. split; [exact Hentries | reflexivity].
Qed.

Lemma controller_with_endpoints_down_witness :
  exists controller e1 s',
    Construction.construct Scenarios.trimAscii (Some "gsk-1") (Some "hf-1")
      (Scenarios.net Scenarios.refused)
    = (Normal controller, e1) /\
    LLMProviderController.generateResponse Wire.clock
      (Construction.providers controller) "why?" (Scenarios.started e1)
    = (Normal FAILURE_MESSAGE, s') /\
    List.length (LLMProviderController.failureLog s') = 2%nat /\
    sent (LLMProviderController.env s')
    = [GroqProvider.probe "gsk-1"; HuggingFaceProvider.probe "hf-1"].
Proof.
  destruct (@controller_with_endpoints_down Scenarios.trimAscii (Some "gsk-1")
              (Some "hf-1") "why?" (Scenarios.net Scenarios.refused))
    as [controller [e1 [s' [Hmade [Hrun [Hlog Hsent]]]]]].
  - intros k c. exact I.
  - exists controller, e1, s'. split; [exact Hmade|]. split; [exact Hrun|].
    split; [|exact Hsent].
    apply Forall2_length in Hlog. symmetry. exact Hlog.
Defined.

(** X25. Failover with the controller's own clients: Groq is found
    unavailable by its probe, HuggingFace passes its probe and answers.
    The controller returns the generated text trimmed, logs the one Groq
    failure, and makes three fetches: the two probes and the HuggingFace
    completion, the only one that carries the prompt. *)
Theorem controller_fails_over_to_huggingface :
  forall (trim : string -> string) (groqKey hfKey prompt reason s : string) (e : Net)
         (busy answer : Reply),
    probeFailure GROQ (wire e (List.length (sent e)) (GroqProvider.probe groqKey))
    = Some reason ->
    wire e (1 + List.length (sent e)) (HuggingFaceProvider.probe hfKey) = Normal busy ->
    passes HUGGINGFACE busy = true ->
    wire e (2 + List.length (sent e)) (HuggingFaceProvider.completion hfKey prompt)
    = Normal answer ->
    ok answer = true ->
    inference answer = Normal (InferenceArray (Text s)) \/
    inference answer = Normal (InferenceObject (Text s)) ->
    exists s' stamp,
      LLMProviderController.generateResponse Wire.clock
        [GroqProvider.client groqKey; HuggingFaceProvider.client trim hfKey]
        prompt (Scenarios.started e)
      = (Normal (trim s), s') /\
      LLMProviderController.failureLog s'
      = [mkFailure "groq" ("Groq provider is not available: " ++ reason) stamp] /\
      sent (LLMProviderController.env s')
      = sent e ++ [GroqProvider.probe groqKey; HuggingFaceProvider.probe hfKey;
                   HuggingFaceProvider.completion hfKey prompt].
Proof.
  intros trim groqKey hfKey prompt reason s e busy answer
         Hgroq Hprobe Hbusy Hanswer Hok Hbody.
  cbn [LLMProviderController.generateResponse].
  rewrite (@tryProviders_cons Net Wire.clock).
  cbn [Scenarios.started LLMProviderController.env LLMProviderController.failureLog
       LLMProviderController.console GroqProvider.client LLMProvider.generateResponse
       LLMProvider.name].
  assert (H := generateResponse_cases trim GROQ groqKey prompt e).
  cbn [probeOf Construction.clientFor GroqProvider.client LLMProvider.generateResponse
       displayName] in H.
  rewrite Hgroq in H. destruct H as [e1 [Hrun [Hsent [Hwire _]]]].
  rewrite Hrun.
  rewrite (@tryProviders_cons Net Wire.clock).
  cbn [LLMProviderController.env LLMProviderController.failureLog
       LLMProviderController.console HuggingFaceProvider.client
       LLMProvider.generateResponse LLMProvider.name].
  destruct (@hf_generateResponse_answer trim hfKey prompt s e1 busy answer)
    as [e2 [Hrun2 [Hsent2 _]]]; try assumption.
  - rewrite Hwire, Hsent, length_app, Nat.add_1_r. exact Hprobe.
  - rewrite Hwire, Hsent, length_app, Nat.add_1_r. exact Hanswer.
  - rewrite Hrun2. eexists. eexists. split; [reflexivity|].
    cbn [LLMProviderController.failureLog LLMProviderController.env content app].
    split; [reflexivity|].
    rewrite Hsent2, Hsent, <- app_assoc. reflexivity.
Qed.

Lemma controller_fails_over_to_huggingface_witness :
  exists s' stamp,
    LLMProviderController.generateResponse Wire.clock
      [GroqProvider.client "gsk-1"; HuggingFaceProvider.client Scenarios.trimAscii "hf-1"]
      "why?" (Scenarios.started (Scenarios.net (Scenarios.groqUnreachable "  Tides. ")))
    = (Normal "Tides.", s') /\
    LLMProviderController.failureLog s'
    = [mkFailure "groq" "Groq provider is not available: fetch failed" stamp] /\
    sent (LLMProviderController.env s')
    = [GroqProvider.probe "gsk-1"; HuggingFaceProvider.probe "hf-1";
       HuggingFaceProvider.completion "hf-1" "why?"].
Proof.
  exact (@controller_fails_over_to_huggingface Scenarios.trimAscii "gsk-1" "hf-1"
           "why?" "fetch failed" "  Tides. "
           (Scenarios.net (Scenarios.groqUnreachable "  Tides. "))
           Scenarios.loading (Scenarios.generated "  Tides. ")
           eq_refl eq_refl eq_refl eq_refl eq_refl (or_introl eq_refl)).
Defined.

(** X26. [testAllProviders] on a controller built from any keys never
    throws and probes each configured provider once, in hierarchy order,
    touching neither the failure log nor the console; the record it
    returns is, entry by entry, the [isHealthy] flag that [getSystemHealth]
    reports afterwards. *)
Theorem testAllProviders_agrees_with_health :
  forall (trim : string -> string) (groqApiKey huggingFaceApiKey : option string)
         (e : Net),
    exists controller e1 results s',
      Construction.construct trim groqApiKey huggingFaceApiKey e
      = (Normal controller, e1) /\
      Construction.testAllProviders (Construction.providers controller)
        (Scenarios.started e1)
      = (Normal results, s') /\
      results
      = map (fun entry => (providerTypeString (fst entry), isHealthy (snd entry)))
            (LLMProviderController.sh_providers
               (LLMProviderController.getSystemHealth Wire.clock
                  (Construction.providers controller) s')) /\
      sent (LLMProviderController.env s')
      = sent e ++ probes (hierarchy groqApiKey huggingFaceApiKey) /\
      LLMProviderController.failureLog s' = [] /\
      LLMProviderController.console s' = [].
Proof.
  intros trim groqApiKey huggingFaceApiKey e.
  destruct (construct_run trim groqApiKey huggingFaceApiKey e)
    as [e1 [Hrun [Hsent _]]].
  eexists. exists e1.
  cut (exists results s',
         Construction.testAllProviders
           (clients trim (hierarchy groqApiKey huggingFaceApiKey)) (Scenarios.started e1)
         = (Normal results, s') /\
         results
         = map (fun entry => (providerTypeString (fst entry), isHealthy (snd entry)))
               (LLMProviderController.sh_providers
                  (LLMProviderController.getSystemHealth Wire.clock
                     (clients trim (hierarchy groqApiKey huggingFaceApiKey)) s')) /\
         sent (LLMProviderController.env s')
         = sent e ++ probes (hierarchy groqApiKey huggingFaceApiKey) /\
         LLMProviderController.failureLog s' = [] /\
         LLMProviderController.console s' = []).
  { intros [results [s' H]]. exists results, s'. split; [exact Hrun | exact H]. }
  clear Hrun. unfold hierarchy.
  destruct (Construction.configured groqApiKey "your_groq_api_key_here") as [k1|];
    destruct (Construction.configured huggingFaceApiKey "your_huggingface_api_key_here")
      as [k2|];
    unfold Construction.testAllProviders, LLMProviderController.call;
    cbn [Scenarios.started LLMProviderController.env LLMProviderController.failureLog
         LLMProviderController.console];
    cbn [clients map app fst snd Construction.clientFor Construction.probeEach];
    unfold bind;
    cbn [LLMProvider.isAvailable GroqProvider.client HuggingFaceProvider.client
         LLMProvider.name];
    try rewrite groq_isAvailable_run;
    try (destruct (wire e1 (List.length (sent e1)) (GroqProvider.probe k1))
          as [r1|error1]);
    try rewrite (hf_isAvailable_run trim);
    cbn [ticks reads wire sent groqHealth hfHealth];
    try (match goal with
         | |- context [match ?w ?n (HuggingFaceProvider.probe k2) with _ => _ end] =>
             destruct (w n (HuggingFaceProvider.probe k2)) as [r2|error2]
         end);
    (eexists; eexists; split; [reflexivity|]);
    cbn; rewrite Hsent, <- ?app_assoc, ?app_nil_r; repeat split.
Qed.

End ClientProperties.

(* ================================================================== *)
(** * Properties of the analysis steps *)
(* ================================================================== *)

Section AnalysisProperties.

Import AnalysisSteps.

Variable Env : Type.
Variable clock : Env -> Z.
Variable providers : list (LLMProvider.t Env).
Variable trim : string -> string.
Variable JSON_stringify : DataSummary -> string.
Variable JSON_parse : string -> Completion Parsed.
Variable toFixed1 : JSNumber -> string.

Let State : Type := LLMProviderController.State Env.

(** The controller always answers. *)
Lemma ask_returns :
  forall (prompt : string) (s : State),
    exists r s', ask clock providers prompt s = (Normal r, s').
Proof.
  intros prompt s. unfold ask.
  apply (@generateResponse_never_throws Env clock providers prompt s).
Qed.

(** Without a provider that answers, it answers with the fixed message. *)
Lemma ask_unanswered :
  forall (prompt : string) (s : State),
    providers = [] \/
    LLMProviderController.allFail providers prompt (LLMProviderController.env s) = true ->
    exists s', ask clock providers prompt s = (Normal FAILURE_MESSAGE, s').
Proof.
  intros prompt s [Hnone|Hfail]; unfold ask.
  - rewrite Hnone. eexists. reflexivity.
  - destruct providers as [|p rest]; [eexists; reflexivity|].
    apply (@tryProviders_all_fail Env clock (p :: rest) prompt "" s Hfail).
Qed.

Lemma performKnowledgeAnalysis_run :
  forall (query : string) (intent : IntentResult) (s s1 : State) (r : string),
    ask clock providers (knowledgePrompt query intent) s = (Normal r, s1) ->
    performKnowledgeAnalysis clock providers trim JSON_parse query intent s
    = (Normal
         match JSON_parse (extractJson (trim r)) with
         | Normal parsed =>
             Analysis.mkAnalysis
               (FailureHandler.orString (p_summary parsed)
                  "Knowledge-based analysis completed")
               (orList (p_insights parsed) ["Analysis completed"])
               (countOnly 0) false "groq|huggingface" (95 # 100)
         | Throw _ =>
             Analysis.mkAnalysis
               ("Analysis of " ++ query
                ++ ": Based on established oceanographic knowledge")%string
               ["Knowledge-based analysis completed"]
               (countOnly 0) false "groq|huggingface" (8 # 10)
         end, s1).
Proof.
  intros query intent s s1 r Hask.
  unfold performKnowledgeAnalysis, tryCatch, bind. rewrite Hask.
  unfold liftC, ret. destruct (JSON_parse (extractJson (trim r))); reflexivity.
Qed.

Lemma performHybridAnalysis_run :
  forall (query : string) (data : DataResult) (intent : IntentResult)
         (s s1 : State) (r : string),
    ask clock providers (hybridPrompt query data intent) s = (Normal r, s1) ->
    performHybridAnalysis clock providers trim JSON_parse query data intent s
    = (Normal
         match JSON_parse (extractJson (trim r)) with
         | Normal parsed =>
             Analysis.mkAnalysis
               (FailureHandler.orString (p_summary parsed)
                  "Analysis completed with available data")
               (orList (p_insights parsed) ["Data analysis completed"])
               (withCount (p_statistics parsed) (List.length (profiles data)))
               (negb (isEmpty data)) "groq|huggingface" (9 # 10)
         | Throw _ =>
             Analysis.mkAnalysis
               ("Analysis of " ++ query ++ ": "
                ++ (if negb (isEmpty data)
                    then "Based on " ++ natToString (List.length (profiles data))
                         ++ " ocean profiles"
                    else "Based on scientific knowledge"))%string
               ["Analysis completed"; "Data processed successfully"]
               (countOnly (List.length (profiles data)))
               (negb (isEmpty data)) "groq|huggingface" (7 # 10)
         end, s1).
Proof.
  intros query data intent s s1 r Hask.
  unfold performHybridAnalysis, tryCatch, bind. rewrite Hask.
  unfold liftC, ret. destruct (JSON_parse (extractJson (trim r))); reflexivity.
Qed.

Lemma analyzeData_run :
  forall (data : DataResult) (intent : IntentResult) (s s1 : State) (r : string),
    isEmpty data = false ->
    ask clock providers (analyzePrompt JSON_stringify data intent) s = (Normal r, s1) ->
    analyzeData clock providers trim JSON_stringify JSON_parse toFixed1 data intent s
    = (Normal
         match JSON_parse (extractJson (trim r)) with
         | Normal parsed =>
             Analysis.mkAnalysis
               (FailureHandler.orString (p_summary parsed) "Data analysis completed")
               (orList (p_insights parsed) ["Data processed successfully"])
               (withCount (p_statistics parsed) (List.length (profiles data)))
               true "groq|huggingface" (85 # 100)
         | Throw _ =>
             Analysis.mkAnalysis
               ("Analysis of " ++ natToString (List.length (profiles data))
                ++ " ocean profiles from " ++ md_region (metadata data))%string
               ["Data analysis completed"; "Statistical processing successful"]
               (Analysis.calculateBasicStats data) true "groq|huggingface" (7 # 10)
         end, s1).
Proof.
  intros data intent s s1 r Hfull Hask.
  unfold analyzeData. rewrite Hfull. unfold tryCatch, bind. rewrite Hask.
  unfold liftC, ret. destruct (JSON_parse (extractJson (trim r))); reflexivity.
Qed.

Lemma withCount_count :
  forall v n, Analysis.profileCount (withCount v n) = n.
Proof. intros [v|] n; reflexivity. Qed.

(** X27. Whichever analysis is chosen and whatever the language model
    answers, [performIntelligentAnalysis] does not throw, and two fields of
    its result are never taken from the model: [hasRealData] is false for
    the knowledge analysis and otherwise tells that the data is not flagged
    empty, and [statistics.profileCount] is 0 for the knowledge analysis
    and for the data analysis of empty data, and otherwise the number of
    profiles. *)
Theorem performIntelligentAnalysis_grounded :
  forall (query : string) (data : DataResult) (intent : IntentResult)
         (routing : Routing.RoutingDecision) (s : State),
    exists a s',
      performIntelligentAnalysis clock providers trim JSON_stringify JSON_parse toFixed1
        query data intent routing s = (Normal a, s') /\
      Analysis.hasRealData a
      = match Routing.analysisType routing with
        | Routing.KnowledgeAnalysis => false
        | _ => negb (isEmpty data)
        end /\
      Analysis.profileCount (Analysis.statistics a)
      = match Routing.analysisType routing with
        | Routing.KnowledgeAnalysis => 0%nat
        | Routing.HybridAnalysis => List.length (profiles data)
        | Routing.DataAnalysis =>
            if isEmpty data then 0%nat else List.length (profiles data)
        end.
Proof.
  intros query data intent routing s. unfold performIntelligentAnalysis.
  destruct (Routing.analysisType routing).
  - destruct (ask_returns (knowledgePrompt query intent) s) as [r [s1 Hask]].
    rewrite (@performKnowledgeAnalysis_run query intent s s1 r Hask).
    eexists. exists s1. split; [reflexivity|].
    destruct (JSON_parse (extractJson (trim r))); split; reflexivity.
  - destruct (isEmpty data) eqn:Hempty.
    + unfold analyzeData. rewrite Hempty. eexists. exists s.
      split; [reflexivity|]. split; reflexivity.
    + destruct (ask_returns (analyzePrompt JSON_stringify data intent) s)
        as [r [s1 Hask]].
      rewrite (@analyzeData_run data intent s s1 r Hempty Hask).
      eexists. exists s1. split; [reflexivity|].
      destruct (JSON_parse (extractJson (trim r))); split;
        try reflexivity; apply withCount_count.
  - destruct (ask_returns (hybridPrompt query data intent) s) as [r [s1 Hask]].
    rewrite (@performHybridAnalysis_run query data intent s s1 r Hask).
    eexists. exists s1. split; [reflexivity|].
    destruct (JSON_parse (extractJson (trim r))); split;
      try reflexivity; apply withCount_count.
Qed.

Lemma extractJson_failure_message : extractJson FAILURE_MESSAGE = FAILURE_MESSAGE.
Proof. vm_compute. reflexivity. Qed.

(** X28. When no provider answers (none is configured, or each one
    throws), the analysis still succeeds and does not say so: the fixed
    failure message is not JSON, so the inner fallback of each analysis is
    taken.  The summary is made from the query or from the data, the
    provider is reported as "groq|huggingface" (as "none" only for the data
    analysis of empty data), and the data analysis carries the statistics
    of [calculateBasicStats]. *)
Theorem performIntelligentAnalysis_unanswered :
  forall (query : string) (data : DataResult) (intent : IntentResult)
         (routing : Routing.RoutingDecision) (s : State),
    (providers = [] \/
     forall prompt,
       LLMProviderController.allFail providers prompt (LLMProviderController.env s)
       = true) ->
    trim FAILURE_MESSAGE = FAILURE_MESSAGE ->
    (exists error, JSON_parse FAILURE_MESSAGE = Throw error) ->
    exists a s',
      performIntelligentAnalysis clock providers trim JSON_stringify JSON_parse toFixed1
        query data intent routing s = (Normal a, s') /\
      Analysis.summary a
      = match Routing.analysisType routing with
        | Routing.KnowledgeAnalysis =>
            ("Analysis of " ++ query
             ++ ": Based on established oceanographic knowledge")%string
        | Routing.HybridAnalysis =>
            ("Analysis of " ++ query ++ ": "
             ++ (if isEmpty data then "Based on scientific knowledge"
                 else "Based on " ++ natToString (List.length (profiles data))
                      ++ " ocean profiles"))%string
        | Routing.DataAnalysis =>
            if isEmpty data
            then "No data available for this query. Try refining filters."
            else ("Analysis of " ++ natToString (List.length (profiles data))
                  ++ " ocean profiles from " ++ md_region (metadata data))%string
        end /\
      Analysis.llmProvider a
      = match Routing.analysisType routing with
        | Routing.DataAnalysis => if isEmpty data then "none" else "groq|huggingface"
        | _ => "groq|huggingface"
        end /\
      (Routing.analysisType routing = Routing.DataAnalysis ->
       isEmpty data = false ->
       Analysis.statistics a = Analysis.calculateBasicStats data).
Proof.
  intros query data intent routing s Hdown Htrim [error Hparse].
  assert (Hask : forall prompt,
            exists s', ask clock providers prompt s = (Normal FAILURE_MESSAGE, s')).
  { intros prompt. apply ask_unanswered.
    destruct Hdown as [Hnone|Hfail]; [left; exact Hnone | right; apply Hfail]. }
  unfold performIntelligentAnalysis.
  destruct (Routing.analysisType routing).
  - destruct (Hask (knowledgePrompt query intent)) as [s1 H1].
    rewrite (@performKnowledgeAnalysis_run query intent s s1 FAILURE_MESSAGE H1).
    rewrite Htrim, extractJson_failure_message, Hparse.
    eexists. exists s1. split; [reflexivity|]. split; [reflexivity|].
    split; [reflexivity|]. intros Hdata. discriminate Hdata.
  - destruct (isEmpty data) eqn:Hempty.
    + unfold analyzeData. rewrite Hempty. eexists. exists s.
      split; [reflexivity|]. split; [reflexivity|]. split; [reflexivity|].
      intros _ Hfull. discriminate Hfull.
    + destruct (Hask (analyzePrompt JSON_stringify data intent)) as [s1 H1].
      rewrite (@analyzeData_run data intent s s1 FAILURE_MESSAGE Hempty H1).
      rewrite Htrim, extractJson_failure_message, Hparse.
      eexists. exists s1. split; [reflexivity|]. split; [reflexivity|].
      split; [reflexivity|]. intros _ _. reflexivity.
  - destruct (Hask (hybridPrompt query data intent)) as [s1 H1].
    rewrite (@performHybridAnalysis_run query data intent s s1 FAILURE_MESSAGE H1).
    rewrite Htrim, extractJson_failure_message, Hparse.
    eexists. exists s1. split; [reflexivity|].
    split; [destruct (isEmpty data); reflexivity|].
    split; [reflexivity|]. intros Hdata. discriminate Hdata.
Qed.

(** X29. [addScientificContext] does not throw and changes only the
    summary and the insights, the latter by appending: [hasRealData], the
    statistics, the provider and the confidence are those of the analysis
    it is given.  For an intent that is not data-driven, or an analysis
    without real data, it returns the analysis as it is and does not ask
    the language model. *)
Theorem addScientificContext_keeps :
  forall (analysis : Analysis.AnalysisResult) (intent : IntentResult)
         (originalQuery : string) (s : State),
    exists a s',
      addScientificContext clock providers trim JSON_parse analysis intent originalQuery s
      = (Normal a, s') /\
      Analysis.hasRealData a = Analysis.hasRealData analysis /\
      Analysis.statistics a = Analysis.statistics analysis /\
      Analysis.llmProvider a = Analysis.llmProvider analysis /\
      Analysis.a_confidence a = Analysis.a_confidence analysis /\
      (exists more, Analysis.insights a = Analysis.insights analysis ++ more) /\
      (queryType intent <> DATA_DRIVEN \/ Analysis.hasRealData analysis = false ->
       a = analysis /\ s' = s).
Proof.
  intros analysis intent originalQuery s. unfold addScientificContext.
  assert (Hsame : exists more,
            Analysis.insights analysis = Analysis.insights analysis ++ more).
  { exists []. rewrite app_nil_r. reflexivity. }
  assert (Hunchanged : forall s' : State,
            Analysis.hasRealData analysis = Analysis.hasRealData analysis /\
            Analysis.statistics analysis = Analysis.statistics analysis /\
            Analysis.llmProvider analysis = Analysis.llmProvider analysis /\
            Analysis.a_confidence analysis = Analysis.a_confidence analysis /\
            (exists more, Analysis.insights analysis = Analysis.insights analysis ++ more)).
  { intros s'. repeat split. exact Hsame. }
  destruct (queryType intent) eqn:Htype.
  - exists analysis, s. split; [reflexivity|].
    destruct (Hunchanged s) as [H1 [H2 [H3 [H4 H5]]]].
    repeat (split; [assumption|]). intros _. split; reflexivity.
  - destruct (Analysis.hasRealData analysis) eqn:Hreal.
    + destruct (ask_returns (contextPrompt analysis originalQuery) s) as [r [s1 Hask]].
      unfold tryCatch, bind. rewrite Hask. unfold liftC, ret.
      destruct (JSON_parse (extractJson (trim r))) as [enhancement|error].
      * eexists. exists s1. split; [reflexivity|].
        cbn [Analysis.hasRealData Analysis.statistics Analysis.llmProvider
             Analysis.a_confidence Analysis.insights].
        split; [reflexivity|]. split; [reflexivity|]. split; [reflexivity|].
        split; [reflexivity|]. split; [eexists; reflexivity|].
        intros [Hno|Hno]; [congruence | discriminate Hno].
      * exists analysis, s1. split; [reflexivity|].
        split; [exact Hreal|]. split; [reflexivity|]. split; [reflexivity|].
        split; [reflexivity|]. split; [exact Hsame|].
        intros [Hno|Hno]; [congruence | discriminate Hno].
    + exists analysis, s. split; [reflexivity|].
      split; [exact Hreal|]. split; [reflexivity|]. split; [reflexivity|].
      split; [reflexivity|]. split; [exact Hsame|].
      intros _. split; reflexivity.
  - exists analysis, s. split; [reflexivity|].
    destruct (Hunchanged s) as [H1 [H2 [H3 [H4 H5]]]].
    repeat (split; [assumption|]). intros _. split; reflexivity.
Qed.

(** X30. The path of a knowledge query in explorer mode, after intent
    detection: [routeQuery] asks for no data and for the knowledge
    analysis; that analysis succeeds whatever the language model does;
    [addScientificContext] passes it on untouched, without asking the model
    again; and the visualization is the text-only specification, an empty
    plotly chart whose fallback text is the summary of the analysis,
    whatever data is at hand. *)
Theorem knowledge_route_is_text_only :
  forall (P : Platform) (query : string) (intent : IntentResult) (data : DataResult)
         (userMode : option UserMode) (s : State),
    queryType intent = KNOWLEDGE_DRIVEN ->
    userMode = Some EXPLORER \/ (userMode = None /\ mode intent = EXPLORER) ->
    Routing.shouldFetchData (Routing.routeQuery intent userMode) = false /\
    exists a s1,
      performIntelligentAnalysis clock providers trim JSON_stringify JSON_parse toFixed1
        query data intent (Routing.routeQuery intent userMode) s = (Normal a, s1) /\
      addScientificContext clock providers trim JSON_parse a intent query s1
      = (Normal a, s1) /\
      Visualization.generateAdaptiveVisualization P a intent data
      = Visualization.mkVizSpec CHART Visualization.EmptyConfig (Visualization.Rows [])
          Visualization.PLOTLY (Some (Analysis.summary a)).
Proof.
  intros P query intent data userMode s Htype Hmode.
  assert (Hroute : Routing.routeQuery intent userMode
                   = Routing.mkRouting false Routing.KnowledgeAnalysis).
  { unfold Routing.routeQuery. rewrite Htype.
    destruct Hmode as [->|[-> ->]]; reflexivity. }
  rewrite Hroute. split; [reflexivity|].
  unfold performIntelligentAnalysis. cbn [Routing.analysisType].
  destruct (ask_returns (knowledgePrompt query intent) s) as [r [s1 Hask]].
  rewrite (@performKnowledgeAnalysis_run query intent s s1 r Hask).
  eexists. exists s1. split; [reflexivity|].
  unfold addScientificContext, Visualization.generateAdaptiveVisualization.
  rewrite Htype. split; [reflexivity|].
  destruct (JSON_parse (extractJson (trim r))); reflexivity.
Qed.

End AnalysisProperties.

Lemma performIntelligentAnalysis_unanswered_witness :
  exists a s',
    AnalysisSteps.performIntelligentAnalysis Fixtures.tick
      [Fixtures.groqDown; Fixtures.hfDown] Scenarios.trimAscii Scenarios.flat
      Scenarios.unparsable Scenarios.oneDecimal
      "salinity profiles in the north atlantic" Soundings.threeCasts
      Fixtures.atlantic2020 (Routing.mkRouting true Routing.DataAnalysis) Fixtures.fresh
    = (Normal a, s') /\
    Analysis.summary a = "Analysis of 3 ocean profiles from North Atlantic" /\
    Analysis.llmProvider a = "groq|huggingface".
Proof.
  destruct (@performIntelligentAnalysis_unanswered nat Fixtures.tick
              [Fixtures.groqDown; Fixtures.hfDown] Scenarios.trimAscii Scenarios.flat
              Scenarios.unparsable Scenarios.oneDecimal
              "salinity profiles in the north atlantic" Soundings.threeCasts
              Fixtures.atlantic2020 (Routing.mkRouting true Routing.DataAnalysis)
              Fixtures.fresh)
    as [a [s' [Hrun [Hsummary [Hprovider _]]]]].
  - right. intros prompt. reflexivity.
  - vm_compute. reflexivity.
  - eexists. reflexivity.
  - exists a, s'. split; [exact Hrun|]. split; [exact Hsummary | exact Hprovider].
Defined.

Lemma knowledge_route_is_text_only_witness :
  Routing.shouldFetchData (Routing.routeQuery Fixtures.knowledgeIntent (Some EXPLORER))
  = false /\
  exists a s1,
    AnalysisSteps.performIntelligentAnalysis Fixtures.tick
      [Fixtures.groqDown; Fixtures.hfUp] Scenarios.trimAscii Scenarios.flat
      Scenarios.unparsable Scenarios.oneDecimal
      "why is the sea salty?" MCPOrchestrator.skippedResult Fixtures.knowledgeIntent
      (Routing.routeQuery Fixtures.knowledgeIntent (Some EXPLORER)) Fixtures.fresh
    = (Normal a, s1) /\
    Visualization.fallbackText
      (Visualization.generateAdaptiveVisualization Runtime.platform a
         Fixtures.knowledgeIntent MCPOrchestrator.skippedResult)
    = Some (Analysis.summary a).
Proof.
  destruct (@knowledge_route_is_text_only nat Fixtures.tick
              [Fixtures.groqDown; Fixtures.hfUp] Scenarios.trimAscii Scenarios.flat
              Scenarios.unparsable Scenarios.oneDecimal Runtime.platform
              "why is the sea salty?" Fixtures.knowledgeIntent
              MCPOrchestrator.skippedResult (Some EXPLORER) Fixtures.fresh)
    as [Hfetch [a [s1 [Hrun [_ Hviz]]]]].
  - reflexivity.
  - left. reflexivity.
  - split; [exact Hfetch|]. exists a, s1. split; [exact Hrun|].
    rewrite Hviz. reflexivity.
Defined.
